(** * Paired-image dataset: parameter sampling, transform composition,
      cropping, path repetition and the byte cache

    A shallow embedding of [data/base_dataset.py] and
    [data/aligned_dataset.py].  Python objects are modelled as they are
    used: integers as [Z], the values of [random.random()] and the
    configured probabilities as rationals (every binary64 value is one and
    the code only compares them), dicts as insertion-ordered association
    lists, the objects reached through variables as entries of a store,
    exceptions as a result type, and the pseudo random generator as a
    stream of uniform draws read in order. *)

From Stdlib Require Import ZArith QArith Qround Ascii String List Lia Lqa.
From Stdlib.Strings Require Import Byte.
From Stdlib.Sorting Require Import Sorted.
From Stdlib Require Import Floats.SpecFloat.
From stdpp Require Import gmap strings list fin_maps.

Set Warnings "-register-all".
Close Scope Q_scope.
Open Scope string_scope.
Open Scope Z_scope.

(* ===================================================================== *)
(** ** Exceptions and results *)
(* ===================================================================== *)

Inductive exn : Type :=
| KeyError (key : string)
| TypeError
| ValueError
| ZeroDivisionError
| AssertionError
| OverflowError
| IndexError
| FileNotFoundError (path : string).

Inductive result (A : Type) : Type :=
| Ok (a : A)
| Raise (e : exn).
Arguments Ok {A} a.
Arguments Raise {A} e.

Definition is_ok {A} (r : result A) : bool :=
  match r with Ok _ => true | Raise _ => false end.

(* ===================================================================== *)
(** ** The random generator

    [random.random()] returns a float in [[0, 1)].  A stream gives the
    successive uniform draws; the generator state is the position of the
    next draw.  [randint] and [shuffle] are the standard library's, built
    on a bounded draw: [_randbelow k] scales one uniform draw to
    [0 .. k-1]. *)
(* ===================================================================== *)

Definition stream : Type := nat -> Q.

Definition valid_stream (s : stream) : Prop :=
  forall n, (0 <= s n)%Q /\ (s n < 1)%Q.

(** A computation reads the stream and threads a state; [Rand] threads
    only the generator position. *)
Definition M (St A : Type) : Type := stream -> St -> result (A * St).

Definition Rand (A : Type) : Type := M nat A.

Definition ret {St A} (a : A) : M St A := fun _ n => Ok (a, n).

Definition raise {St A} (e : exn) : M St A := fun _ _ => Raise e.

Definition bind {St A B} (m : M St A) (k : A -> M St B) : M St B :=
  fun s n =>
    match m s n with
    | Ok (a, n') => k a s n'
    | Raise e => Raise e
    end.

Definition lift {St A} (r : result A) : M St A :=
  fun _ n => match r with Ok a => Ok (a, n) | Raise e => Raise e end.

Declare Scope rand_scope.
Delimit Scope rand_scope with rand.
Notation "'let!' x ':=' m 'in' k" := (bind m (fun x => k))
  (at level 10, x pattern, m at level 100, k at level 200) : rand_scope.
Open Scope rand_scope.

Definition Qltb (a b : Q) : bool := negb (Qle_bool b a).

(** [random.random()] *)
Definition random_random : Rand Q := fun s n => Ok (s n, S n).

(** [random._randbelow(k)], for [k > 0] *)
Definition randbelow (k : Z) : Rand Z :=
  fun s n => Ok (Qfloor (s n * inject_Z k)%Q, S n).

(** [random.randint(a, b)]: an integer [N] with [a <= N <= b]; an empty
    range raises [ValueError]. *)
Definition random_randint (a b : Z) : Rand Z :=
  if b <? a then raise ValueError
  else let! r := randbelow (b - a + 1) in ret (a + r).

(** [x[i], x[j] = x[j], x[i]] *)
Definition swap {A} (x : list A) (i j : nat) : list A :=
  match x !! i, x !! j with
  | Some xi, Some xj => <[i := xj]> (<[j := xi]> x)
  | _, _ => x
  end.

(** [random.shuffle(x)]:
    [for i in reversed(range(1, len(x))): j = randbelow(i + 1); swap] *)
Fixpoint shuffle_from {A} (i : nat) (x : list A) : Rand (list A) :=
  match i with
  | O => ret x
  | S i' =>
      let! j := randbelow (Z.of_nat i + 1) in
      shuffle_from i' (swap x i (Z.to_nat j))
  end.

Definition random_shuffle {A} (x : list A) : Rand (list A) :=
  shuffle_from (length x - 1)%nat x.

(* ===================================================================== *)
(** ** Python values

    Dicts keep insertion order, so a dict is an association list.  A
    tuple and a list are different values holding the same items; a
    function object is named by the function it is. *)
(* ===================================================================== *)

Inductive pyval : Type :=
| PNone
| PBool (b : bool)
| PInt (z : Z)
| PFloat (q : Q)
| PStr (s : string)
| PFun (name : string)
| PTuple (items : list pyval)
| PList (items : list pyval)
| PDict (items : list (string * pyval)).

Abbreviation dict := (list (string * pyval)).

Fixpoint dict_lookup (d : dict) (k : string) : option pyval :=
  match d with
  | [] => None
  | (k', v) :: d' => if String.eqb k' k then Some v else dict_lookup d' k
  end.

(** [d[k] = v]: replaces the value in place, or appends a new key. *)
Fixpoint dict_set (d : dict) (k : string) (v : pyval) : dict :=
  match d with
  | [] => [(k, v)]
  | (k', v') :: d' =>
      if String.eqb k' k then (k', v) :: d' else (k', v') :: dict_set d' k v
  end.

(** [d[k]] *)
Definition dict_getitem (d : dict) (k : string) : result pyval :=
  match dict_lookup d k with
  | Some v => Ok v
  | None => Raise (KeyError k)
  end.

(** [d.get(k, default)] *)
Definition dict_get (d : dict) (k : string) (default : pyval) : pyval :=
  match dict_lookup d k with
  | Some v => v
  | None => default
  end.

(** Truth value of an object, as tested by [if]. *)
Definition truthy (v : pyval) : bool :=
  match v with
  | PNone => false
  | PBool b => b
  | PInt z => negb (z =? 0)
  | PFloat q => negb (Qeq_bool q 0)
  | PStr s => negb (String.eqb s "")
  | PFun _ => true
  | PTuple l | PList l => match l with [] => false | _ => true end
  | PDict d => match d with [] => false | _ => true end
  end.

(** The number a value stands for in an ordering comparison with a float;
    [True] is 1 and [False] is 0. *)
Definition as_number (v : pyval) : option Q :=
  match v with
  | PBool b => Some (if b then 1%Q else 0%Q)
  | PInt z => Some (inject_Z z)
  | PFloat q => Some q
  | _ => None
  end.

(** [u < v] for a float [u] *)
Definition float_lt (u : Q) (v : pyval) : result bool :=
  match as_number v with
  | Some q => Ok (Qltb u q)
  | None => Raise TypeError
  end.

(** [v == s] for a string literal [s]: only a string can be equal to it. *)
Definition eq_str (v : pyval) (s : string) : bool :=
  match v with
  | PStr s' => String.eqb s' s
  | _ => false
  end.

(** [a, b = v] *)
Definition unpack2 (v : pyval) : result (pyval * pyval) :=
  match v with
  | PTuple [a; b] | PList [a; b] => Ok (a, b)
  | PTuple _ | PList _ => Raise ValueError
  | _ => Raise TypeError
  end.

Definition as_int (v : pyval) : result Z :=
  match v with
  | PInt z => Ok z
  | PBool b => Ok (if b then 1 else 0)
  | _ => Raise TypeError
  end.

(* ===================================================================== *)
(** ** JSON documents: [json.dumps] and [json.loads] *)
(* ===================================================================== *)

Inductive json : Type :=
| JNull
| JBool (b : bool)
| JInt (z : Z)
| JFloat (q : Q)
| JStr (s : string)
| JArr (items : list json)
| JObj (members : list (string * json)).

(** Tuples and lists are both written as arrays; a function object is not
    serializable. *)
Fixpoint json_dumps (v : pyval) : result json :=
  match v with
  | PNone => Ok JNull
  | PBool b => Ok (JBool b)
  | PInt z => Ok (JInt z)
  | PFloat q => Ok (JFloat q)
  | PStr s => Ok (JStr s)
  | PFun _ => Raise TypeError
  | PTuple l | PList l =>
      let fix items (l : list pyval) : result (list json) :=
        match l with
        | [] => Ok []
        | x :: l' =>
            match json_dumps x, items l' with
            | Ok j, Ok js => Ok (j :: js)
            | Raise e, _ => Raise e
            | _, Raise e => Raise e
            end
        end in
      match items l with Ok js => Ok (JArr js) | Raise e => Raise e end
  | PDict d =>
      let fix members (d : list (string * pyval)) : result (list (string * json)) :=
        match d with
        | [] => Ok []
        | (k, x) :: d' =>
            match json_dumps x, members d' with
            | Ok j, Ok js => Ok ((k, j) :: js)
            | Raise e, _ => Raise e
            | _, Raise e => Raise e
            end
        end in
      match members d with Ok js => Ok (JObj js) | Raise e => Raise e end
  end.

(** An array is read back as a list, an object as a dict. *)
Fixpoint json_loads (j : json) : pyval :=
  match j with
  | JNull => PNone
  | JBool b => PBool b
  | JInt z => PInt z
  | JFloat q => PFloat q
  | JStr s => PStr s
  | JArr l => PList (map json_loads l)
  | JObj m =>
      PDict (fold_left (fun d kx => dict_set d (fst kx) (json_loads (snd kx))) m [])
  end.

(* ===================================================================== *)
(** ** Binary64 arithmetic used by the size computations

    [int / int], [int * float] and [round(float)] on IEEE 754 binary64
    values, with the Standard Library's executable specification of the
    format (round to nearest, ties to even).  Integers below [2^53] in
    magnitude, as image sizes are, convert exactly. *)
(* ===================================================================== *)

Definition b64_of_int (z : Z) : spec_float :=
  match z with
  | Z0 => S754_zero false
  | Zpos p => binary_normalize 53 1024 (Zpos p) 0 false
  | Zneg p => SFopp (binary_normalize 53 1024 (Zpos p) 0 false)
  end.

(** [a / b] on integers *)
Definition int_truediv (a b : Z) : result spec_float :=
  if b =? 0 then Raise ZeroDivisionError
  else Ok (SFdiv 53 1024 (b64_of_int a) (b64_of_int b)).

(** [w * ratio] for an integer [w] and a float [ratio] *)
Definition int_mul_float (w : Z) (ratio : spec_float) : spec_float :=
  SFmul 53 1024 (b64_of_int w) ratio.

(** Nearest integer to [m * 2^e], ties to the even one. *)
Definition round_half_even (m : positive) (e : Z) : Z :=
  if 0 <=? e then Zpos m * 2 ^ e
  else
    let d := 2 ^ (- e) in
    let q := Zpos m / d in
    let r := Zpos m mod d in
    if 2 * r <? d then q
    else if d <? 2 * r then q + 1
    else if Z.even q then q else q + 1.

(** [round(x)] with one argument returns an integer; infinities and NaN
    raise. *)
Definition py_round (x : spec_float) : result Z :=
  match x with
  | S754_zero _ => Ok 0
  | S754_finite s m e =>
      Ok (if s then - round_half_even m e else round_half_even m e)
  | S754_infinity _ => Raise OverflowError
  | S754_nan => Raise ValueError
  end.

(* ===================================================================== *)
(** ** Options *)
(* ===================================================================== *)

Record Options : Type := {
  dataroot : string;
  phase : string;
  max_dataset_size : Z;
  repeat_dataset_count : Z;
  load_size : Z;
  crop_size : Z;
  preprocess : string;
  no_flip : bool;
  flip_x : bool;
  rotate : Z;
  direction : string;
  input_nc : Z;
  output_nc : Z;
  cache_num : Z;
  agument_grayscale_A : Q;
  agument_grayscale_B : Q;
  agument_blur_A : Q;
  agument_blur_B : Q;
  agument_distort_A : Q;
  agument_distort_B : Q;
  agument_whiteBK_A : Q
}.

(* ===================================================================== *)
(** ** [get_params] *)
(* ===================================================================== *)

(** The first half of [get_params]: the size the image will have after the
    resize step of the configured mode. *)
Definition resize_target (opt : Options) (size : Z * Z) : result (Z * Z) :=
  let '(w, h) := size in
  if String.eqb (preprocess opt) "resize_and_crop" then
    Ok (load_size opt, load_size opt)
  else if String.eqb (preprocess opt) "scale_width_and_crop" then
    if w =? 0 then Raise ZeroDivisionError
    else Ok (load_size opt, load_size opt * h / w)
  else if String.eqb (preprocess opt) "scale_short_and_crop" then
    let min_side := Z.min h w in
    match int_truediv (load_size opt) min_side with
    | Raise e => Raise e
    | Ok ratio =>
        match py_round (int_mul_float w ratio),
              py_round (int_mul_float h ratio) with
        | Ok new_w, Ok new_h => Ok (new_w, new_h)
        | Raise e, _ => Raise e
        | _, Raise e => Raise e
        end
    end
  else Ok (w, h).

Definition get_params (opt : Options) (size : Z * Z) : Rand dict :=
  let! (new_w, new_h) := lift (resize_target opt size) in
  let! x := random_randint 0 (Z.max 0 (new_w - crop_size opt)) in
  let! y := random_randint 0 (Z.max 0 (new_h - crop_size opt)) in
  let! u := random_random in
  let flip := Qltb (1 # 2) u in
  let! u' := random_random in
  let flip_x := Qltb (1 # 2) u' in
  let! rot := random_randint (- rotate opt) (rotate opt) in
  ret [("crop_pos", PTuple [PInt x; PInt y]);
       ("flip", PBool flip);
       ("flip_x", PBool flip_x);
       ("rotate", PInt rot)].

(* ===================================================================== *)
(** ** Images

    A PIL image as its size and its pixels; [pixel im x y] is the packed
    value at column [x], row [y]. *)
(* ===================================================================== *)

Record image : Type := {
  width : Z;
  height : Z;
  pixel : Z -> Z -> Z
}.

Definition wf_image (im : image) : Prop := 0 <= width im /\ 0 <= height im.

Definition inside (im : image) (x y : Z) : bool :=
  (0 <=? x) && (x <? width im) && (0 <=? y) && (y <? height im).

(** [im.crop((left, upper, right, lower))]: the result has the size of the
    box; the part of the box outside the image is filled with zeros.  A box
    with [right < left] or [lower < upper] is refused. *)
Definition Image_crop (im : image) (box : Z * Z * Z * Z) : result image :=
  let '(x0, y0, x1, y1) := box in
  if x1 <? x0 then Raise ValueError
  else if y1 <? y0 then Raise ValueError
  else Ok {| width := x1 - x0;
             height := y1 - y0;
             pixel := fun x y =>
               if inside im (x0 + x) (y0 + y)
               then pixel im (x0 + x) (y0 + y) else 0 |}.

(** [__crop(img, pos, size)] *)
Definition __crop (img : image) (pos : pyval) (size : Z) : result image :=
  let ow := width img in
  let oh := height img in
  match unpack2 pos with
  | Raise e => Raise e
  | Ok (px, py) =>
      match as_int px, as_int py with
      | Ok x1, Ok y1 =>
          let tw := size in
          let th := size in
          if (tw <? ow) || (th <? oh)
          then Image_crop img (x1, y1, x1 + tw, y1 + th)
          else Ok img
      | Raise e, _ => Raise e
      | _, Raise e => Raise e
      end
  end.

(** Lines 51-54 of [AlignedDataset.__getitem__]: [w2 = int(w / 2)], then the
    two crops.  [int] truncates; for a width below [2^53] the quotient
    [w / 2] is exact. *)
Definition split_AB (AB : image) : result (image * image) :=
  let w := width AB in
  let h := height AB in
  let w2 := Z.quot w 2 in
  match Image_crop AB (0, 0, w2, h), Image_crop AB (w2, 0, w, h) with
  | Ok A, Ok B => Ok (A, B)
  | Raise e, _ => Raise e
  | _, Raise e => Raise e
  end.

(* ===================================================================== *)
(** ** Transforms

    The members of [transform_list].  Each [transforms.Lambda] is named by
    the function its body calls, with the values the body reads. *)
(* ===================================================================== *)

Inductive InterpolationMode : Type := NEAREST | BILINEAR | BICUBIC | LANCZOS.

Inductive lambda : Type :=
| L_rotate (angle : pyval)
| L_scale_width (target_size crop : Z) (method : InterpolationMode)
| L_scale_short (target_size : Z) (method : InterpolationMode)
| L_crop (pos : option pyval) (size : Z)
| L_make_power_2 (base : Z) (method : InterpolationMode)
| L_flip (flip : pyval)
| L_flip_x (flip : pyval)
| L_gaussian_blur (radius : Z)
| L_median_blur (size : Z)
| L_brightness (lower upper : Q)
| L_contrast (lower upper : Q)
| L_saturation (lower upper : Q)
| L_hue (lower upper : Q)
| L_sharpness (lower upper : Q).

Inductive transform : Type :=
| Grayscale (num_output_channels : Z)
| Resize (osize : Z * Z) (method : InterpolationMode)
| RandomCrop (size : Z)
| RandomHorizontalFlip
| ToTensor
| Normalize (mean std : list Q)
| Lambda (f : lambda).

Inductive compose : Type := Compose (transform_list : list transform).

Definition transforms_of (c : compose) : list transform :=
  match c with Compose l => l end.

(** [needle in hay] on strings *)
Fixpoint contains (needle hay : string) : bool :=
  if String.prefix needle hay then true
  else match hay with
       | EmptyString => false
       | String _ hay' => contains needle hay'
       end.

(** Default arguments of [gaussian_blur(im, radius=2)] and
    [median_blur(im, size=3)]. *)
Definition gaussian_blur_default_radius : Z := 2.
Definition median_blur_default_size : Z := 3.

(** Lines 132-140: the blur stage. *)
Definition blur_stage (params : option dict) : Rand (list transform) :=
  match params with
  | None => ret []
  | Some p =>
      if truthy (dict_get p "blur" (PFloat 0)) then
        let! u := random_random in
        let! go := lift (float_lt u (dict_get p "blur" (PFloat 0))) in
        if go : bool then
          let blur_fn := [PStr "gaussian_blur"; PStr "median_blur"] in
          let! blur_fn := random_shuffle blur_fn in
          match blur_fn !! 0%nat with
          | None => raise IndexError
          | Some fn =>
              if eq_str fn "gaussian_blur"
              then ret [Lambda (L_gaussian_blur gaussian_blur_default_radius)]
              else ret [Lambda (L_median_blur median_blur_default_size)]
          end
        else ret []
      else ret []
  end.

(** Lines 142-147: the table of photometric functions, in insertion
    order.  The entry under ["f"] is the function object itself. *)
Definition fs : list (string * dict) :=
  [("brightness", [("f", PFun "brightness"); ("range", PFloat (1 # 10))]);
   ("contrast",   [("f", PFun "contrast");   ("range", PFloat (1 # 10))]);
   ("saturation", [("f", PFun "saturation"); ("range", PFloat (1 # 10))]);
   ("hue",        [("f", PFun "hue");        ("range", PFloat (1 # 10))]);
   ("sharpness",  [("f", PFun "sharpness");  ("range", PFloat (1 # 10))])].

Fixpoint fs_lookup (t : list (string * dict)) (k : string) : result dict :=
  match t with
  | [] => Raise (KeyError k)
  | (k', v) :: t' => if String.eqb k' k then Ok v else fs_lookup t' k
  end.

Definition as_float (v : pyval) : result Q :=
  match as_number v with Some q => Ok q | None => Raise TypeError end.

(** Lines 150-162: the body run for a key [k] whose draw succeeded. *)
Definition distort_body (k : string) : result (list transform) :=
  match fs_lookup fs k with
  | Raise e => Raise e
  | Ok v =>
      match dict_getitem v "range", dict_getitem v "f" with
      | Ok rg, Ok fn =>
          match as_float rg with
          | Raise e => Raise e
          | Ok range =>
              let lo := (1 - range)%Q in
              let hi := (1 + range)%Q in
              if eq_str fn "brightness" then Ok [Lambda (L_brightness lo hi)]
              else if eq_str fn "contrast" then Ok [Lambda (L_contrast lo hi)]
              else if eq_str fn "saturation" then Ok [Lambda (L_saturation lo hi)]
              else if eq_str fn "hue" then Ok [Lambda (L_hue lo hi)]
              else if eq_str fn "sharpness" then Ok [Lambda (L_sharpness lo hi)]
              else Ok []
          end
      | Raise e, _ => Raise e
      | _, Raise e => Raise e
      end
  end.

(** Lines 148-149: [for k in fs: if random.random() < params.get('distort',
    0.0): body], over the keys in insertion order.  [body k] is what the
    loop body appends for the key [k]; the results are concatenated in loop
    order. *)
Fixpoint gated_loop {T} (p : dict) (body : string -> result (list T))
    (keys : list string) : Rand (list T) :=
  match keys with
  | [] => ret []
  | k :: keys' =>
      let! u := random_random in
      let! go := lift (float_lt u (dict_get p "distort" (PFloat 0))) in
      let! here := (if go : bool then lift (body k) else ret []) in
      let! rest := gated_loop p body keys' in
      ret (here ++ rest)%list
  end.

(** Lines 141-162: the distort stage. *)
Definition distort_stage (params : option dict) : Rand (list transform) :=
  match params with
  | None => ret []
  | Some p =>
      if truthy (dict_get p "distort" (PFloat 0))
      then gated_loop p distort_body (map fst fs)
      else ret []
  end.

(* ===================================================================== *)
(** ** [get_transform] *)
(* ===================================================================== *)

(** Lines 104-106 *)
Definition rotate_stage (params : option dict) : result (list transform) :=
  match params with
  | None => Ok []
  | Some p =>
      match dict_getitem p "rotate" with
      | Raise e => Raise e
      | Ok r => if truthy r then Ok [Lambda (L_rotate r)] else Ok []
      end
  end.

(** Lines 107-113 *)
Definition resize_stage (opt : Options) (method : InterpolationMode)
  : list transform :=
  if contains "resize" (preprocess opt) then
    [Resize (load_size opt, load_size opt) method]
  else if contains "scale_width" (preprocess opt) then
    [Lambda (L_scale_width (load_size opt) (crop_size opt) method)]
  else if contains "scale_short" (preprocess opt) then
    [Lambda (L_scale_short (load_size opt) method)]
  else [].

(** Lines 115-119; the lambda reads [params['crop_pos']] when it runs. *)
Definition crop_stage (opt : Options) (params : option dict)
  : list transform :=
  if contains "crop" (preprocess opt) then
    match params with
    | None => [RandomCrop (crop_size opt)]
    | Some p => [Lambda (L_crop (dict_lookup p "crop_pos") (crop_size opt))]
    end
  else [].

(** Lines 121-122 *)
Definition none_stage (opt : Options) (method : InterpolationMode)
  : list transform :=
  if String.eqb (preprocess opt) "none"
  then [Lambda (L_make_power_2 4 method)] else [].

(** Lines 124-131; [opt.flip_x and params['flip_x']] reads the key only
    when [opt.flip_x] holds. *)
Definition flip_stage (opt : Options) (params : option dict)
  : result (list transform) :=
  if no_flip opt then Ok []
  else
    match params with
    | None => Ok [RandomHorizontalFlip]
    | Some p =>
        match dict_getitem p "flip" with
        | Raise e => Raise e
        | Ok f =>
            let hflip := if truthy f then [Lambda (L_flip f)] else [] in
            if flip_x opt then
              match dict_getitem p "flip_x" with
              | Raise e => Raise e
              | Ok fx =>
                  Ok (hflip ++ (if truthy fx then [Lambda (L_flip_x fx)] else []))%list
              end
            else Ok hflip
        end
    end.

(** Lines 163-164 *)
Definition grayscale_stage (params : option dict) (grayscale : bool)
  : list transform :=
  if grayscale then []
  else match params with
       | None => []
       | Some p =>
           if truthy (dict_get p "grayscale" (PBool false))
           then [Grayscale 3] else []
       end.

(** Lines 165-170 *)
Definition convert_stage (grayscale convert : bool) : list transform :=
  if convert then
    ToTensor ::
    (if grayscale then [Normalize [1 # 2] [1 # 2]]
     else [Normalize [1 # 2; 1 # 2; 1 # 2] [1 # 2; 1 # 2; 1 # 2]])%Q
  else [].

Definition get_transform (opt : Options) (params : option dict)
    (grayscale : bool) (method : InterpolationMode) (convert : bool)
  : Rand compose :=
  let t1 := if grayscale then [Grayscale 1] else [] in
  let! t2 := lift (rotate_stage params) in
  let t3 := resize_stage opt method in
  let t4 := crop_stage opt params in
  let t5 := none_stage opt method in
  let! t6 := lift (flip_stage opt params) in
  let! t7 := blur_stage params in
  let! t8 := distort_stage params in
  let t9 := grayscale_stage params grayscale in
  let t10 := convert_stage grayscale convert in
  ret (Compose (t1 ++ t2 ++ t3 ++ t4 ++ t5 ++ t6 ++ t7 ++ t8 ++ t9 ++ t10)%list).

(** Calling a [Compose] runs its members in order.  What each member does
    to the data is the library's; the call is written over it. *)
Section ComposeCall.
Variable X : Type.
Variable apply1 : transform -> X -> Rand X.

Fixpoint run_all (ts : list transform) (x : X) : Rand X :=
  match ts with
  | [] => ret x
  | t :: ts' => let! x' := apply1 t x in run_all ts' x'
  end.

Definition Compose_call (c : compose) (x : X) : Rand X :=
  run_all (transforms_of c) x.

(** [get_transform(...)(img)] *)
Definition transformed (opt : Options) (params : option dict)
    (grayscale : bool) (x : X) : Rand X :=
  let! c := get_transform opt params grayscale BICUBIC true in
  Compose_call c x.
End ComposeCall.

(* ===================================================================== *)
(** ** The store and lines 64-75 of [AlignedDataset.__getitem__]

    [transform_params_A] and [transform_params_B] name dict objects.  A
    variable holds the location of its object in the store, an item
    assignment updates the object in place, and two variables holding the
    same location see each other's assignments.  The items of a dict are
    held by value: the only container among them, [crop_pos], is an
    immutable tuple in the dict [get_params] returns and a list built by
    [json.loads] in the clone. *)
(* ===================================================================== *)

Abbreviation loc := nat.
Abbreviation store := (gmap nat pyval).

Record pystate : Type := {
  objects : store;
  rng_pos : nat
}.

(** A computation on the generator alone, run in the full state. *)
Definition with_rng {A} (m : Rand A) : M pystate A :=
  fun s st =>
    match m s (rng_pos st) with
    | Ok (a, n) => Ok (a, {| objects := objects st; rng_pos := n |})
    | Raise e => Raise e
    end.

(** A new object at a location not in use. *)
Definition new_object (v : pyval) : M pystate loc :=
  fun _ st =>
    let l := fresh (dom (objects st)) in
    Ok (l, {| objects := <[l := v]> (objects st); rng_pos := rng_pos st |}).

Definition read_object (l : loc) : M pystate pyval :=
  fun _ st =>
    match objects st !! l with
    | Some v => Ok (v, st)
    | None => Raise TypeError
    end.

Definition read_dict (l : loc) : M pystate dict :=
  let! v := read_object l in
  match v with
  | PDict d => ret d
  | _ => raise TypeError
  end.

(** [x[k] = v] for the dict object at [l] *)
Definition setitem (l : loc) (k : string) (v : pyval) : M pystate unit :=
  fun _ st =>
    match objects st !! l with
    | Some (PDict d) =>
        Ok (tt, {| objects := <[l := PDict (dict_set d k v)]> (objects st);
                   rng_pos := rng_pos st |})
    | _ => Raise TypeError
    end.

(** [params[k] = random.random() < p] for the dict object at [l] and a
    configured probability [p] *)
Definition assign_flag (l : loc) (k : string) (p : Q) : M pystate unit :=
  let! u := with_rng random_random in
  setitem l k (PBool (Qltb u p)).

(** Lines 64-65: [get_params], then the clone through JSON. *)
Definition shared_geometry (opt : Options) (size : Z * Z)
  : M pystate (loc * loc) :=
  let! d := with_rng (get_params opt size) in
  let! transform_params_A := new_object (PDict d) in
  let! a := read_object transform_params_A in
  let! text := lift (json_dumps a) in
  let! transform_params_B := new_object (json_loads text) in
  ret (transform_params_A, transform_params_B).

(** Lines 66-72: the branch flags, assigned in this order. *)
Definition branch_flags (opt : Options) (AB : loc * loc) : M pystate unit :=
  let '(transform_params_A, transform_params_B) := AB in
  let! _ := assign_flag transform_params_A "grayscale" (agument_grayscale_A opt) in
  let! _ := assign_flag transform_params_B "grayscale" (agument_grayscale_B opt) in
  let! _ := assign_flag transform_params_A "blur" (agument_blur_A opt) in
  let! _ := assign_flag transform_params_B "blur" (agument_blur_B opt) in
  let! _ := assign_flag transform_params_A "distort" (agument_distort_A opt) in
  let! _ := assign_flag transform_params_B "distort" (agument_distort_B opt) in
  assign_flag transform_params_B "whiteBK" (agument_whiteBK_A opt).

(** Lines 64-72 *)
Definition branch_params (opt : Options) (size : Z * Z)
  : M pystate (loc * loc) :=
  let! AB := shared_geometry opt size in
  let! _ := branch_flags opt AB in
  ret AB.

(** Lines 74-75, for channel counts [input_nc] and [output_nc] already
    chosen by the direction. *)
Definition branch_transforms (opt : Options) (in_nc out_nc : Z)
    (AB : loc * loc) : M pystate (compose * compose) :=
  let! pa := read_dict (fst AB) in
  let! pb := read_dict (snd AB) in
  let! A_transform :=
    with_rng (get_transform opt (Some pa) (in_nc =? 1) BICUBIC true) in
  let! B_transform :=
    with_rng (get_transform opt (Some pb) (out_nc =? 1) BICUBIC true) in
  ret (A_transform, B_transform).

(** The geometry a parameter set holds, as the transforms read it:
    [x1, y1 = params['crop_pos']], [params['flip']], [params['flip_x']],
    [params['rotate']]. *)
Definition geometry_of (d : dict)
  : result (pyval * pyval * pyval * pyval * pyval) :=
  match dict_getitem d "crop_pos" with
  | Raise e => Raise e
  | Ok pos =>
      match unpack2 pos, dict_getitem d "flip", dict_getitem d "flip_x",
            dict_getitem d "rotate" with
      | Ok (x, y), Ok f, Ok fx, Ok r => Ok (x, y, f, fx, r)
      | Raise e, _, _, _ => Raise e
      | _, Raise e, _, _ => Raise e
      | _, _, Raise e, _ => Raise e
      | _, _, _, Raise e => Raise e
      end
  end.

Definition is_geometry_key (k : string) : bool :=
  String.eqb k "crop_pos" || String.eqb k "flip" || String.eqb k "flip_x"
  || String.eqb k "rotate".

(** The geometry entries of a parameter set, serialized. *)
Definition geometry_json (d : dict) : result json :=
  json_dumps (PDict (List.filter (fun kv => is_geometry_key (fst kv)) d)).

(* ===================================================================== *)
(** ** The dataset object: [__init__] and [get_cache_path] *)
(* ===================================================================== *)

Abbreviation bytes := (list Byte.byte).

Record AlignedDataset : Type := {
  ds_opt : Options;
  ds_root : string;
  ds_cache : gmap string bytes;
  ds_dir_AB : string;
  ds_AB_paths : list string;
  ds_input_nc : Z;
  ds_output_nc : Z
}.

(** [os.path.join(a, b)] on POSIX paths *)
Definition ends_with_slash (a : string) : bool :=
  match String.get (String.length a - 1) a with
  | Some c => Ascii.eqb c "/"%char
  | None => false
  end.

Definition os_path_join (a b : string) : string :=
  if String.prefix "/" b then b
  else if String.eqb a "" then b
  else if ends_with_slash a then a ++ b
  else a ++ "/" ++ b.

(** [sorted] on strings: ascending code-point order. *)
Fixpoint insert_sorted (x : string) (l : list string) : list string :=
  match l with
  | [] => [x]
  | y :: l' => if String.leb x y then x :: l else y :: insert_sorted x l'
  end.

Definition sorted (l : list string) : list string :=
  fold_right insert_sorted [] l.

(** [for n in range(count): paths.extend(temp)] *)
Fixpoint extend_times (count : nat) (paths temp : list string) : list string :=
  match count with
  | O => paths
  | S count' => extend_times count' (paths ++ temp)%list temp
  end.

(** Lines 27-30 *)
Definition repeat_paths (AB_paths : list string) (repeat_count : Z)
  : list string :=
  if 1 <? repeat_count then
    let temp := AB_paths in
    extend_times (Z.to_nat (repeat_count - 1)) AB_paths temp
  else AB_paths.

Section Dataset.
(** [data.image_folder.make_dataset(dir, max_dataset_size)]: the image
    files found under [dir]. *)
Variable make_dataset : string -> Z -> list string.

(** [AlignedDataset.__init__] *)
Definition AlignedDataset_init (opt : Options) : result AlignedDataset :=
  let dir_AB := os_path_join (dataroot opt) (phase opt) in
  let AB_paths := sorted (make_dataset dir_AB (max_dataset_size opt)) in
  let AB_paths := repeat_paths AB_paths (repeat_dataset_count opt) in
  if load_size opt >=? crop_size opt then
    Ok {| ds_opt := opt;
          ds_root := dataroot opt;
          ds_cache := ∅;
          ds_dir_AB := dir_AB;
          ds_AB_paths := AB_paths;
          ds_input_nc := if String.eqb (direction opt) "BtoA"
                         then output_nc opt else input_nc opt;
          ds_output_nc := if String.eqb (direction opt) "BtoA"
                          then input_nc opt else output_nc opt |}
  else Raise AssertionError.
End Dataset.

(** [__len__] *)
Definition AlignedDataset_len (self : AlignedDataset) : Z :=
  Z.of_nat (length (ds_AB_paths self)).

Definition set_cache (self : AlignedDataset) (c : gmap string bytes)
  : AlignedDataset :=
  {| ds_opt := ds_opt self; ds_root := ds_root self; ds_cache := c;
     ds_dir_AB := ds_dir_AB self; ds_AB_paths := ds_AB_paths self;
     ds_input_nc := ds_input_nc self; ds_output_nc := ds_output_nc self |}.

(** [get_cache_path(self, path)], for the files [disk] holds when it is
    called: the bytes returned and the dataset afterwards.  Opening a file
    that is not there raises. *)
Definition get_cache_path (disk : gmap string bytes) (self : AlignedDataset)
    (path : string) : result (bytes * AlignedDataset) :=
  match ds_cache self !! path with
  | Some bts => Ok (bts, self)
  | None =>
      match disk !! path with
      | None => Raise (FileNotFoundError path)
      | Some bts =>
          if Z.of_nat (size (ds_cache self)) <? cache_num (ds_opt self)
          then Ok (bts, set_cache self (<[path := bts]> (ds_cache self)))
          else Ok (bts, self)
      end
  end.

(** A run of calls, each with the disk it finds; a call that raises leaves
    the dataset as it was. *)
Fixpoint cache_run (self : AlignedDataset)
    (calls : list (gmap string bytes * string)) : AlignedDataset :=
  match calls with
  | [] => self
  | (disk, path) :: calls' =>
      match get_cache_path disk self path with
      | Ok (_, self') => cache_run self' calls'
      | Raise _ => cache_run self calls'
      end
  end.


(* ===================================================================== *)
(** ** Readings of the composed transform and concrete inputs *)
(* ===================================================================== *)

Definition is_blur (t : transform) : bool :=
  match t with
  | Lambda (L_gaussian_blur _) | Lambda (L_median_blur _) => true
  | _ => false
  end.

(** The blur members of a composed transform, in the order they run. *)
Definition blurs_of (c : compose) : list transform :=
  List.filter is_blur (transforms_of c).

(** The five photometric operations with the bounds [1 - 0.1] and
    [1 + 0.1], in table order. *)
Definition photometric_ops : list transform :=
  [Lambda (L_brightness (9 # 10) (11 # 10));
   Lambda (L_contrast (9 # 10) (11 # 10));
   Lambda (L_saturation (9 # 10) (11 # 10));
   Lambda (L_hue (9 # 10) (11 # 10));
   Lambda (L_sharpness (9 # 10) (11 # 10))]%Q.

(** Those of [ops] whose own draw, the [i]-th from position [n], is below
    [prob]. *)
Fixpoint selected_by_draws {T} (prob : Q) (s : stream) (n : nat)
    (ops : list T) : list T :=
  match ops with
  | [] => []
  | t :: ops' =>
      if Qltb (s n) prob
      then t :: selected_by_draws prob s (S n) ops'
      else selected_by_draws prob s (S n) ops'
  end.

(** Two parameter sets that agree on every key but ['whiteBK']. *)
Definition same_but_whiteBK (p1 p2 : dict) : Prop :=
  forall k, k <> "whiteBK" -> dict_lookup p1 k = dict_lookup p2 k.

(** A stream with the same draw at every position, and a stream that
    starts with given draws. *)
Definition const_stream (q : Q) : stream := fun _ => q.

Definition stream_of (l : list Q) (rest : Q) : stream :=
  fun n => nth n l rest.

(** A configuration: the given mode, sizes, rotation bound and a common
    augmentation probability; flips enabled. *)
Definition config (mode : string) (load crop rot : Z) (prob : Q) : Options :=
  {| dataroot := "datasets/facades"; phase := "train";
     max_dataset_size := 1000; repeat_dataset_count := 1;
     load_size := load; crop_size := crop; preprocess := mode;
     no_flip := false; flip_x := true; rotate := rot;
     direction := "AtoB"; input_nc := 3; output_nc := 3; cache_num := 2;
     agument_grayscale_A := prob; agument_grayscale_B := prob;
     agument_blur_A := prob; agument_blur_B := prob;
     agument_distort_A := prob; agument_distort_B := prob;
     agument_whiteBK_A := prob |}.

(** An image of a given size with pixel value [x + y * w] at [(x, y)]. *)
Definition ramp (w h : Z) : image :=
  {| width := w; height := h; pixel := fun x y => x + y * w |}.

(** A parameter set as [__getitem__] builds it. *)
Definition params_with (x y : Z) (fl flx : bool) (rot : Z)
    (gray blur distort : bool) : dict :=
  [("crop_pos", PTuple [PInt x; PInt y]); ("flip", PBool fl);
   ("flip_x", PBool flx); ("rotate", PInt rot);
   ("grayscale", PBool gray); ("blur", PBool blur);
   ("distort", PBool distort)].

Definition set_repeat (k : Z) (opt : Options) : Options :=
  {| dataroot := dataroot opt; phase := phase opt;
     max_dataset_size := max_dataset_size opt; repeat_dataset_count := k;
     load_size := load_size opt; crop_size := crop_size opt;
     preprocess := preprocess opt; no_flip := no_flip opt;
     flip_x := flip_x opt; rotate := rotate opt;
     direction := direction opt; input_nc := input_nc opt;
     output_nc := output_nc opt; cache_num := cache_num opt;
     agument_grayscale_A := agument_grayscale_A opt;
     agument_grayscale_B := agument_grayscale_B opt;
     agument_blur_A := agument_blur_A opt;
     agument_blur_B := agument_blur_B opt;
     agument_distort_A := agument_distort_A opt;
     agument_distort_B := agument_distort_B opt;
     agument_whiteBK_A := agument_whiteBK_A opt |}.

(** A directory listing of five files, out of order. *)
Definition five_files (dir : string) (max_size : Z) : list string :=
  [dir ++ "/3.jpg"; dir ++ "/1.jpg"; dir ++ "/5.jpg"; dir ++ "/2.jpg";
   dir ++ "/4.jpg"].

(** The bound on the cache. *)
Definition cache_bounded (self : AlignedDataset) : Prop :=
  Z.of_nat (size (ds_cache self)) <= Z.max 0 (cache_num (ds_opt self)).

(** A dataset as [__init__] leaves it, with [cache_num = 2], and a disk
    holding three files. *)
Definition three_paths : list string := ["a.jpg"; "b.jpg"; "c.jpg"].

Definition new_dataset : AlignedDataset :=
  {| ds_opt := config "resize_and_crop" 286 256 0 0;
     ds_root := "datasets/facades";
     ds_cache := ∅;
     ds_dir_AB := "datasets/facades/train";
     ds_AB_paths := three_paths;
     ds_input_nc := 3;
     ds_output_nc := 3 |}.

Definition three_files : gmap string bytes :=
  <["a.jpg" := [x61]]> (<["b.jpg" := [x62]]> (<["c.jpg" := [x63]]> ∅)).

(** The reading of the crop step with the crop skipped separately in each
    dimension: the result is never larger than the image, and has the crop
    size only in a dimension where the image exceeds it. *)
Definition crop_skips_per_dimension (img : image) (pos : pyval) (size : Z)
  : Prop :=
  exists out,
    __crop img pos size = Ok out /\
    width out = Z.min (width img) size /\
    height out = Z.min (height img) size.

(** What a run of a transform records: the members called, in order. *)
Definition record_call (t : transform) (seen : list transform)
  : Rand (list transform) :=
  ret (seen ++ [t])%list.


(** The blur picked by the shuffle draw [u]: the swap happens for the lower
    half of the draws and puts the median blur first. *)
Definition blur_picked (u : Q) : transform :=
  if Qltb u (1 # 2)
  then Lambda (L_median_blur median_blur_default_size)
  else Lambda (L_gaussian_blur gaussian_blur_default_radius).

(** The reading of the distort stage as gated by the configured
    probability [prob]: the stage appends exactly the operations whose own
    draw is below [prob], in table order. *)
Definition distort_gated_by_probability (prob : Q) (p : dict)
    (s : stream) (n : nat) : Prop :=
  forall l n',
    distort_stage (Some p) s n = Ok (l, n') ->
    l = selected_by_draws prob s n photometric_ops.

(** The state in which [a] and [b] name two different dict objects. *)
Definition two_dicts (st : pystate) (a b : loc) (dA dB : dict) : Prop :=
  a <> b /\
  objects st !! a = Some (PDict dA) /\
  objects st !! b = Some (PDict dB).

Definition empty_state : pystate := {| objects := ∅; rng_pos := 0 |}.

(** The reading of the two parameter sets as identical in their geometry:
    under each of the four geometry keys both hold the same value, of the
    same shape. *)
Definition identical_geometry (d1 d2 : dict) : Prop :=
  forall k, is_geometry_key k = true -> dict_lookup d1 k = dict_lookup d2 k.

(** That reading of lines 64-65: whenever they return, the source-branch
    object and the target-branch object hold identical geometry. *)
Definition geometry_shared_verbatim (opt : Options) (size : Z * Z)
    (s : stream) (st : pystate) : Prop :=
  forall a b st2 dA dB,
    shared_geometry opt size s st = Ok ((a, b), st2) ->
    objects st2 !! a = Some (PDict dA) ->
    objects st2 !! b = Some (PDict dB) ->
    identical_geometry dA dB.

(** Two parameter sets hold the same geometry: the same offset, flags and
    rotation as the transforms read them, and the same serialized
    geometry entries. *)
Definition same_geometry (d1 d2 : dict) : Prop :=
  is_ok (geometry_of d1) = true /\
  geometry_of d1 = geometry_of d2 /\
  is_ok (geometry_json d1) = true /\
  geometry_json d1 = geometry_json d2.

(** What [get_params] returns for a 600 by 400 image, mode
    [resize_and_crop], sizes 286 and 256, rotation bound 10 and every draw
    equal to 1/2. *)
Definition params_at_half : dict :=
  [("crop_pos", PTuple [PInt 15; PInt 15]); ("flip", PBool false);
   ("flip_x", PBool false); ("rotate", PInt 0)].

(** Lines 64-75: both parameter sets, then both composed transforms. *)
Definition getitem_transforms (opt : Options) (in_nc out_nc : Z)
    (size : Z * Z) : M pystate (compose * compose) :=
  let! AB := branch_params opt size in
  branch_transforms opt in_nc out_nc AB.

(** Draws of 9/10 except the eighth, 1/10, which sets the source branch's
    blur flag under a configured probability of 1/2. *)
Definition blur_flag_stream : stream :=
  stream_of [9 # 10; 9 # 10; 9 # 10; 9 # 10; 9 # 10; 9 # 10; 9 # 10; 1 # 10]%Q
            (9 # 10)%Q.

(* ===================================================================== *)
(** ** Further readings of the composed transform *)
(* ===================================================================== *)

Definition is_photometric (t : transform) : bool :=
  match t with
  | Lambda (L_brightness _ _) | Lambda (L_contrast _ _)
  | Lambda (L_saturation _ _) | Lambda (L_hue _ _)
  | Lambda (L_sharpness _ _) => true
  | _ => false
  end.

Definition is_convert (t : transform) : bool :=
  match t with
  | ToTensor | Normalize _ _ => true
  | _ => false
  end.




(** A flag entry that is missing or holds a bool, and its truth value. *)
Definition bool_or_missing (p : dict) (k : string) : Prop :=
  dict_lookup p k = None \/ exists b, dict_lookup p k = Some (PBool b).

Definition flag_set (p : dict) (k : string) : bool :=
  truthy (dict_get p k (PFloat 0)).

(** The draws [get_transform] makes for a parameter set: two for a blur,
    five for the distort loop. *)
Definition draws_of (p : dict) : nat :=
  ((if flag_set p "blur" then 2 else 0)
   + (if flag_set p "distort" then 5 else 0))%nat.


(** The parameter sets after lines 64-72, for the set [d] that
    [get_params] returned with the generator at position [n]: each flag is
    the comparison of one draw with one configured probability. *)
Definition source_params (opt : Options) (s : stream) (n : nat) (d : dict)
  : dict :=
  (d ++ [("grayscale", PBool (Qltb (s n) (agument_grayscale_A opt)));
         ("blur", PBool (Qltb (s (n + 2)%nat) (agument_blur_A opt)));
         ("distort", PBool (Qltb (s (n + 4)%nat) (agument_distort_A opt)))])%list.

Definition target_params (opt : Options) (s : stream) (n : nat) (dB : dict)
  : dict :=
  (dB ++ [("grayscale", PBool (Qltb (s (n + 1)%nat) (agument_grayscale_B opt)));
          ("blur", PBool (Qltb (s (n + 3)%nat) (agument_blur_B opt)));
          ("distort", PBool (Qltb (s (n + 5)%nat) (agument_distort_B opt)));
          ("whiteBK", PBool (Qltb (s (n + 6)%nat) (agument_whiteBK_A opt)))])%list.

(** The clone of a parameter set through JSON. *)
Definition json_clone (d : dict) : result pyval :=
  match json_dumps (PDict d) with
  | Ok text => Ok (json_loads text)
  | Raise e => Raise e
  end.

(** The same five files, listed in the opposite order. *)
Definition five_files_reversed (dir : string) (max_size : Z) : list string :=
  rev (five_files dir max_size).

(** Ascending order on strings. *)
Definition ascending (l : list string) : Prop :=
  StronglySorted (fun a b => String.leb a b = true) l.

Definition set_cache_num (k : Z) (opt : Options) : Options :=
  {| dataroot := dataroot opt; phase := phase opt;
     max_dataset_size := max_dataset_size opt;
     repeat_dataset_count := repeat_dataset_count opt;
     load_size := load_size opt; crop_size := crop_size opt;
     preprocess := preprocess opt; no_flip := no_flip opt;
     flip_x := flip_x opt; rotate := rotate opt;
     direction := direction opt; input_nc := input_nc opt;
     output_nc := output_nc opt; cache_num := k;
     agument_grayscale_A := agument_grayscale_A opt;
     agument_grayscale_B := agument_grayscale_B opt;
     agument_blur_A := agument_blur_A opt;
     agument_blur_B := agument_blur_B opt;
     agument_distort_A := agument_distort_A opt;
     agument_distort_B := agument_distort_B opt;
     agument_whiteBK_A := agument_whiteBK_A opt |}.

(** The dataset after ["a.jpg"] was read, a disk on which that file has
    changed since, and a dataset with [cache_num = 0]. *)
Definition warm_dataset : AlignedDataset :=
  set_cache new_dataset (<["a.jpg" := [x61]]> ∅).

Definition changed_files : gmap string bytes :=
  <["a.jpg" := [x7a; x7a]]> three_files.

Definition uncached_dataset : AlignedDataset :=
  {| ds_opt := set_cache_num 0 (config "resize_and_crop" 286 256 0 0);
     ds_root := "datasets/facades";
     ds_cache := ∅;
     ds_dir_AB := "datasets/facades/train";
     ds_AB_paths := three_paths;
     ds_input_nc := 3;
     ds_output_nc := 3 |}.

(* ===================================================================== *)
(** ** The resizing helpers: [__make_power_2], [__scale_width],
       [__scale_short]

    [Image.resize] returns the image itself for its own size, refuses a
    size below one pixel, and otherwise returns an image of the requested
    size; what the resampling filter computes for the pixels is the
    library's and is a parameter here. *)
(* ===================================================================== *)

(** PIL's resampling constants and [__transforms2pil_resize]. *)
Inductive pil_filter : Type :=
  Image_NEAREST | Image_BILINEAR | Image_BICUBIC | Image_LANCZOS.

Definition __transforms2pil_resize (method : InterpolationMode) : pil_filter :=
  match method with
  | BILINEAR => Image_BILINEAR
  | BICUBIC => Image_BICUBIC
  | NEAREST => Image_NEAREST
  | LANCZOS => Image_LANCZOS
  end.

(** A number that is an [int] or a [float]. *)
Inductive number : Type :=
| NInt (z : Z)
| NFloat (f : spec_float).

(** [c > f] for an integer [c] and a float [f]; the comparison is exact. *)
Definition int_gt_float (c : Z) (f : spec_float) : bool :=
  match f with
  | S754_zero _ => 0 <? c
  | S754_finite sg m e =>
      let sm := if sg then Zneg m else Zpos m in
      if 0 <=? e then sm * 2 ^ e <? c else sm <? c * 2 ^ (- e)
  | S754_infinity sg => sg
  | S754_nan => false
  end.

(** [max(f, c)]: the second argument replaces the first only when it is
    greater. *)
Definition max_float_int (f : spec_float) (c : Z) : number :=
  if int_gt_float c f then NInt c else NFloat f.

(** [int(x)]: a float is truncated towards zero; infinities and NaN
    raise. *)
Definition py_int (x : number) : result Z :=
  match x with
  | NInt z => Ok z
  | NFloat (S754_zero _) => Ok 0
  | NFloat (S754_finite sg m e) =>
      let t := if 0 <=? e then Zpos m * 2 ^ e else Zpos m / 2 ^ (- e) in
      Ok (if sg then - t else t)
  | NFloat (S754_infinity _) => Raise OverflowError
  | NFloat S754_nan => Raise ValueError
  end.

(** The console: whether the size warning was printed, and the warnings
    printed, each with the four numbers it shows. *)
Record console : Type := {
  has_printed : bool;
  printed : list (Z * Z * Z * Z)
}.

Definition fresh_console : console := {| has_printed := false; printed := [] |}.

(** [__print_size_warning(ow, oh, w, h)] *)
Definition __print_size_warning (ow oh w h : Z) (c : console) : console :=
  if has_printed c then c
  else {| has_printed := true;
          printed := (printed c ++ [(ow, oh, w, h)])%list |}.

Section Resize.
Variable resample : pil_filter -> image -> Z * Z -> Z -> Z -> Z.

(** [img.resize((w, h), method)] *)
Definition Image_resize (im : image) (size : Z * Z) (method : pil_filter)
  : result image :=
  let '(w, h) := size in
  if (w =? width im) && (h =? height im) then Ok im
  else if (w <? 1) || (h <? 1) then Raise ValueError
  else Ok {| width := w; height := h; pixel := resample method im size |}.

(** [round(o / base) * base] *)
Definition round_to_multiple (o base : Z) : result Z :=
  match int_truediv o base with
  | Raise e => Raise e
  | Ok q =>
      match py_round q with
      | Raise e => Raise e
      | Ok r => Ok (r * base)
      end
  end.

(** [__make_power_2(img, base, method)]: the result and the console
    afterwards; the warning is printed before the resize is tried. *)
Definition __make_power_2 (img : image) (base : Z) (method : InterpolationMode)
    (c : console) : result image * console :=
  let method := __transforms2pil_resize method in
  let ow := width img in
  let oh := height img in
  match round_to_multiple oh base with
  | Raise e => (Raise e, c)
  | Ok h =>
      match round_to_multiple ow base with
      | Raise e => (Raise e, c)
      | Ok w =>
          if (h =? oh) && (w =? ow) then (Ok img, c)
          else (Image_resize img (w, h) method,
                __print_size_warning ow oh w h c)
      end
  end.

(** A run of calls of [__make_power_2] with base 4, as the composed
    transform makes them: the console afterwards. *)
Fixpoint power_2_run (imgs : list image) (c : console) : console :=
  match imgs with
  | [] => c
  | img :: imgs' => power_2_run imgs' (snd (__make_power_2 img 4 BICUBIC c))
  end.

(** [__scale_width(img, target_size, crop_size, method)] *)
Definition __scale_width (img : image) (target_size crop : Z)
    (method : InterpolationMode) : result image :=
  let method := __transforms2pil_resize method in
  let ow := width img in
  let oh := height img in
  if (ow =? target_size) && (crop <=? oh) then Ok img
  else
    let w := target_size in
    match int_truediv (target_size * oh) ow with
    | Raise e => Raise e
    | Ok q =>
        match py_int (max_float_int q crop) with
        | Raise e => Raise e
        | Ok h => Image_resize img (w, h) method
        end
    end.

(** [__scale_short(img, target_size, method)] *)
Definition __scale_short (img : image) (target_size : Z)
    (method : InterpolationMode) : result image :=
  let method := __transforms2pil_resize method in
  let ow := width img in
  let oh := height img in
  let min_side := Z.min ow oh in
  if min_side =? target_size then Ok img
  else
    match int_truediv target_size min_side with
    | Raise e => Raise e
    | Ok ratio =>
        match py_round (int_mul_float ow ratio),
              py_round (int_mul_float oh ratio) with
        | Ok new_w, Ok new_h => Image_resize img (new_w, new_h) method
        | Raise e, _ => Raise e
        | _, Raise e => Raise e
        end
    end.
End Resize.

(** A resampling that takes the nearest source pixel. *)
Definition nearest_pixel (method : pil_filter) (im : image) (size : Z * Z)
    (x y : Z) : Z :=
  pixel im (x * width im / fst size) (y * height im / snd size).

(** The size [__make_power_2] would give an image with base 4, when it is
    another size than the image has. *)
Definition adjusted_size (img : image) : option (Z * Z * Z * Z) :=
  match round_to_multiple (height img) 4, round_to_multiple (width img) 4 with
  | Ok h, Ok w =>
      if (h =? height img) && (w =? width img) then None
      else Some (width img, height img, w, h)
  | _, _ => None
  end.

(** The first image of a list that needs adjusting. *)
Fixpoint first_adjusted (imgs : list image) : option (Z * Z * Z * Z) :=
  match imgs with
  | [] => None
  | img :: imgs' =>
      match adjusted_size img with
      | Some a => Some a
      | None => first_adjusted imgs'
      end
  end.

(* ===================================================================== *)
(** ** [__rotate], [__flip], [__flip_x] *)
(* ===================================================================== *)

Inductive transpose_method : Type := FLIP_LEFT_RIGHT | FLIP_TOP_BOTTOM.

(** [img.transpose(method)] *)
Definition Image_transpose (im : image) (method : transpose_method) : image :=
  match method with
  | FLIP_LEFT_RIGHT =>
      {| width := width im; height := height im;
         pixel := fun x y => pixel im (width im - 1 - x) y |}
  | FLIP_TOP_BOTTOM =>
      {| width := width im; height := height im;
         pixel := fun x y => pixel im x (height im - 1 - y) |}
  end.

(** [__flip(img, flip)] and [__flip_x(img, flip)] *)
Definition __flip (img : image) (flip : pyval) : image :=
  if truthy flip then Image_transpose img FLIP_LEFT_RIGHT else img.

Definition __flip_x (img : image) (flip : pyval) : image :=
  if truthy flip then Image_transpose img FLIP_TOP_BOTTOM else img.

Section Rotate.
(** [img.rotate(angle, fillcolor=...)]: the library's. *)
Variable Image_rotate : image -> pyval -> string -> image.

(** [__rotate(img, rotate)] *)
Definition __rotate (img : image) (rotate : pyval) : image :=
  if truthy rotate then Image_rotate img rotate "white" else img.
End Rotate.

(** The test a rotate or flip member repeats when it runs. *)
Definition guard_holds (t : transform) : bool :=
  match t with
  | Lambda (L_rotate a) => truthy a
  | Lambda (L_flip f) => truthy f
  | Lambda (L_flip_x f) => truthy f
  | _ => true
  end.

(** A rotation that only records its angle in the corner pixel. *)
Definition mark_rotation (im : image) (angle : pyval) (fill : string) : image :=
  {| width := width im; height := height im;
     pixel := fun x y =>
       if (x =? 0) && (y =? 0)
       then match angle with PInt a => a | _ => 0 end
       else pixel im x y |}.

(* ===================================================================== *)
(** ** [transparent_to_whiteBK] and [AlignedDataset.__getitem__]

    A decoded image has a mode, the mode of its palette (read only when
    the mode is ['P']) and its pixels.  What a mode conversion, a solid
    fill and a masked paste compute for the pixels is the library's and is
    a parameter. *)
(* ===================================================================== *)

Record pimage : Type := {
  pil_mode : string;
  pil_palette_mode : string;
  pil_im : image
}.

(** [s[-1]] and [s[:-1]] *)
Definition last_char (s : string) : result ascii :=
  match String.get (String.length s - 1) s with
  | Some c => Ok c
  | None => Raise IndexError
  end.

Definition drop_last (s : string) : string :=
  String.substring 0 (String.length s - 1) s.

Definition ends_with_A (s : string) : bool :=
  match last_char s with
  | Ok c => Ascii.eqb c "A"%char
  | Raise _ => false
  end.

(** [l[index]] on a list: a negative index counts from the end. *)
Definition list_getitem {A} (l : list A) (index : Z) : result A :=
  let n := Z.of_nat (length l) in
  let i := if index <? 0 then index + n else index in
  if (i <? 0) || (n <=? i) then Raise IndexError
  else match l !! Z.to_nat i with
       | Some a => Ok a
       | None => Raise IndexError
       end.

Section PIL.
Variable convert_pixels : string -> string -> string -> image -> Z -> Z -> Z.
Variable solid : string -> list Z -> Z.
Variable paste_masked : string -> image -> image -> Z -> Z -> Z.

(** [image.convert(mode)] *)
Definition pil_convert (image : pimage) (mode : string) : pimage :=
  {| pil_mode := mode;
     pil_palette_mode := pil_palette_mode image;
     pil_im := {| width := width (pil_im image);
                  height := height (pil_im image);
                  pixel := convert_pixels (pil_mode image)
                             (pil_palette_mode image) mode (pil_im image) |} |}.

(** [Image.new(mode, size, color)] *)
Definition Image_new (mode : string) (size : Z * Z) (color : list Z) : pimage :=
  {| pil_mode := mode;
     pil_palette_mode := "";
     pil_im := {| width := fst size; height := snd size;
                  pixel := fun _ _ => solid mode color |} |}.

(** [new_image.paste(image, None, image)]: [image] pasted over the whole
    of [new_image] through its own alpha. *)
Definition paste_self_masked (new_image image : pimage) : pimage :=
  {| pil_mode := pil_mode new_image;
     pil_palette_mode := pil_palette_mode new_image;
     pil_im := {| width := width (pil_im new_image);
                  height := height (pil_im new_image);
                  pixel := paste_masked (pil_mode image) (pil_im new_image)
                             (pil_im image) |} |}.

(** [transparent_to_whiteBK(image)] *)
Definition transparent_to_whiteBK (image : pimage) : result pimage :=
  let palette_step :=
    if String.eqb (pil_mode image) "P" then
      match last_char (pil_palette_mode image) with
      | Raise e => Raise e
      | Ok c =>
          if Ascii.eqb c "A"%char
          then Ok (pil_convert image (pil_palette_mode image))
          else Ok image
      end
    else Ok image in
  match palette_step with
  | Raise e => Raise e
  | Ok image =>
      match last_char (pil_mode image) with
      | Raise e => Raise e
      | Ok c =>
          if Ascii.eqb c "A"%char then
            let new_mode := drop_last (pil_mode image) in
            let color := replicate (String.length new_mode) 255 in
            let new_image :=
              Image_new new_mode
                (width (pil_im image), height (pil_im image)) color in
            Ok (paste_self_masked new_image image)
          else Ok image
      end
  end.

(** [AB.crop(box)] keeps the mode. *)
Definition pil_crop (image : pimage) (box : Z * Z * Z * Z) : result pimage :=
  match Image_crop (pil_im image) box with
  | Ok im => Ok {| pil_mode := pil_mode image;
                   pil_palette_mode := pil_palette_mode image;
                   pil_im := im |}
  | Raise e => Raise e
  end.

Section GetItem.
Variable X : Type.
Variable Image_open : bytes -> result pimage.
Variable of_image : pimage -> X.
Variable apply1 : transform -> X -> Rand X.

Record sample : Type := {
  sample_A : X;
  sample_B : X;
  A_paths : string;
  B_paths : string
}.

(** Lines 51-80 of [__getitem__], from the decoded image on. *)
Definition getitem_body (self : AlignedDataset) (AB_path : string)
    (AB : pimage) : M pystate sample :=
  let w := width (pil_im AB) in
  let h := height (pil_im AB) in
  let w2 := Z.quot w 2 in
  let! A := lift (pil_crop AB (0, 0, w2, h)) in
  let! B := lift (pil_crop AB (w2, 0, w, h)) in
  let! u := with_rng random_random in
  let! A := (if Qltb u (agument_whiteBK_A (ds_opt self))
             then lift (transparent_to_whiteBK A) else ret A) in
  let A := pil_convert A "RGB" in
  let B := pil_convert B "RGB" in
  let! AB_transform :=
    getitem_transforms (ds_opt self) (ds_input_nc self) (ds_output_nc self)
      (width (pil_im A), height (pil_im A)) in
  let! A := with_rng (Compose_call X apply1 (fst AB_transform) (of_image A)) in
  let! B := with_rng (Compose_call X apply1 (snd AB_transform) (of_image B)) in
  ret {| sample_A := A; sample_B := B;
         A_paths := AB_path; B_paths := AB_path |}.

(** [AlignedDataset.__getitem__(self, index)]: the sample and the state, or
    the exception, together with the dataset afterwards, whose cache the
    call may have extended before it failed. *)
Definition __getitem__ (disk : gmap string bytes) (self : AlignedDataset)
    (index : Z) (s : stream) (st : pystate)
  : result (sample * pystate) * AlignedDataset :=
  match list_getitem (ds_AB_paths self) index with
  | Raise e => (Raise e, self)
  | Ok AB_path =>
      match get_cache_path disk self AB_path with
      | Raise e => (Raise e, self)
      | Ok (bts, self') =>
          match Image_open bts with
          | Raise e => (Raise e, self')
          | Ok AB => (getitem_body self' AB_path AB s st, self')
          end
      end
  end.
End GetItem.
End PIL.

(** The mode whose alpha [transparent_to_whiteBK] looks at: the palette's
    for a ['P'] image whose palette has alpha, the image's otherwise. *)
Definition effective_mode (image : pimage) : string :=
  if String.eqb (pil_mode image) "P" && ends_with_A (pil_palette_mode image)
  then pil_palette_mode image
  else pil_mode image.

(** Pixel parameters that keep the source pixel, and a decoder that takes
    the first byte as the width of a two-row ['RGBA'] image and fails on
    empty input. *)
Definition keep_pixels (from palette to : string) (im : image) (x y : Z) : Z :=
  pixel im x y.

Definition solid_first (mode : string) (color : list Z) : Z :=
  match color with c :: _ => c | [] => 0 end.

Definition paste_source (mode : string) (dest src : image) (x y : Z) : Z :=
  pixel src x y.

Definition toy_open (bts : bytes) : result pimage :=
  match bts with
  | [] => Raise ValueError
  | b :: _ =>
      Ok {| pil_mode := "RGBA"; pil_palette_mode := "";
            pil_im := ramp (Z.of_N (Byte.to_N b)) 2 |}
  end.

(** A disk whose file ["a.jpg"] is empty, and the same disk after the file
    was replaced. *)
Definition broken_files : gmap string bytes := <["a.jpg" := []]> three_files.

(** Data that records nothing of the image it starts from. *)
Definition no_data (im : pimage) : list transform := [].

(** [__getitem__] with the pixel parameters above, the toy decoder, and
    transforms that record their calls. *)
Definition toy_getitem :=
  __getitem__ keep_pixels solid_first paste_source (list transform)
    toy_open no_data record_call.

(** The members that change the size of the whole image, and the crop
    members. *)
Definition is_resizing (t : transform) : bool :=
  match t with
  | Resize _ _ | Lambda (L_scale_width _ _ _) | Lambda (L_scale_short _ _)
  | Lambda (L_make_power_2 _ _) => true
  | _ => false
  end.

Definition is_crop (t : transform) : bool :=
  match t with
  | RandomCrop _ | Lambda (L_crop _ _) => true
  | _ => false
  end.

(** The value with every tuple turned into a list. *)
Fixpoint listify (v : pyval) : pyval :=
  match v with
  | PTuple l | PList l => PList (map listify l)
  | PDict d => PDict (map (fun kv => (fst kv, listify (snd kv))) d)
  | _ => v
  end.

(** No key occurs twice in a dict of the value, as in every Python dict. *)
Fixpoint distinct (l : list string) : bool :=
  match l with
  | [] => true
  | k :: l' => negb (existsb (String.eqb k) l') && distinct l'
  end.

Fixpoint keys_unique (v : pyval) : bool :=
  match v with
  | PTuple l | PList l => forallb keys_unique l
  | PDict d =>
      distinct (map fst d) && forallb (fun kv => keys_unique (snd kv)) d
  | _ => true
  end.

Fixpoint pyval_size (v : pyval) : nat :=
  match v with
  | PTuple l | PList l => S (list_sum (map pyval_size l))
  | PDict d => S (list_sum (map (fun kv => pyval_size (snd kv)) d))
  | _ => 1%nat
  end.

(** The two loops of [json_dumps], over the items of a sequence and over
    the members of a dict. *)
Fixpoint dumps_items (l : list pyval) : result (list json) :=
  match l with
  | [] => Ok []
  | x :: l' =>
      match json_dumps x, dumps_items l' with
      | Ok j, Ok js => Ok (j :: js)
      | Raise e, _ => Raise e
      | _, Raise e => Raise e
      end
  end.

Fixpoint dumps_members (d : dict) : result (list (string * json)) :=
  match d with
  | [] => Ok []
  | (k, x) :: d' =>
      match json_dumps x, dumps_members d' with
      | Ok j, Ok js => Ok ((k, j) :: js)
      | Raise e, _ => Raise e
      | _, Raise e => Raise e
      end
  end.

(* ===================================================================== *)
(** * Properties *)
(* ===================================================================== *)

(** ** The generator *)

Lemma Qltb_lt a b : Qltb a b = true <-> (a < b)%Q.
Proof.
  unfold Qltb. rewrite negb_true_iff.
  split; intros H.
  - apply Qnot_le_lt. intros Hle. apply Qle_bool_iff in Hle. congruence.
  - destruct (Qle_bool b a) eqn:E; [|reflexivity].
    apply Qle_bool_iff in E. exfalso. exact (Qlt_not_le _ _ H E).
Qed.

Lemma Qltb_ge a b : Qltb a b = false <-> (b <= a)%Q.
Proof.
  unfold Qltb. rewrite negb_false_iff. apply Qle_bool_iff.
Qed.

Lemma randbelow_range (k : Z) (s : stream) (n : nat) :
  valid_stream s -> 0 < k ->
  exists r, randbelow k s n = Ok (r, S n) /\ 0 <= r < k.
Proof.
  intros Hs Hk. destruct (Hs n) as [H0 H1].
  exists (Qfloor (s n * inject_Z k)). split; [reflexivity|].
  assert (Hk' : (0 < inject_Z k)%Q).
  { change (inject_Z 0 < inject_Z k)%Q. rewrite <- Zlt_Qlt. exact Hk. }
  split.
  - change 0 with (Qfloor 0). apply Qfloor_resp_le.
    apply Qmult_le_0_compat; [exact H0 | apply Qlt_le_weak; exact Hk'].
  - rewrite Zlt_Qlt.
    apply Qle_lt_trans with (s n * inject_Z k)%Q; [apply Qfloor_le|].
    rewrite <- (Qmult_1_l (inject_Z k)) at 2.
    apply Qmult_lt_compat_r; assumption.
Qed.

Lemma random_randint_range (a b : Z) (s : stream) (n : nat) :
  valid_stream s -> a <= b ->
  exists r, random_randint a b s n = Ok (r, S n) /\ a <= r <= b.
Proof.
  intros Hs Hab. unfold random_randint.
  destruct (b <? a) eqn:E; [apply Z.ltb_lt in E; lia|].
  destruct (randbelow_range (b - a + 1) s n Hs) as (r & Hr & Hrange); [lia|].
  exists (a + r). unfold bind. rewrite Hr. split; [reflexivity | lia].
Qed.

Lemma random_randint_inv (a b : Z) (s : stream) (n : nat) r n' :
  valid_stream s ->
  random_randint a b s n = Ok (r, n') -> n' = S n /\ a <= r <= b.
Proof.
  intros Hs H. unfold random_randint in H.
  destruct (b <? a) eqn:E; [discriminate|].
  apply Z.ltb_ge in E.
  destruct (random_randint_range a b s n Hs E) as (r' & Hr' & Hrange).
  unfold random_randint in Hr'. apply Z.ltb_ge in E. rewrite E in Hr'.
  rewrite Hr' in H. injection H as <- <-. auto.
Qed.

Lemma bind_ok {St A B} (m : M St A) (k : A -> M St B) s st b st' :
  bind m k s st = Ok (b, st') ->
  exists a st1, m s st = Ok (a, st1) /\ k a s st1 = Ok (b, st').
Proof.
  unfold bind. destruct (m s st) as [[a st1]|e]; [|discriminate].
  intros H. exists a, st1. auto.
Qed.

Lemma lift_ok {St A} (r : result A) s (st : St) a st' :
  lift r s st = Ok (a, st') -> r = Ok a /\ st' = st.
Proof.
  unfold lift. destruct r; [|discriminate]. intros H. injection H as <- <-. auto.
Qed.

(** ** [get_params] *)

(** What [get_params] returns when it returns: the four geometry entries,
    with both offsets in range and the rotation within the configured
    bound. *)
Lemma get_params_shape opt size s n d n' :
  valid_stream s ->
  get_params opt size s n = Ok (d, n') ->
  exists new_w new_h x y f fx r,
    resize_target opt size = Ok (new_w, new_h) /\
    d = [("crop_pos", PTuple [PInt x; PInt y]); ("flip", PBool f);
         ("flip_x", PBool fx); ("rotate", PInt r)] /\
    0 <= x <= Z.max 0 (new_w - crop_size opt) /\
    0 <= y <= Z.max 0 (new_h - crop_size opt) /\
    - rotate opt <= r <= rotate opt /\
    n' = (n + 5)%nat.
Proof.
  intros Hs H. unfold get_params in H.
  apply bind_ok in H as ([new_w new_h] & n0 & Ht & H).
  apply lift_ok in Ht as [Ht ->].
  apply bind_ok in H as (x & n1 & Hx & H).
  apply random_randint_inv in Hx as [-> Hx]; [|exact Hs].
  apply bind_ok in H as (y & n2 & Hy & H).
  apply random_randint_inv in Hy as [-> Hy]; [|exact Hs].
  apply bind_ok in H as (u & n3 & Hu & H).
  injection Hu as <- <-.
  apply bind_ok in H as (u' & n4 & Hu' & H).
  injection Hu' as <- <-.
  apply bind_ok in H as (r & n5 & Hr & H).
  apply random_randint_inv in Hr as [-> Hr]; [|exact Hs].
  injection H as <- <-.
  exists new_w, new_h, x, y, (Qltb (1 # 2) (s (S (S n)))),
    (Qltb (1 # 2) (s (S (S (S n))))), r.
  repeat split; try tauto; try lia.
Qed.

(** [get_params] returns whenever the resize target is defined and the
    rotation bound is not negative. *)
Lemma get_params_returns opt size s n new_w new_h :
  valid_stream s ->
  resize_target opt size = Ok (new_w, new_h) ->
  0 <= rotate opt ->
  exists d, get_params opt size s n = Ok (d, (n + 5)%nat).
Proof.
  intros Hs Ht Hrot. unfold get_params, bind at 1. unfold lift. rewrite Ht.
  destruct (random_randint_range 0 (Z.max 0 (new_w - crop_size opt)) s n Hs)
    as (x & Hx & _); [lia|].
  unfold bind at 1. rewrite Hx.
  destruct (random_randint_range 0 (Z.max 0 (new_h - crop_size opt)) s (S n) Hs)
    as (y & Hy & _); [lia|].
  unfold bind at 1. rewrite Hy.
  unfold bind at 1. unfold random_random at 1.
  unfold bind at 1. unfold random_random at 1.
  destruct (random_randint_range (- rotate opt) (rotate opt) s (S (S (S (S n)))) Hs)
    as (r & Hr & _); [lia|].
  unfold bind at 1. rewrite Hr. unfold ret.
  replace (n + 5)%nat with (S (S (S (S (S n))))) by lia.
  eexists. reflexivity.
Qed.

(** C6.  Whenever [get_params] returns, the crop offset it stores satisfies
    [0 <= x <= max(0, new_w - crop_size)] and
    [0 <= y <= max(0, new_h - crop_size)], where [(new_w, new_h)] is the
    resize target of the configured preprocessing mode; this holds for
    every configuration, image size and stream of draws. *)
Theorem get_params_crop_pos_in_range opt size s n d n' :
  valid_stream s ->
  get_params opt size s n = Ok (d, n') ->
  exists new_w new_h x y,
    resize_target opt size = Ok (new_w, new_h) /\
    dict_getitem d "crop_pos" = Ok (PTuple [PInt x; PInt y]) /\
    0 <= x <= Z.max 0 (new_w - crop_size opt) /\
    0 <= y <= Z.max 0 (new_h - crop_size opt).
Proof.
  intros Hs H.
  destruct (get_params_shape _ _ _ _ _ _ Hs H)
    as (new_w & new_h & x & y & f & fx & r & Ht & -> & Hx & Hy & _).
  exists new_w, new_h, x, y. repeat split; try assumption; lia.
Qed.

Lemma const_stream_valid (q : Q) :
  (0 <= q)%Q -> (q < 1)%Q -> valid_stream (const_stream q).
Proof. intros H0 H1 n. split; assumption. Qed.

Lemma get_params_crop_pos_in_range_witness :
  exists new_w new_h x y,
    resize_target (config "resize_and_crop" 286 256 10 (1 # 2)) (600, 400)
      = Ok (new_w, new_h) /\
    dict_getitem
      [("crop_pos", PTuple [PInt 15; PInt 15]); ("flip", PBool false);
       ("flip_x", PBool false); ("rotate", PInt 0)] "crop_pos"
      = Ok (PTuple [PInt x; PInt y]) /\
    0 <= x <= Z.max 0 (new_w - 256) /\
    0 <= y <= Z.max 0 (new_h - 256).
Proof.
  apply (get_params_crop_pos_in_range
           (config "resize_and_crop" 286 256 10 (1 # 2)) (600, 400)
           (const_stream (1 # 2)) 0%nat _ 5%nat).
  - apply const_stream_valid; [discriminate | reflexivity].
  - vm_compute. reflexivity.
Defined.

(** ** Splitting the combined image *)

Lemma Image_crop_ok (im : image) (x0 y0 x1 y1 : Z) :
  x0 <= x1 -> y0 <= y1 ->
  Image_crop im (x0, y0, x1, y1)
  = Ok {| width := x1 - x0; height := y1 - y0;
          pixel := fun x y =>
            if inside im (x0 + x) (y0 + y)
            then pixel im (x0 + x) (y0 + y) else 0 |}.
Proof.
  intros Hx Hy. unfold Image_crop.
  destruct (x1 <? x0) eqn:Ex; [apply Z.ltb_lt in Ex; lia|].
  destruct (y1 <? y0) eqn:Ey; [apply Z.ltb_lt in Ey; lia|].
  reflexivity.
Qed.

(** C7.  A combined image of width [w] and height [h] splits into a left
    image of width [w // 2] and a right image of width [w - w // 2], both
    of height [h]; the widths sum to [w] whether [w] is even or odd, the
    left image holds the columns before [w // 2] and the right image the
    columns from [w // 2] on. *)
Theorem split_AB_widths (AB : image) :
  wf_image AB ->
  exists A B,
    split_AB AB = Ok (A, B) /\
    width A = width AB / 2 /\
    width B = width AB - width AB / 2 /\
    height A = height AB /\ height B = height AB /\
    width A + width B = width AB /\
    (forall x y, inside A x y = true -> pixel A x y = pixel AB x y) /\
    (forall x y, inside B x y = true ->
                 pixel B x y = pixel AB (width AB / 2 + x) y).
Proof.
  intros [Hw Hh]. unfold split_AB.
  rewrite Z.quot_div_nonneg by lia.
  assert (Hhalf : 0 <= width AB / 2 <= width AB).
  { split; [apply Z.div_pos; lia|]. apply Z.div_le_upper_bound; lia. }
  rewrite !Image_crop_ok by lia.
  eexists _, _. split; [reflexivity|]. cbn [width height pixel].
  repeat split; try lia.
  - intros x y Hin. unfold inside in *. cbn [width height] in Hin.
    apply andb_prop in Hin as [Hin Hy2]. apply andb_prop in Hin as [Hin Hy1].
    apply andb_prop in Hin as [Hx1 Hx2].
    apply Z.leb_le in Hx1, Hy1. apply Z.ltb_lt in Hx2, Hy2.
    rewrite !Z.add_0_l.
    replace ((0 <=? x) && (x <? width AB) && (0 <=? y) && (y <? height AB))
      with true; [reflexivity|].
    symmetry. rewrite !andb_true_iff, !Z.leb_le, !Z.ltb_lt. lia.
  - intros x y Hin. unfold inside in *. cbn [width height] in Hin.
    apply andb_prop in Hin as [Hin Hy2]. apply andb_prop in Hin as [Hin Hy1].
    apply andb_prop in Hin as [Hx1 Hx2].
    apply Z.leb_le in Hx1, Hy1. apply Z.ltb_lt in Hx2, Hy2.
    rewrite !Z.add_0_l.
    replace ((0 <=? width AB / 2 + x) && (width AB / 2 + x <? width AB)
             && (0 <=? y) && (y <? height AB)) with true; [reflexivity|].
    symmetry. rewrite !andb_true_iff, !Z.leb_le, !Z.ltb_lt. lia.
Qed.

Lemma split_AB_widths_witness :
  exists A B,
    split_AB (ramp 513 256) = Ok (A, B) /\
    width A = 513 / 2 /\
    width B = 513 - 513 / 2 /\
    height A = 256 /\ height B = 256 /\
    width A + width B = 513 /\
    (forall x y, inside A x y = true -> pixel A x y = pixel (ramp 513 256) x y) /\
    (forall x y, inside B x y = true ->
                 pixel B x y = pixel (ramp 513 256) (513 / 2 + x) y).
Proof.
  apply (split_AB_widths (ramp 513 256)).
  unfold wf_image. simpl. lia.
Defined.

(** ** Repeating the path list *)

Lemma extend_times_concat (count : nat) (paths temp : list string) :
  extend_times count paths temp = (paths ++ concat (replicate count temp))%list.
Proof.
  revert paths. induction count as [|count IH]; intros paths; simpl.
  - symmetry. apply app_nil_r.
  - rewrite IH. symmetry. apply app_assoc.
Qed.

Lemma length_concat_replicate {A} (k : nat) (l : list A) :
  length (concat (replicate k l)) = (k * length l)%nat.
Proof.
  induction k as [|k IH]; simpl; [reflexivity|].
  rewrite length_app, IH. reflexivity.
Qed.

Lemma repeat_paths_spec (paths : list string) (k : Z) :
  1 <= k -> repeat_paths paths k = concat (replicate (Z.to_nat k) paths).
Proof.
  intros Hk. unfold repeat_paths.
  destruct (1 <? k) eqn:E.
  - rewrite extend_times_concat.
    replace (Z.to_nat k) with (S (Z.to_nat (k - 1))) by lia. reflexivity.
  - apply Z.ltb_ge in E. replace k with 1 by lia. simpl.
    symmetry. apply app_nil_r.
Qed.

(** C8.  With a repeat count [k >= 1] the dataset's path list is the sorted
    file list concatenated to itself [k] times, in order, so it has
    [n * k] entries for a list of [n] files; nothing is shuffled or
    interleaved. *)
Theorem init_repeats_paths (make_dataset : string -> Z -> list string)
    (opt : Options) (ds : AlignedDataset) :
  1 <= repeat_dataset_count opt ->
  AlignedDataset_init make_dataset opt = Ok ds ->
  let files :=
    sorted (make_dataset (os_path_join (dataroot opt) (phase opt))
                         (max_dataset_size opt)) in
  ds_AB_paths ds
    = concat (replicate (Z.to_nat (repeat_dataset_count opt)) files) /\
  AlignedDataset_len ds
    = Z.of_nat (length files) * repeat_dataset_count opt.
Proof.
  intros Hk Hinit files. unfold AlignedDataset_init in Hinit.
  destruct (load_size opt >=? crop_size opt); [|discriminate].
  injection Hinit as <-. unfold AlignedDataset_len. cbn [ds_AB_paths].
  fold files. rewrite repeat_paths_spec by exact Hk.
  split; [reflexivity|].
  rewrite length_concat_replicate. lia.
Qed.

(** The example of the specification: five files, repeat count three. *)
Example repeat_three_of_five :
  repeat_paths ["1.jpg"; "2.jpg"; "3.jpg"; "4.jpg"; "5.jpg"] 3
  = ["1.jpg"; "2.jpg"; "3.jpg"; "4.jpg"; "5.jpg";
     "1.jpg"; "2.jpg"; "3.jpg"; "4.jpg"; "5.jpg";
     "1.jpg"; "2.jpg"; "3.jpg"; "4.jpg"; "5.jpg"].
Proof. reflexivity. Qed.

Lemma init_repeats_paths_witness :
  exists ds,
    AlignedDataset_init five_files
      (set_repeat 3 (config "resize_and_crop" 286 256 0 0)) = Ok ds /\
    ds_AB_paths ds
    = concat (replicate 3
        ["datasets/facades/train/1.jpg"; "datasets/facades/train/2.jpg";
         "datasets/facades/train/3.jpg"; "datasets/facades/train/4.jpg";
         "datasets/facades/train/5.jpg"]) /\
    AlignedDataset_len ds = 5 * 3.
Proof.
  eexists. split; [reflexivity|].
  apply (init_repeats_paths five_files
           (set_repeat 3 (config "resize_and_crop" 286 256 0 0))).
  - simpl. lia.
  - reflexivity.
Defined.

(** ** The size check at construction *)

(** C9.  Construction raises [AssertionError] when [load_size < crop_size]
    and returns a dataset when [load_size >= crop_size]; a dataset that
    exists therefore satisfies [load_size >= crop_size], so the condition
    is settled before any sample can be requested from it. *)
Theorem init_checks_sizes (make_dataset : string -> Z -> list string)
    (opt : Options) :
  (load_size opt < crop_size opt ->
   AlignedDataset_init make_dataset opt = Raise AssertionError) /\
  (crop_size opt <= load_size opt ->
   exists ds, AlignedDataset_init make_dataset opt = Ok ds /\
              ds_opt ds = opt /\ ds_cache ds = ∅) /\
  (forall ds, AlignedDataset_init make_dataset opt = Ok ds ->
              crop_size (ds_opt ds) <= load_size (ds_opt ds)).
Proof.
  unfold AlignedDataset_init.
  destruct (load_size opt >=? crop_size opt) eqn:E.
  - apply Z.geb_le in E. repeat split.
    + lia.
    + intros _. eexists. split; [reflexivity|]. split; reflexivity.
    + intros ds H. injection H as <-. exact E.
  - assert (load_size opt < crop_size opt).
    { destruct (Z.lt_ge_cases (load_size opt) (crop_size opt)) as [H|H];
        [exact H|]. apply Z.geb_le in H. congruence. }
    repeat split.
    + lia.
    + discriminate.
Qed.

Lemma init_checks_sizes_witness :
  AlignedDataset_init five_files (config "resize_and_crop" 64 128 0 0)
    = Raise AssertionError /\
  exists ds,
    AlignedDataset_init five_files (config "resize_and_crop" 128 128 0 0)
      = Ok ds /\
    ds_opt ds = config "resize_and_crop" 128 128 0 0 /\ ds_cache ds = ∅.
Proof.
  split.
  - apply (init_checks_sizes five_files (config "resize_and_crop" 64 128 0 0)).
    simpl. lia.
  - apply (init_checks_sizes five_files (config "resize_and_crop" 128 128 0 0)).
    simpl. lia.
Defined.

(** ** The byte cache *)

Lemma get_cache_path_hit disk self path bts :
  ds_cache self !! path = Some bts ->
  get_cache_path disk self path = Ok (bts, self).
Proof. intros H. unfold get_cache_path. rewrite H. reflexivity. Qed.

Lemma get_cache_path_miss disk self path bts :
  ds_cache self !! path = None -> disk !! path = Some bts ->
  get_cache_path disk self path
  = Ok (bts,
        if Z.of_nat (size (ds_cache self)) <? cache_num (ds_opt self)
        then set_cache self (<[path := bts]> (ds_cache self))
        else self).
Proof.
  intros Hc Hd. unfold get_cache_path. rewrite Hc, Hd.
  destruct (_ <? _); reflexivity.
Qed.

Lemma get_cache_path_absent disk self path :
  ds_cache self !! path = None -> disk !! path = None ->
  get_cache_path disk self path = Raise (FileNotFoundError path).
Proof. intros Hc Hd. unfold get_cache_path. rewrite Hc, Hd. reflexivity. Qed.

Lemma get_cache_path_step disk self path bts self' :
  get_cache_path disk self path = Ok (bts, self') ->
  ds_opt self' = ds_opt self /\
  ds_cache self ⊆ ds_cache self' /\
  (cache_bounded self -> cache_bounded self') /\
  (ds_cache self' = ds_cache self \/
   Z.of_nat (size (ds_cache self)) < cache_num (ds_opt self) /\
   ds_cache self !! path = None /\
   ds_cache self' = <[path := bts]> (ds_cache self)).
Proof.
  unfold get_cache_path.
  destruct (ds_cache self !! path) as [b|] eqn:Hc.
  { intros H. injection H as <- <-. repeat split; auto. }
  destruct (disk !! path) as [b|] eqn:Hd; [|discriminate].
  destruct (_ <? _) eqn:E; intros H; injection H as <- <-.
  - apply Z.ltb_lt in E. cbn [set_cache ds_opt ds_cache].
    repeat split.
    + apply insert_subseteq. exact Hc.
    + unfold cache_bounded. cbn [set_cache ds_opt ds_cache].
      rewrite map_size_insert_None by exact Hc. lia.
    + right. auto.
  - repeat split; auto.
Qed.

Lemma cache_run_opt self calls : ds_opt (cache_run self calls) = ds_opt self.
Proof.
  revert self. induction calls as [|[disk path] calls IH]; intros self;
    simpl; [reflexivity|].
  destruct (get_cache_path disk self path) as [[b self']|e] eqn:E.
  - rewrite IH. apply (get_cache_path_step _ _ _ _ _ E).
  - apply IH.
Qed.

Lemma cache_run_bounded self calls :
  cache_bounded self -> cache_bounded (cache_run self calls).
Proof.
  revert self. induction calls as [|[disk path] calls IH]; intros self Hb;
    simpl; [exact Hb|].
  destruct (get_cache_path disk self path) as [[b self']|e] eqn:E.
  - apply IH. apply (get_cache_path_step _ _ _ _ _ E). exact Hb.
  - apply IH. exact Hb.
Qed.

(** C10.  Starting from an empty cache, after any run of calls the cache
    holds at most [max(0, cache_num)] entries.  A call for a cached path
    returns the cached bytes and changes nothing; a call for another path
    returns the bytes just read, and stores them exactly when the cache
    holds fewer than [cache_num] entries; a call never removes or replaces
    an entry. *)
Theorem cache_never_exceeds_cache_num (self : AlignedDataset)
    (calls : list (gmap string bytes * string))
    (disk : gmap string bytes) (path : string) :
  ds_cache self = ∅ ->
  let now := cache_run self calls in
  Z.of_nat (size (ds_cache now)) <= Z.max 0 (cache_num (ds_opt self)) /\
  (forall bts, ds_cache now !! path = Some bts ->
     get_cache_path disk now path = Ok (bts, now)) /\
  (forall bts, ds_cache now !! path = None -> disk !! path = Some bts ->
     get_cache_path disk now path
     = Ok (bts,
           if Z.of_nat (size (ds_cache now)) <? cache_num (ds_opt self)
           then set_cache now (<[path := bts]> (ds_cache now))
           else now)) /\
  (forall bts after, get_cache_path disk now path = Ok (bts, after) ->
     ds_cache now ⊆ ds_cache after /\
     Z.of_nat (size (ds_cache after)) <= Z.max 0 (cache_num (ds_opt self))).
Proof.
  intros Hempty now.
  assert (Hb : cache_bounded now).
  { apply cache_run_bounded. unfold cache_bounded. rewrite Hempty.
    rewrite map_size_empty. lia. }
  assert (Hopt : ds_opt now = ds_opt self) by apply cache_run_opt.
  repeat split.
  - unfold cache_bounded in Hb. rewrite Hopt in Hb. exact Hb.
  - intros bts H. apply get_cache_path_hit. exact H.
  - intros bts Hc Hd. rewrite <- Hopt. apply get_cache_path_miss; assumption.
  - apply (get_cache_path_step _ _ _ _ _ H).
  - destruct (get_cache_path_step _ _ _ _ _ H) as (Ho & _ & Hstep & _).
    specialize (Hstep Hb). unfold cache_bounded in Hstep.
    rewrite Ho, Hopt in Hstep. exact Hstep.
Qed.

Lemma cache_never_exceeds_cache_num_witness :
  ds_cache new_dataset = ∅ /\
  let now :=
    cache_run new_dataset
      [(three_files, "a.jpg"); (three_files, "b.jpg"); (three_files, "a.jpg")] in
  Z.of_nat (size (ds_cache now)) <= Z.max 0 2 /\
  (forall bts, ds_cache now !! "c.jpg" = Some bts ->
     get_cache_path three_files now "c.jpg" = Ok (bts, now)) /\
  (forall bts, ds_cache now !! "c.jpg" = None ->
     three_files !! "c.jpg" = Some bts ->
     get_cache_path three_files now "c.jpg"
     = Ok (bts,
           if Z.of_nat (size (ds_cache now)) <? 2
           then set_cache now (<["c.jpg" := bts]> (ds_cache now))
           else now)) /\
  (forall bts after,
     get_cache_path three_files now "c.jpg" = Ok (bts, after) ->
     ds_cache now ⊆ ds_cache after /\
     Z.of_nat (size (ds_cache after)) <= Z.max 0 2).
Proof.
  split; [reflexivity|].
  apply (cache_never_exceeds_cache_num new_dataset
           [(three_files, "a.jpg"); (three_files, "b.jpg"); (three_files, "a.jpg")]
           three_files "c.jpg").
  reflexivity.
Defined.

(** With [cache_num = 2], the third file read is returned but not stored. *)
Example cache_full_is_not_extended :
  let now := cache_run new_dataset
               [(three_files, "a.jpg"); (three_files, "b.jpg")] in
  get_cache_path three_files now "c.jpg" = Ok ([x63], now) /\
  size (ds_cache now) = 2%nat.
Proof. vm_compute. split; reflexivity. Qed.

(** ** The crop step *)

Lemma unpack2_ints_crop img pos x y size :
  unpack2 pos = Ok (PInt x, PInt y) ->
  __crop img pos size
  = if (size <? width img) || (size <? height img)
    then Image_crop img (x, y, x + size, y + size)
    else Ok img.
Proof. intros H. unfold __crop. rewrite H. reflexivity. Qed.

(** C3, as amended.  For a crop size that is not negative and an offset
    [(x, y)] held as a tuple or a list, the crop step never raises.  When
    the image exceeds the crop size in at least one dimension the result
    is the [crop_size] by [crop_size] box at the offset, in both
    dimensions, the part of the box outside the image being filled with
    zeros; only when the image is at most [crop_size] in both dimensions is
    it returned unchanged. *)
Theorem crop_is_all_or_nothing (img : image) (pos : pyval) (x y size : Z) :
  0 <= size ->
  unpack2 pos = Ok (PInt x, PInt y) ->
  (size < width img \/ size < height img ->
   exists out,
     __crop img pos size = Ok out /\
     width out = size /\ height out = size /\
     forall i j, pixel out i j
                 = if inside img (x + i) (y + j)
                   then pixel img (x + i) (y + j) else 0) /\
  (width img <= size /\ height img <= size ->
   __crop img pos size = Ok img).
Proof.
  intros Hsize Hpos. rewrite (unpack2_ints_crop _ _ _ _ _ Hpos). split.
  - intros Hbig.
    replace ((size <? width img) || (size <? height img)) with true.
    2:{ symmetry. rewrite orb_true_iff, !Z.ltb_lt. exact Hbig. }
    rewrite Image_crop_ok by lia.
    eexists. split; [reflexivity|]. cbn [width height pixel].
    repeat split; lia.
  - intros [Hw Hh].
    replace ((size <? width img) || (size <? height img)) with false;
      [reflexivity|].
    symmetry. rewrite orb_false_iff, !Z.ltb_ge. lia.
Qed.

Lemma crop_is_all_or_nothing_witness :
  (exists out,
     __crop (ramp 200 50) (PList [PInt 10; PInt 0]) 100 = Ok out /\
     width out = 100 /\ height out = 100 /\
     forall i j, pixel out i j
                 = if inside (ramp 200 50) (10 + i) (0 + j)
                   then pixel (ramp 200 50) (10 + i) (0 + j) else 0) /\
  __crop (ramp 80 50) (PTuple [PInt 10; PInt 0]) 100 = Ok (ramp 80 50).
Proof.
  split.
  - apply (crop_is_all_or_nothing (ramp 200 50) (PList [PInt 10; PInt 0])
             10 0 100); [lia | reflexivity | simpl; lia].
  - apply (crop_is_all_or_nothing (ramp 80 50) (PTuple [PInt 10; PInt 0])
             10 0 100); [lia | reflexivity | simpl; lia].
Defined.

(** C3, as stated, fails: a 200 by 50 image cropped to size 100 comes back
    100 rows high, twice its own height. *)
Lemma crop_enlarges_small_dimension :
  ~ crop_skips_per_dimension (ramp 200 50) (PTuple [PInt 0; PInt 0]) 100.
Proof.
  intros (out & Hout & _ & Hh).
  vm_compute in Hout. injection Hout as <-.
  vm_compute in Hh. discriminate.
Qed.

(** ** The composed transform and the ['whiteBK'] entry *)

Section SameButWhiteBK.
Variables p1 p2 : dict.
Hypothesis Hsame : same_but_whiteBK p1 p2.

Lemma same_getitem k :
  k <> "whiteBK" -> dict_getitem p1 k = dict_getitem p2 k.
Proof. intros Hk. unfold dict_getitem. rewrite (Hsame k Hk). reflexivity. Qed.

Lemma same_get k default :
  k <> "whiteBK" -> dict_get p1 k default = dict_get p2 k default.
Proof. intros Hk. unfold dict_get. rewrite (Hsame k Hk). reflexivity. Qed.

Lemma same_rotate_stage : rotate_stage (Some p1) = rotate_stage (Some p2).
Proof. unfold rotate_stage. rewrite same_getitem by discriminate. reflexivity. Qed.

Lemma same_crop_stage opt :
  crop_stage opt (Some p1) = crop_stage opt (Some p2).
Proof. unfold crop_stage. rewrite (Hsame "crop_pos") by discriminate. reflexivity. Qed.

Lemma same_flip_stage opt :
  flip_stage opt (Some p1) = flip_stage opt (Some p2).
Proof.
  unfold flip_stage.
  rewrite (same_getitem "flip"), (same_getitem "flip_x") by discriminate.
  reflexivity.
Qed.

Lemma same_blur_stage : blur_stage (Some p1) = blur_stage (Some p2).
Proof. unfold blur_stage. rewrite (same_get "blur") by discriminate. reflexivity. Qed.

Lemma same_gated_loop {T} (body : string -> result (list T)) keys :
  gated_loop p1 body keys = gated_loop p2 body keys.
Proof.
  induction keys as [|k keys IH]; simpl; [reflexivity|].
  rewrite (same_get "distort") by discriminate. rewrite IH. reflexivity.
Qed.

Lemma same_distort_stage : distort_stage (Some p1) = distort_stage (Some p2).
Proof.
  unfold distort_stage. rewrite (same_get "distort") by discriminate.
  rewrite same_gated_loop. reflexivity.
Qed.

Lemma same_grayscale_stage g :
  grayscale_stage (Some p1) g = grayscale_stage (Some p2) g.
Proof.
  unfold grayscale_stage. rewrite (same_get "grayscale") by discriminate.
  reflexivity.
Qed.

Lemma same_get_transform opt g method convert :
  get_transform opt (Some p1) g method convert
  = get_transform opt (Some p2) g method convert.
Proof.
  unfold get_transform.
  rewrite same_rotate_stage, same_crop_stage, same_flip_stage,
    same_blur_stage, same_distort_stage, same_grayscale_stage.
  reflexivity.
Qed.
End SameButWhiteBK.

Lemma dict_lookup_set_ne (d : dict) k k' v :
  k' <> k -> dict_lookup (dict_set d k v) k' = dict_lookup d k'.
Proof.
  intros Hne. induction d as [|[k0 v0] d IH]; simpl.
  - destruct (String.eqb k k') eqn:E; [|reflexivity].
    apply String.eqb_eq in E. congruence.
  - destruct (String.eqb k0 k) eqn:E; simpl.
    + apply String.eqb_eq in E. subst k0.
      destruct (String.eqb k k') eqn:E'; [|reflexivity].
      apply String.eqb_eq in E'. congruence.
    + rewrite IH. reflexivity.
Qed.

Lemma dict_lookup_set_eq (d : dict) k v :
  dict_lookup (dict_set d k v) k = Some v.
Proof.
  induction d as [|[k0 v0] d IH]; simpl.
  - rewrite String.eqb_refl. reflexivity.
  - destruct (String.eqb k0 k) eqn:E; simpl; rewrite E; [reflexivity|exact IH].
Qed.

Lemma set_whiteBK_same (d : dict) v :
  same_but_whiteBK d (dict_set d "whiteBK" v).
Proof. intros k Hk. symmetry. apply dict_lookup_set_ne. exact Hk. Qed.

(** C5.  Two parameter sets that differ only in ['whiteBK'] (its value, or
    whether it is there at all) give the same composed transform from the
    same configuration and draws, leave the generator at the same
    position, and so give the same result on every input, whatever the
    individual transforms do. *)
Theorem transform_ignores_whiteBK (opt : Options) (p1 p2 : dict)
    (grayscale : bool) (method : InterpolationMode) (convert : bool)
    (s : stream) (n : nat)
    (X : Type) (apply1 : transform -> X -> Rand X) (img : X) :
  same_but_whiteBK p1 p2 ->
  get_transform opt (Some p1) grayscale method convert s n
  = get_transform opt (Some p2) grayscale method convert s n /\
  transformed X apply1 opt (Some p1) grayscale img s n
  = transformed X apply1 opt (Some p2) grayscale img s n.
Proof.
  intros Hsame. unfold transformed.
  rewrite !(same_get_transform p1 p2 Hsame). split; reflexivity.
Qed.

Lemma transform_ignores_whiteBK_witness :
  get_transform (config "resize_and_crop" 286 256 10 (1 # 2))
    (Some (dict_set (params_with 3 4 true false 5 false true true)
                    "whiteBK" (PBool false)))
    false BICUBIC true (const_stream (1 # 4)) 0%nat
  = get_transform (config "resize_and_crop" 286 256 10 (1 # 2))
      (Some (dict_set (params_with 3 4 true false 5 false true true)
                      "whiteBK" (PBool true)))
      false BICUBIC true (const_stream (1 # 4)) 0%nat /\
  transformed (list transform) record_call
    (config "resize_and_crop" 286 256 10 (1 # 2))
    (Some (dict_set (params_with 3 4 true false 5 false true true)
                    "whiteBK" (PBool false)))
    false [] (const_stream (1 # 4)) 0%nat
  = transformed (list transform) record_call
      (config "resize_and_crop" 286 256 10 (1 # 2))
      (Some (dict_set (params_with 3 4 true false 5 false true true)
                      "whiteBK" (PBool true)))
      false [] (const_stream (1 # 4)) 0%nat.
Proof.
  apply (transform_ignores_whiteBK
           (config "resize_and_crop" 286 256 10 (1 # 2))
           (dict_set (params_with 3 4 true false 5 false true true)
                     "whiteBK" (PBool false))
           (dict_set (params_with 3 4 true false 5 false true true)
                     "whiteBK" (PBool true))
           false BICUBIC true (const_stream (1 # 4)) 0%nat
           (list transform) record_call []).
  intros k Hk. rewrite !dict_lookup_set_ne by exact Hk. reflexivity.
Defined.

(** ** The blur stage *)

Lemma bind_eq {St A B} (m : M St A) (k : A -> M St B) s st a st1 :
  m s st = Ok (a, st1) -> bind m k s st = k a s st1.
Proof. intros H. unfold bind. rewrite H. reflexivity. Qed.

Lemma draw_below_one (s : stream) (n : nat) :
  valid_stream s -> Qltb (s n) 1 = true.
Proof. intros Hs. apply Qltb_lt. apply (Hs n). Qed.

(** The bounded draw below 2 is 0 on the lower half of the unit interval
    and 1 on the upper half. *)
Lemma randbelow_two (u : Q) :
  (0 <= u)%Q -> (u < 1)%Q ->
  Qfloor (u * inject_Z 2) = if Qltb u (1 # 2) then 0 else 1.
Proof.
  intros H0 H1. change (inject_Z 2) with 2%Q.
  destruct (Qltb u (1 # 2)) eqn:E.
  - apply Qltb_lt in E.
    assert (Hlo : 0 <= Qfloor (u * 2)).
    { change 0 with (Qfloor 0). apply Qfloor_resp_le. lra. }
    assert (Hhi : Qfloor (u * 2) < 1).
    { rewrite Zlt_Qlt. apply Qle_lt_trans with (u * 2)%Q; [apply Qfloor_le|].
      change (inject_Z 1) with 1%Q. lra. }
    lia.
  - apply Qltb_ge in E.
    assert (Hlo : 1 <= Qfloor (u * 2)).
    { change 1 with (Qfloor 1). apply Qfloor_resp_le. lra. }
    assert (Hhi : Qfloor (u * 2) < 2).
    { rewrite Zlt_Qlt. apply Qle_lt_trans with (u * 2)%Q; [apply Qfloor_le|].
      change (inject_Z 2) with 2%Q. lra. }
    lia.
Qed.

(** With the flag set to [True], the test [random.random() < True] holds
    for every draw, and the shuffle draw alone picks the blur. *)
Lemma blur_stage_flag (p : dict) (s : stream) (n : nat) :
  valid_stream s ->
  dict_lookup p "blur" = Some (PBool true) ->
  blur_stage (Some p) s n = Ok ([blur_picked (s (S n))], S (S n)).
Proof.
  intros Hs Hp. unfold blur_stage, dict_get. rewrite Hp. cbn [truthy].
  unfold bind at 1. unfold random_random at 1.
  unfold bind at 1. unfold lift, float_lt. cbn [as_number].
  rewrite (draw_below_one s n Hs).
  unfold bind at 1. unfold random_shuffle. cbn [length Nat.sub shuffle_from].
  unfold bind at 1. unfold randbelow.
  change (Z.of_nat 1 + 1) with 2.
  destruct (Hs (S n)) as [H0 H1].
  rewrite (randbelow_two (s (S n)) H0 H1).
  unfold blur_picked.
  destruct (Qltb (s (S n)) (1 # 2)); reflexivity.
Qed.

(** The other stages append no blur. *)
Lemma rotate_stage_no_blur params l :
  rotate_stage params = Ok l -> List.filter is_blur l = [].
Proof.
  unfold rotate_stage. intros H.
  repeat case_match; simplify_eq; reflexivity.
Qed.

Lemma resize_stage_no_blur opt method :
  List.filter is_blur (resize_stage opt method) = [].
Proof. unfold resize_stage. repeat case_match; reflexivity. Qed.

Lemma crop_stage_no_blur opt params :
  List.filter is_blur (crop_stage opt params) = [].
Proof. unfold crop_stage. repeat case_match; reflexivity. Qed.

Lemma none_stage_no_blur opt method :
  List.filter is_blur (none_stage opt method) = [].
Proof. unfold none_stage. repeat case_match; reflexivity. Qed.

Lemma flip_stage_no_blur opt params l :
  flip_stage opt params = Ok l -> List.filter is_blur l = [].
Proof.
  unfold flip_stage. intros H.
  repeat case_match; simplify_eq; reflexivity.
Qed.

Lemma grayscale_stage_no_blur params g :
  List.filter is_blur (grayscale_stage params g) = [].
Proof. unfold grayscale_stage. repeat case_match; reflexivity. Qed.

Lemma convert_stage_no_blur g c :
  List.filter is_blur (convert_stage g c) = [].
Proof. unfold convert_stage. repeat case_match; reflexivity. Qed.

Lemma distort_body_no_blur k l :
  distort_body k = Ok l -> List.filter is_blur l = [].
Proof.
  unfold distort_body. intros H.
  repeat case_match; simplify_eq; reflexivity.
Qed.

Lemma gated_loop_no_blur p keys s n l n' :
  gated_loop p distort_body keys s n = Ok (l, n') ->
  List.filter is_blur l = [].
Proof.
  revert n l n'. induction keys as [|k keys IH]; intros n l n' H; simpl in H.
  - injection H as <- _. reflexivity.
  - apply bind_ok in H as (u & n1 & _ & H).
    apply bind_ok in H as (go & n2 & _ & H).
    apply bind_ok in H as (here & n3 & Hhere & H).
    apply bind_ok in H as (rest & n4 & Hrest & H).
    injection H as <- _.
    rewrite List.filter_app. rewrite (IH _ _ _ Hrest), app_nil_r.
    destruct go.
    + apply lift_ok in Hhere as [Hhere _].
      apply (distort_body_no_blur _ _ Hhere).
    + injection Hhere as <- _. reflexivity.
Qed.

Lemma distort_stage_no_blur params s n l n' :
  distort_stage params s n = Ok (l, n') -> List.filter is_blur l = [].
Proof.
  unfold distort_stage. intros H.
  destruct params as [p|]; [|injection H as <- _; reflexivity].
  destruct (truthy _); [|injection H as <- _; reflexivity].
  apply (gated_loop_no_blur _ _ _ _ _ _ H).
Qed.

(** The blur members of the composed transform are what the blur stage
    appended. *)
Lemma blurs_of_get_transform opt params g method convert s n c n' :
  get_transform opt params g method convert s n = Ok (c, n') ->
  exists l n1, blur_stage params s n = Ok (l, n1) /\
               blurs_of c = List.filter is_blur l.
Proof.
  unfold get_transform. intros H.
  apply bind_ok in H as (t2 & n0 & H2 & H). apply lift_ok in H2 as [H2 ->].
  apply bind_ok in H as (t6 & n0 & H6 & H). apply lift_ok in H6 as [H6 ->].
  apply bind_ok in H as (t7 & n1 & H7 & H).
  apply bind_ok in H as (t8 & n2 & H8 & H).
  injection H as <- _.
  exists t7, n1. split; [exact H7|].
  unfold blurs_of. cbn [transforms_of].
  rewrite !List.filter_app.
  rewrite (rotate_stage_no_blur _ _ H2), resize_stage_no_blur,
    crop_stage_no_blur, none_stage_no_blur, (flip_stage_no_blur _ _ _ H6),
    (distort_stage_no_blur _ _ _ _ _ H8), grayscale_stage_no_blur,
    convert_stage_no_blur.
  destruct g; cbn [List.filter is_blur app]; rewrite ?app_nil_r; reflexivity.
Qed.




(** The same through lines 64-75: the eighth draw sets the source branch's
    blur flag, the draw made in [get_transform] is 9/10, and the source
    transform has the Gaussian blur while the target transform has none. *)
Example getitem_blur_above_probability :
  exists st,
    getitem_transforms (config "resize_and_crop" 286 256 10 (1 # 2)) 3 3
      (600, 400) blur_flag_stream empty_state
    = Ok ((Compose
             [Lambda (L_rotate (PInt 8)); Resize (286, 286) BICUBIC;
              Lambda (L_crop (Some (PTuple [PInt 27; PInt 27])) 256);
              Lambda (L_flip (PBool true)); Lambda (L_flip_x (PBool true));
              Lambda (L_gaussian_blur 2); ToTensor;
              Normalize [1 # 2; 1 # 2; 1 # 2]%Q [1 # 2; 1 # 2; 1 # 2]%Q],
           Compose
             [Lambda (L_rotate (PInt 8)); Resize (286, 286) BICUBIC;
              Lambda (L_crop (Some (PList [PInt 27; PInt 27])) 256);
              Lambda (L_flip (PBool true)); Lambda (L_flip_x (PBool true));
              ToTensor;
              Normalize [1 # 2; 1 # 2; 1 # 2]%Q [1 # 2; 1 # 2; 1 # 2]%Q]),
          st) /\
    rng_pos st = 14%nat.
Proof. eexists. split; vm_compute; reflexivity. Qed.


(** ** The distort stage *)

(** With the flag set to [True] every test of the loop holds: the loop
    makes one draw per key and runs the body for every key. *)
Lemma gated_loop_flag {T} (p : dict) (body : string -> result (list T))
    (f : string -> list T) (keys : list string) (s : stream) (n : nat) :
  valid_stream s ->
  dict_lookup p "distort" = Some (PBool true) ->
  Forall (fun k => body k = Ok (f k)) keys ->
  gated_loop p body keys s n
  = Ok (flat_map f keys, (n + length keys)%nat).
Proof.
  intros Hs Hp Hbody. revert n.
  induction Hbody as [|k keys Hk _ IH]; intros n; simpl.
  - unfold ret. rewrite Nat.add_0_r. reflexivity.
  - unfold bind at 1. unfold random_random at 1.
    unfold bind at 1. unfold lift at 1, float_lt, dict_get. rewrite Hp.
    cbn [as_number]. rewrite (draw_below_one s n Hs).
    unfold bind at 1. unfold lift at 1. rewrite Hk.
    unfold bind at 1. rewrite IH. unfold ret.
    replace (S n + length keys)%nat with (n + S (length keys))%nat by lia.
    reflexivity.
Qed.

(** No entry of the table dispatches: under ["f"] it holds a function
    object, and the body compares it with strings. *)
Lemma distort_body_table :
  Forall (fun k => distort_body k = Ok []) (map fst fs).
Proof. repeat constructor. Qed.

Lemma distort_stage_flag (p : dict) (s : stream) (n : nat) :
  valid_stream s ->
  dict_lookup p "distort" = Some (PBool true) ->
  distort_stage (Some p) s n = Ok ([], (n + 5)%nat).
Proof.
  intros Hs Hp. unfold distort_stage, dict_get. rewrite Hp. cbn [truthy].
  rewrite (gated_loop_flag p distort_body (fun _ => []) _ s n Hs Hp
             distort_body_table).
  reflexivity.
Qed.

(** C2, at a failing input.  The branch's distort flag is true, the
    configured probability is 1/2 and the five draws of the loop are 1/10,
    so every operation's own draw succeeds and the claim asks for
    brightness, contrast, saturation, hue and sharpness, in that order,
    each with the bounds 0.9 and 1.1.  The loop makes its five draws and
    appends nothing: each entry of the table holds the function object
    under ['f'] and 0.1 under ['range'], the body compares the function
    object with the five names, and none of the comparisons holds.  The
    composed transform holds no photometric operation. *)
Theorem distort_appends_no_operation :
  selected_by_draws (1 # 2) (const_stream (1 # 10)) 0 photometric_ops
  = photometric_ops /\
  Forall (fun kv =>
            dict_getitem (snd kv) "f" = Ok (PFun (fst kv)) /\
            dict_getitem (snd kv) "range" = Ok (PFloat (1 # 10)) /\
            Forall (fun name => eq_str (PFun (fst kv)) name = false)
                   (map fst fs)) fs /\
  distort_stage (Some (params_with 3 4 true false 5 false false true))
    (const_stream (1 # 10)) 0%nat = Ok ([], 5%nat) /\
  get_transform (config "resize_and_crop" 286 256 10 (1 # 2))
    (Some (params_with 3 4 true false 5 false false true))
    false BICUBIC true (const_stream (1 # 10)) 0%nat
  = Ok (Compose
          [Lambda (L_rotate (PInt 5)); Resize (286, 286) BICUBIC;
           Lambda (L_crop (Some (PTuple [PInt 3; PInt 4])) 256);
           Lambda (L_flip (PBool true)); ToTensor;
           Normalize [1 # 2; 1 # 2; 1 # 2]%Q [1 # 2; 1 # 2; 1 # 2]%Q],
        5%nat) /\
  ~ distort_gated_by_probability (1 # 2)
      (params_with 3 4 true false 5 false false true)
      (const_stream (1 # 10)) 0%nat.
Proof.
  assert (Hrun : distort_stage
                   (Some (params_with 3 4 true false 5 false false true))
                   (const_stream (1 # 10)) 0%nat = Ok ([], 5%nat)).
  { vm_compute. reflexivity. }
  split; [vm_compute; reflexivity|].
  split; [repeat constructor|].
  split; [exact Hrun|].
  split; [vm_compute; reflexivity|].
  intros H. specialize (H _ _ Hrun). vm_compute in H. discriminate.
Qed.

(** ** The two parameter sets *)

Lemma with_rng_ok {A} (m : Rand A) s st a st' :
  with_rng m s st = Ok (a, st') ->
  exists n, m s (rng_pos st) = Ok (a, n) /\
            st' = {| objects := objects st; rng_pos := n |}.
Proof.
  unfold with_rng. destruct (m s (rng_pos st)) as [[a' n]|e]; [|discriminate].
  intros H. injection H as <- <-. exists n. auto.
Qed.

Lemma geometry_key_cases k :
  is_geometry_key k = false ->
  "crop_pos" <> k /\ "flip" <> k /\ "flip_x" <> k /\ "rotate" <> k.
Proof.
  unfold is_geometry_key. rewrite !orb_false_iff.
  intros [[[H1 H2] H3] H4].
  apply String.eqb_neq in H1, H2, H3, H4.
  repeat split; congruence.
Qed.

Lemma geometry_of_set (d : dict) k v :
  is_geometry_key k = false -> geometry_of (dict_set d k v) = geometry_of d.
Proof.
  intros Hk. apply geometry_key_cases in Hk as (H1 & H2 & H3 & H4).
  unfold geometry_of, dict_getitem.
  rewrite !dict_lookup_set_ne by assumption. reflexivity.
Qed.

Lemma filter_geometry_set (d : dict) k v :
  is_geometry_key k = false ->
  List.filter (fun kv => is_geometry_key (fst kv)) (dict_set d k v)
  = List.filter (fun kv => is_geometry_key (fst kv)) d.
Proof.
  intros Hk. induction d as [|[k0 v0] d IH]; simpl.
  - rewrite Hk. reflexivity.
  - destruct (String.eqb k0 k) eqn:E; simpl.
    + apply String.eqb_eq in E. subst k0. rewrite Hk. reflexivity.
    + rewrite IH. reflexivity.
Qed.

Lemma geometry_json_set (d : dict) k v :
  is_geometry_key k = false -> geometry_json (dict_set d k v) = geometry_json d.
Proof.
  intros Hk. unfold geometry_json. rewrite filter_geometry_set by exact Hk.
  reflexivity.
Qed.

Lemma same_geometry_set_l d1 d2 k v :
  is_geometry_key k = false ->
  same_geometry d1 d2 -> same_geometry (dict_set d1 k v) d2.
Proof.
  intros Hk H. unfold same_geometry in *.
  rewrite geometry_of_set, geometry_json_set by exact Hk. exact H.
Qed.

Lemma same_geometry_set_r d1 d2 k v :
  is_geometry_key k = false ->
  same_geometry d1 d2 -> same_geometry d1 (dict_set d2 k v).
Proof.
  intros Hk H. unfold same_geometry in *.
  rewrite geometry_of_set, geometry_json_set by exact Hk. exact H.
Qed.

(** An item assignment through one name leaves the object under the other
    name as it was. *)
Lemma setitem_first st a b dA dB k v s :
  two_dicts st a b dA dB ->
  exists st', setitem a k v s st = Ok (tt, st') /\
              rng_pos st' = rng_pos st /\
              two_dicts st' a b (dict_set dA k v) dB.
Proof.
  intros (Hne & Ha & Hb). unfold setitem. rewrite Ha.
  eexists. split; [reflexivity|]. split; [reflexivity|].
  unfold two_dicts. cbn [objects].
  rewrite lookup_insert_eq, lookup_insert_ne by exact Hne. auto.
Qed.

Lemma setitem_second st a b dA dB k v s :
  two_dicts st a b dA dB ->
  exists st', setitem b k v s st = Ok (tt, st') /\
              rng_pos st' = rng_pos st /\
              two_dicts st' a b dA (dict_set dB k v).
Proof.
  intros (Hne & Ha & Hb). unfold setitem. rewrite Hb.
  eexists. split; [reflexivity|]. split; [reflexivity|].
  unfold two_dicts. cbn [objects].
  rewrite lookup_insert_eq, lookup_insert_ne by congruence. auto.
Qed.

Lemma assign_flag_first st a b dA dB k p s :
  two_dicts st a b dA dB ->
  exists st' v, assign_flag a k p s st = Ok (tt, st') /\
                two_dicts st' a b (dict_set dA k v) dB.
Proof.
  intros H. unfold assign_flag, bind, with_rng, random_random.
  set (st1 := {| objects := objects st; rng_pos := S (rng_pos st) |}).
  assert (H1 : two_dicts st1 a b dA dB) by exact H.
  destruct (setitem_first st1 a b dA dB k
              (PBool (Qltb (s (rng_pos st)) p)) s H1) as (st' & Hset & _ & H').
  exists st', (PBool (Qltb (s (rng_pos st)) p)). auto.
Qed.

Lemma assign_flag_second st a b dA dB k p s :
  two_dicts st a b dA dB ->
  exists st' v, assign_flag b k p s st = Ok (tt, st') /\
                two_dicts st' a b dA (dict_set dB k v).
Proof.
  intros H. unfold assign_flag, bind, with_rng, random_random.
  set (st1 := {| objects := objects st; rng_pos := S (rng_pos st) |}).
  assert (H1 : two_dicts st1 a b dA dB) by exact H.
  destruct (setitem_second st1 a b dA dB k
              (PBool (Qltb (s (rng_pos st)) p)) s H1) as (st' & Hset & _ & H').
  exists st', (PBool (Qltb (s (rng_pos st)) p)). auto.
Qed.

Lemma identical_geometry_refl d : identical_geometry d d.
Proof. intros k _. reflexivity. Qed.

Lemma identical_geometry_set d1 d2 k v :
  is_geometry_key k = false ->
  identical_geometry d1 d2 -> identical_geometry d1 (dict_set d2 k v).
Proof.
  intros Hk H k' Hk'. rewrite dict_lookup_set_ne; [apply H; exact Hk'|].
  intros ->. congruence.
Qed.

(** Lines 66-72 keep the geometry of both objects: every geometry entry
    of either object is the value it was. *)
Lemma branch_flags_keep_geometry opt st a b dA dB g s :
  two_dicts st a b dA dB ->
  same_geometry g dA -> same_geometry g dB ->
  exists st' dA' dB',
    branch_flags opt (a, b) s st = Ok (tt, st') /\
    two_dicts st' a b dA' dB' /\
    same_geometry g dA' /\ same_geometry g dB' /\
    identical_geometry dA dA' /\ identical_geometry dB dB'.
Proof.
  intros H0 HA HB. unfold branch_flags.
  destruct (assign_flag_first st a b dA dB "grayscale"
              (agument_grayscale_A opt) s H0) as (st1 & v1 & E1 & H1).
  rewrite (bind_eq _ _ _ _ _ _ E1).
  destruct (assign_flag_second st1 a b _ dB "grayscale"
              (agument_grayscale_B opt) s H1) as (st2 & v2 & E2 & H2).
  rewrite (bind_eq _ _ _ _ _ _ E2).
  destruct (assign_flag_first st2 a b _ _ "blur"
              (agument_blur_A opt) s H2) as (st3 & v3 & E3 & H3).
  rewrite (bind_eq _ _ _ _ _ _ E3).
  destruct (assign_flag_second st3 a b _ _ "blur"
              (agument_blur_B opt) s H3) as (st4 & v4 & E4 & H4).
  rewrite (bind_eq _ _ _ _ _ _ E4).
  destruct (assign_flag_first st4 a b _ _ "distort"
              (agument_distort_A opt) s H4) as (st5 & v5 & E5 & H5).
  rewrite (bind_eq _ _ _ _ _ _ E5).
  destruct (assign_flag_second st5 a b _ _ "distort"
              (agument_distort_B opt) s H5) as (st6 & v6 & E6 & H6).
  rewrite (bind_eq _ _ _ _ _ _ E6).
  destruct (assign_flag_second st6 a b _ _ "whiteBK"
              (agument_whiteBK_A opt) s H6) as (st7 & v7 & E7 & H7).
  eexists st7, _, _. split; [exact E7|]. split; [exact H7|].
  split; [repeat (apply same_geometry_set_r; [reflexivity|]); assumption|].
  split; [repeat (apply same_geometry_set_r; [reflexivity|]); assumption|].
  split; repeat (apply identical_geometry_set; [reflexivity|]);
    apply identical_geometry_refl.
Qed.

(** The clone of what [get_params] returns: the same entries, with the
    offset in a list. *)
Lemma clone_of_params x y f fx r :
  let d := [("crop_pos", PTuple [PInt x; PInt y]); ("flip", PBool f);
            ("flip_x", PBool fx); ("rotate", PInt r)] in
  exists text,
    json_dumps (PDict d) = Ok text /\
    json_loads text
    = PDict [("crop_pos", PList [PInt x; PInt y]); ("flip", PBool f);
             ("flip_x", PBool fx); ("rotate", PInt r)] /\
    json_dumps (json_loads text) = Ok text.
Proof. intros d. eexists. split; [reflexivity|]. split; reflexivity. Qed.

(** C4, as amended.  When [get_params] returns the parameter set [d],
    lines 64-65 end with two different dict objects: the source-branch one
    holds [d], the target-branch one holds its clone [dB], which is [d]
    with the tuple turned into a list.  Before any branch flag is added,
    the crop position is the tuple [(x, y)] in [d] and the list [[x, y]]
    of the same two integers in [dB]; under every other key, the two flip
    flags and the rotation among them, both hold the same value.  The two
    serialize to the same JSON document and unpack to the same offset.
    The clone is by value: an item assignment through either name leaves
    the other object as it was, and after the flag assignments of lines
    66-72 every geometry entry of either object is the value it was. *)
Theorem branches_share_geometry_by_value (opt : Options) (size : Z * Z)
    (s : stream) (st st1 : pystate) (d : dict) :
  valid_stream s ->
  with_rng (get_params opt size) s st = Ok (d, st1) ->
  exists a b st2 dB x y,
    shared_geometry opt size s st = Ok ((a, b), st2) /\
    two_dicts st2 a b d dB /\
    PDict dB = listify (PDict d) /\
    dict_lookup d "crop_pos" = Some (PTuple [PInt x; PInt y]) /\
    dict_lookup dB "crop_pos" = Some (PList [PInt x; PInt y]) /\
    (forall k, k <> "crop_pos" -> dict_lookup dB k = dict_lookup d k) /\
    json_dumps (PDict dB) = json_dumps (PDict d) /\
    is_ok (json_dumps (PDict d)) = true /\
    same_geometry d dB /\
    (forall k v, exists st3,
        setitem a k v s st2 = Ok (tt, st3) /\
        objects st3 !! b = Some (PDict dB)) /\
    (forall k v, exists st3,
        setitem b k v s st2 = Ok (tt, st3) /\
        objects st3 !! a = Some (PDict d)) /\
    exists st4 dA' dB',
      branch_flags opt (a, b) s st2 = Ok (tt, st4) /\
      two_dicts st4 a b dA' dB' /\
      same_geometry d dA' /\ same_geometry d dB' /\
      identical_geometry d dA' /\ identical_geometry dB dB'.
Proof.
  intros Hs Hget.
  destruct (with_rng_ok _ _ _ _ _ Hget) as (n1 & Hparams & ->).
  destruct (get_params_shape _ _ _ _ _ _ Hs Hparams)
    as (new_w & new_h & x & y & f & fx & r & _ & -> & _).
  destruct (clone_of_params x y f fx r) as (text & Hdump & Hload & Hredump).
  set (d := [("crop_pos", PTuple [PInt x; PInt y]); ("flip", PBool f);
             ("flip_x", PBool fx); ("rotate", PInt r)]) in *.
  set (dB := [("crop_pos", PList [PInt x; PInt y]); ("flip", PBool f);
              ("flip_x", PBool fx); ("rotate", PInt r)]) in *.
  set (h := objects st) in *.
  set (a := fresh (dom h)).
  set (b := fresh (dom (<[a := PDict d]> h))).
  assert (Hab : a <> b).
  { intros Heq. pose proof (is_fresh (dom (<[a := PDict d]> h))) as Hfresh.
    fold b in Hfresh. rewrite <- Heq in Hfresh. apply Hfresh.
    rewrite dom_insert_L. set_solver. }
  set (st2 := {| objects := <[b := PDict dB]> (<[a := PDict d]> h);
                 rng_pos := n1 |}).
  assert (Hrun : shared_geometry opt size s st = Ok ((a, b), st2)).
  { unfold shared_geometry.
    rewrite (bind_eq _ _ _ _ _ _ Hget).
    unfold bind at 1. unfold new_object at 1. cbn [objects rng_pos].
    fold h. fold a.
    unfold bind at 1. unfold read_object at 1. cbn [objects].
    rewrite lookup_insert_eq.
    unfold bind at 1. unfold lift at 1. rewrite Hdump.
    unfold bind at 1. unfold new_object at 1. cbn [objects rng_pos].
    rewrite Hload. fold b. reflexivity. }
  assert (Htwo : two_dicts st2 a b d dB).
  { unfold two_dicts, st2. cbn [objects].
    rewrite lookup_insert_eq, lookup_insert_ne, lookup_insert_eq by congruence.
    auto. }
  assert (Hgeo : same_geometry d dB).
  { repeat split. }
  assert (Hrest : forall k, k <> "crop_pos" ->
                            dict_lookup dB k = dict_lookup d k).
  { intros k Hk. unfold dB, d. cbn [dict_lookup].
    destruct (String.eqb "crop_pos" k) eqn:E; [|reflexivity].
    apply String.eqb_eq in E. congruence. }
  exists a, b, st2, dB, x, y.
  split; [exact Hrun|]. split; [exact Htwo|].
  split; [reflexivity|]. split; [reflexivity|]. split; [reflexivity|].
  split; [exact Hrest|].
  split; [reflexivity|]. split; [reflexivity|]. split; [exact Hgeo|].
  split; [|split].
  - intros k v.
    destruct (setitem_first st2 a b d dB k v s Htwo) as (st3 & E & _ & H3).
    exists st3. split; [exact E | apply H3].
  - intros k v.
    destruct (setitem_second st2 a b d dB k v s Htwo) as (st3 & E & _ & H3).
    exists st3. split; [exact E | apply H3].
  - apply (branch_flags_keep_geometry opt st2 a b d dB d s Htwo);
      [repeat split | exact Hgeo].
Qed.

Lemma branches_share_geometry_by_value_witness :
  exists a b st2 dB x y,
    shared_geometry (config "resize_and_crop" 286 256 10 (1 # 2)) (600, 400)
      (const_stream (1 # 2)) empty_state = Ok ((a, b), st2) /\
    two_dicts st2 a b params_at_half dB /\
    PDict dB = listify (PDict params_at_half) /\
    dict_lookup params_at_half "crop_pos" = Some (PTuple [PInt x; PInt y]) /\
    dict_lookup dB "crop_pos" = Some (PList [PInt x; PInt y]) /\
    (forall k, k <> "crop_pos" ->
               dict_lookup dB k = dict_lookup params_at_half k) /\
    json_dumps (PDict dB) = json_dumps (PDict params_at_half) /\
    is_ok (json_dumps (PDict params_at_half)) = true /\
    same_geometry params_at_half dB /\
    (forall k v, exists st3,
        setitem a k v (const_stream (1 # 2)) st2 = Ok (tt, st3) /\
        objects st3 !! b = Some (PDict dB)) /\
    (forall k v, exists st3,
        setitem b k v (const_stream (1 # 2)) st2 = Ok (tt, st3) /\
        objects st3 !! a = Some (PDict params_at_half)) /\
    exists st4 dA' dB',
      branch_flags (config "resize_and_crop" 286 256 10 (1 # 2)) (a, b)
        (const_stream (1 # 2)) st2 = Ok (tt, st4) /\
      two_dicts st4 a b dA' dB' /\
      same_geometry params_at_half dA' /\ same_geometry params_at_half dB' /\
      identical_geometry params_at_half dA' /\ identical_geometry dB dB'.
Proof.
  apply (branches_share_geometry_by_value
           (config "resize_and_crop" 286 256 10 (1 # 2)) (600, 400)
           (const_stream (1 # 2)) empty_state
           {| objects := ∅; rng_pos := 5 |} params_at_half).
  - apply const_stream_valid; [discriminate | reflexivity].
  - vm_compute. reflexivity.
Defined.

(** C4, as stated, fails.  For a 600 by 400 image, mode [resize_and_crop],
    sizes 286 and 256 and every draw equal to 1/2, lines 64-65 leave the
    crop position [(15, 15)], a tuple, in the source-branch object and
    [[15, 15]], a list, in the target-branch object: the two geometry
    entries are not the same value. *)
Lemma geometry_not_shared_verbatim :
  ~ geometry_shared_verbatim (config "resize_and_crop" 286 256 10 (1 # 2))
      (600, 400) (const_stream (1 # 2)) empty_state.
Proof.
  intros H.
  assert (Hrun : exists st2,
             shared_geometry (config "resize_and_crop" 286 256 10 (1 # 2))
               (600, 400) (const_stream (1 # 2)) empty_state
             = Ok ((0%nat, 1%nat), st2) /\
             objects st2 !! 0%nat = Some (PDict params_at_half) /\
             objects st2 !! 1%nat
             = Some (PDict [("crop_pos", PList [PInt 15; PInt 15]);
                            ("flip", PBool false); ("flip_x", PBool false);
                            ("rotate", PInt 0)])).
  { eexists. split; [vm_compute; reflexivity|].
    split; vm_compute; reflexivity. }
  destruct Hrun as (st2 & Hrun & Ha & Hb).
  specialize (H _ _ _ _ _ Hrun Ha Hb "crop_pos" eq_refl).
  discriminate H.
Qed.

(** The two objects after lines 64-72 at that input: the offset is a tuple
    in the source-branch set and a list of the same integers in the
    target-branch set, which alone carries ['whiteBK']. *)
Example branch_params_at_half :
  exists st,
    branch_params (config "resize_and_crop" 286 256 10 (1 # 2)) (600, 400)
      (const_stream (1 # 2)) empty_state = Ok ((0%nat, 1%nat), st) /\
    objects st !! 0%nat
    = Some (PDict [("crop_pos", PTuple [PInt 15; PInt 15]);
                   ("flip", PBool false); ("flip_x", PBool false);
                   ("rotate", PInt 0); ("grayscale", PBool false);
                   ("blur", PBool false); ("distort", PBool false)]) /\
    objects st !! 1%nat
    = Some (PDict [("crop_pos", PList [PInt 15; PInt 15]);
                   ("flip", PBool false); ("flip_x", PBool false);
                   ("rotate", PInt 0); ("grayscale", PBool false);
                   ("blur", PBool false); ("distort", PBool false);
                   ("whiteBK", PBool false)]) /\
    rng_pos st = 12%nat.
Proof.
  eexists. split; [vm_compute; reflexivity|].
  split; [|split]; vm_compute; reflexivity.
Qed.

(* ===================================================================== *)
(** * Further properties *)
(* ===================================================================== *)

(** ** [get_params]: rotation, failure *)

(** X1.  Whenever [get_params] returns, the rotation it stores is an
    integer between [-opt.rotate] and [opt.rotate], both flip entries are
    bools, and exactly five draws were made. *)
Theorem get_params_rotation_in_range opt size s n d n' :
  valid_stream s ->
  get_params opt size s n = Ok (d, n') ->
  exists r f fx,
    dict_getitem d "rotate" = Ok (PInt r) /\
    - rotate opt <= r <= rotate opt /\
    dict_getitem d "flip" = Ok (PBool f) /\
    dict_getitem d "flip_x" = Ok (PBool fx) /\
    n' = (n + 5)%nat.
Proof.
  intros Hs H.
  destruct (get_params_shape _ _ _ _ _ _ Hs H)
    as (new_w & new_h & x & y & f & fx & r & _ & -> & _ & _ & Hr & Hn).
  exists r, f, fx. repeat split; try assumption; lia.
Qed.

Lemma get_params_rotation_in_range_witness :
  exists r f fx,
    dict_getitem params_at_half "rotate" = Ok (PInt r) /\
    - 10 <= r <= 10 /\
    dict_getitem params_at_half "flip" = Ok (PBool f) /\
    dict_getitem params_at_half "flip_x" = Ok (PBool fx) /\
    5%nat = (0 + 5)%nat.
Proof.
  apply (get_params_rotation_in_range
           (config "resize_and_crop" 286 256 10 (1 # 2)) (600, 400)
           (const_stream (1 # 2)) 0%nat params_at_half 5%nat).
  - apply const_stream_valid; [discriminate | reflexivity].
  - vm_compute. reflexivity.
Defined.

Lemma get_params_target_raises opt size s n e :
  resize_target opt size = Raise e -> get_params opt size s n = Raise e.
Proof.
  intros H. unfold get_params, bind, lift. rewrite H. reflexivity.
Qed.

Lemma get_params_negative_rotate opt size s n t :
  valid_stream s ->
  resize_target opt size = Ok t -> rotate opt < 0 ->
  get_params opt size s n = Raise ValueError.
Proof.
  intros Hs Ht Hrot. destruct t as [new_w new_h].
  unfold get_params, bind at 1. unfold lift. rewrite Ht.
  destruct (random_randint_range 0 (Z.max 0 (new_w - crop_size opt)) s n Hs)
    as (x & Hx & _); [lia|].
  unfold bind at 1. rewrite Hx.
  destruct (random_randint_range 0 (Z.max 0 (new_h - crop_size opt)) s (S n) Hs)
    as (y & Hy & _); [lia|].
  unfold bind at 1. rewrite Hy.
  unfold bind at 1. unfold random_random at 1.
  unfold bind at 1. unfold random_random at 1.
  unfold bind at 1. unfold random_randint.
  replace (rotate opt <? - rotate opt) with true; [reflexivity|].
  symmetry. apply Z.ltb_lt. lia.
Qed.

(** X2.  [get_params] returns exactly when the resize target is defined
    and the rotation bound is not negative: an undefined target raises its
    own exception before any draw, and a negative bound raises
    [ValueError] from the last [randint]. *)
Theorem get_params_returns_iff opt size s n :
  valid_stream s ->
  ((exists d n', get_params opt size s n = Ok (d, n'))
   <-> (exists t, resize_target opt size = Ok t) /\ 0 <= rotate opt) /\
  (forall e, resize_target opt size = Raise e ->
             get_params opt size s n = Raise e) /\
  (forall t, resize_target opt size = Ok t -> rotate opt < 0 ->
             get_params opt size s n = Raise ValueError).
Proof.
  intros Hs. split; [|split].
  - split.
    + intros (d & n' & H).
      destruct (get_params_shape _ _ _ _ _ _ Hs H)
        as (new_w & new_h & x & y & f & fx & r & Ht & _ & _ & _ & Hr & _).
      split; [eexists; exact Ht | lia].
    + intros [[[new_w new_h] Ht] Hrot].
      destruct (get_params_returns opt size s n new_w new_h Hs Ht Hrot) as [d Hd].
      eauto.
  - intros e He. apply get_params_target_raises. exact He.
  - intros t Ht Hrot. apply (get_params_negative_rotate _ _ _ _ t); assumption.
Qed.

Lemma get_params_returns_iff_witness :
  ((exists d n',
       get_params (config "resize_and_crop" 286 256 (-1) (1 # 2)) (600, 400)
         (const_stream (1 # 2)) 0%nat = Ok (d, n'))
   <-> (exists t,
           resize_target (config "resize_and_crop" 286 256 (-1) (1 # 2))
             (600, 400) = Ok t) /\ 0 <= -1) /\
  (forall e,
      resize_target (config "resize_and_crop" 286 256 (-1) (1 # 2)) (600, 400)
      = Raise e ->
      get_params (config "resize_and_crop" 286 256 (-1) (1 # 2)) (600, 400)
        (const_stream (1 # 2)) 0%nat = Raise e) /\
  (forall t,
      resize_target (config "resize_and_crop" 286 256 (-1) (1 # 2)) (600, 400)
      = Ok t -> -1 < 0 ->
      get_params (config "resize_and_crop" 286 256 (-1) (1 # 2)) (600, 400)
        (const_stream (1 # 2)) 0%nat = Raise ValueError).
Proof.
  apply (get_params_returns_iff
           (config "resize_and_crop" 286 256 (-1) (1 # 2)) (600, 400)
           (const_stream (1 # 2)) 0%nat).
  apply const_stream_valid; [discriminate | reflexivity].
Defined.

(** X3.  A combined image less than two pixels wide splits into a source
    half of width 0, and on that size [get_params] raises
    [ZeroDivisionError] in the modes [scale_width_and_crop] and
    [scale_short_and_crop], before any draw. *)
Theorem narrow_image_breaks_scaling opt (AB : image) s n :
  wf_image AB -> width AB < 2 ->
  preprocess opt = "scale_width_and_crop"
  \/ preprocess opt = "scale_short_and_crop" ->
  exists A B,
    split_AB AB = Ok (A, B) /\ width A = 0 /\
    get_params opt (width A, height A) s n = Raise ZeroDivisionError.
Proof.
  intros [Hw Hh] Hnarrow Hmode. unfold split_AB.
  rewrite Z.quot_div_nonneg by lia.
  assert (Hhalf : width AB / 2 = 0) by (apply Z.div_small; lia).
  rewrite Hhalf. rewrite !Image_crop_ok by lia.
  eexists _, _. split; [reflexivity|]. cbn [width height]. split; [lia|].
  apply get_params_target_raises. unfold resize_target.
  destruct Hmode as [-> | ->]; cbn [String.eqb Ascii.eqb Bool.eqb].
  - reflexivity.
  - replace (Z.min (height AB - 0) (0 - 0)) with 0 by lia. reflexivity.
Qed.

Lemma narrow_image_breaks_scaling_witness :
  exists A B,
    split_AB (ramp 1 8) = Ok (A, B) /\ width A = 0 /\
    get_params (config "scale_width_and_crop" 286 256 0 0)
      (width A, height A) (const_stream 0) 0%nat = Raise ZeroDivisionError.
Proof.
  apply (narrow_image_breaks_scaling
           (config "scale_width_and_crop" 286 256 0 0) (ramp 1 8)
           (const_stream 0) 0%nat).
  - unfold wf_image. simpl. lia.
  - simpl. lia.
  - left. reflexivity.
Defined.

(** ** The crop box after [resize_and_crop] *)

(** X4.  In mode [resize_and_crop] with [0 <= crop_size <= load_size], the
    offset [get_params] samples keeps the crop box inside the resized
    [load_size] by [load_size] image: [__crop] returns a [crop_size] by
    [crop_size] image every pixel of which is the image's pixel at the
    offset, so nothing is padded. *)
Theorem resize_and_crop_box_inside opt size s n d n' (img : image) :
  valid_stream s ->
  preprocess opt = "resize_and_crop" ->
  0 <= crop_size opt <= load_size opt ->
  width img = load_size opt -> height img = load_size opt ->
  get_params opt size s n = Ok (d, n') ->
  exists pos x y out,
    dict_getitem d "crop_pos" = Ok pos /\
    unpack2 pos = Ok (PInt x, PInt y) /\
    0 <= x /\ x + crop_size opt <= width img /\
    0 <= y /\ y + crop_size opt <= height img /\
    __crop img pos (crop_size opt) = Ok out /\
    width out = crop_size opt /\ height out = crop_size opt /\
    forall i j, 0 <= i < crop_size opt -> 0 <= j < crop_size opt ->
                pixel out i j = pixel img (x + i) (y + j).
Proof.
  intros Hs Hmode Hsizes Hw Hh H.
  destruct (get_params_shape _ _ _ _ _ _ Hs H)
    as (new_w & new_h & x & y & f & fx & r & Ht & -> & Hx & Hy & _).
  unfold resize_target in Ht. destruct size as [w h].
  rewrite Hmode in Ht. cbn [String.eqb Ascii.eqb Bool.eqb] in Ht.
  injection Ht as <- <-.
  exists (PTuple [PInt x; PInt y]), x, y.
  pose proof (unpack2_ints_crop img (PTuple [PInt x; PInt y]) x y
                (crop_size opt) eq_refl) as Hcrop.
  destruct ((crop_size opt <? width img) || (crop_size opt <? height img))
    eqn:E.
  - rewrite Image_crop_ok in Hcrop by lia. eexists.
    split; [reflexivity|]. split; [reflexivity|].
    split; [lia|]. split; [lia|]. split; [lia|]. split; [lia|].
    split; [exact Hcrop|]. cbn [width height pixel].
    split; [lia|]. split; [lia|].
    intros i j Hi Hj. unfold inside.
    replace ((0 <=? x + i) && (x + i <? width img) && (0 <=? y + j)
             && (y + j <? height img)) with true; [reflexivity|].
    symmetry. rewrite !andb_true_iff, !Z.leb_le, !Z.ltb_lt. lia.
  - apply orb_false_iff in E as [E1 E2]. apply Z.ltb_ge in E1, E2.
    exists img. assert (x = 0) by lia. assert (y = 0) by lia. subst x y.
    split; [reflexivity|]. split; [reflexivity|].
    split; [lia|]. split; [lia|]. split; [lia|]. split; [lia|].
    split; [exact Hcrop|]. split; [lia|]. split; [lia|].
    intros i j _ _. rewrite !Z.add_0_l. reflexivity.
Qed.

Lemma resize_and_crop_box_inside_witness :
  exists pos x y out,
    dict_getitem params_at_half "crop_pos" = Ok pos /\
    unpack2 pos = Ok (PInt x, PInt y) /\
    0 <= x /\ x + 256 <= width (ramp 286 286) /\
    0 <= y /\ y + 256 <= height (ramp 286 286) /\
    __crop (ramp 286 286) pos 256 = Ok out /\
    width out = 256 /\ height out = 256 /\
    forall i j, 0 <= i < 256 -> 0 <= j < 256 ->
                pixel out i j = pixel (ramp 286 286) (x + i) (y + j).
Proof.
  apply (resize_and_crop_box_inside
           (config "resize_and_crop" 286 256 10 (1 # 2)) (600, 400)
           (const_stream (1 # 2)) 0%nat params_at_half 5%nat (ramp 286 286)).
  - apply const_stream_valid; [discriminate | reflexivity].
  - reflexivity.
  - simpl. lia.
  - reflexivity.
  - reflexivity.
  - vm_compute. reflexivity.
Defined.

(** ** [get_transform]: required keys, termination, members *)

(** X5.  The keys [get_transform] needs in a parameter set: a missing
    ['rotate'] raises [KeyError]; with flips enabled a missing ['flip']
    raises [KeyError], and with the vertical flip enabled too a missing
    ['flip_x'] does.  Each is raised before any draw is made, whatever the
    other entries are. *)
Theorem get_transform_required_keys opt p g method convert s n :
  (dict_lookup p "rotate" = None ->
   get_transform opt (Some p) g method convert s n
   = Raise (KeyError "rotate")) /\
  (is_Some (dict_lookup p "rotate") -> no_flip opt = false ->
   dict_lookup p "flip" = None ->
   get_transform opt (Some p) g method convert s n
   = Raise (KeyError "flip")) /\
  (is_Some (dict_lookup p "rotate") -> no_flip opt = false ->
   is_Some (dict_lookup p "flip") -> flip_x opt = true ->
   dict_lookup p "flip_x" = None ->
   get_transform opt (Some p) g method convert s n
   = Raise (KeyError "flip_x")).
Proof.
  split; [|split].
  - intros H. unfold get_transform, bind, lift, rotate_stage, dict_getitem.
    rewrite H. reflexivity.
  - intros [r Hr] Hnf H.
    unfold get_transform, bind, lift, rotate_stage, flip_stage, dict_getitem.
    rewrite Hr, Hnf, H. destruct (truthy r); reflexivity.
  - intros [r Hr] Hnf [f Hf] Hfx H.
    unfold get_transform, bind, lift, rotate_stage, flip_stage, dict_getitem.
    rewrite Hr, Hnf, Hf, Hfx, H. destruct (truthy r); reflexivity.
Qed.

Lemma get_transform_required_keys_witness :
  get_transform (config "resize_and_crop" 286 256 10 (1 # 2))
    (Some [("crop_pos", PTuple [PInt 0; PInt 0]); ("flip", PBool true)])
    false BICUBIC true (const_stream 0) 0%nat = Raise (KeyError "rotate") /\
  get_transform (config "resize_and_crop" 286 256 10 (1 # 2))
    (Some [("rotate", PInt 0); ("flip_x", PBool true)])
    false BICUBIC true (const_stream 0) 0%nat = Raise (KeyError "flip") /\
  get_transform (config "resize_and_crop" 286 256 10 (1 # 2))
    (Some [("rotate", PInt 0); ("flip", PBool true)])
    false BICUBIC true (const_stream 0) 0%nat = Raise (KeyError "flip_x").
Proof.
  split; [|split].
  - apply (get_transform_required_keys
             (config "resize_and_crop" 286 256 10 (1 # 2))
             [("crop_pos", PTuple [PInt 0; PInt 0]); ("flip", PBool true)]).
    reflexivity.
  - apply (get_transform_required_keys
             (config "resize_and_crop" 286 256 10 (1 # 2))
             [("rotate", PInt 0); ("flip_x", PBool true)]);
      [eexists | | ]; reflexivity.
  - apply (get_transform_required_keys
             (config "resize_and_crop" 286 256 10 (1 # 2))
             [("rotate", PInt 0); ("flip", PBool true)]);
      [eexists | | eexists | | ]; reflexivity.
Defined.

Lemma flag_cases p k :
  bool_or_missing p k ->
  dict_lookup p k = Some (PBool true) /\ flag_set p k = true
  \/ dict_get p k (PFloat 0) = PFloat 0 /\ flag_set p k = false
  \/ dict_get p k (PFloat 0) = PBool false /\ flag_set p k = false.
Proof.
  unfold flag_set, dict_get. intros [H | [[|] H]]; rewrite H; auto.
Qed.

Lemma blur_stage_returns p s n :
  valid_stream s -> bool_or_missing p "blur" ->
  exists l,
    blur_stage (Some p) s n
    = Ok (l, (n + if flag_set p "blur" then 2 else 0)%nat).
Proof.
  intros Hs Hb.
  destruct (flag_cases p "blur" Hb) as [[H ->] | [[H ->] | [H ->]]].
  - rewrite (blur_stage_flag p s n Hs H).
    replace (n + 2)%nat with (S (S n)) by lia. eauto.
  - unfold blur_stage. rewrite H. cbn [truthy Qeq_bool]. unfold ret.
    rewrite Nat.add_0_r. exists []. reflexivity.
  - unfold blur_stage. rewrite H. cbn [truthy]. unfold ret.
    rewrite Nat.add_0_r. exists []. reflexivity.
Qed.

Lemma distort_stage_returns p s n :
  valid_stream s -> bool_or_missing p "distort" ->
  distort_stage (Some p) s n
  = Ok ([], (n + if flag_set p "distort" then 5 else 0)%nat).
Proof.
  intros Hs Hb.
  destruct (flag_cases p "distort" Hb) as [[H ->] | [[H ->] | [H ->]]].
  - apply distort_stage_flag; assumption.
  - unfold distort_stage. rewrite H. cbn [truthy Qeq_bool]. unfold ret.
    rewrite Nat.add_0_r. reflexivity.
  - unfold distort_stage. rewrite H. cbn [truthy]. unfold ret.
    rewrite Nat.add_0_r. reflexivity.
Qed.

Lemma get_transform_returns opt p g method convert s n :
  valid_stream s ->
  is_Some (dict_lookup p "rotate") ->
  is_Some (dict_lookup p "flip") ->
  is_Some (dict_lookup p "flip_x") ->
  bool_or_missing p "blur" -> bool_or_missing p "distort" ->
  exists c,
    get_transform opt (Some p) g method convert s n
    = Ok (c, (n + draws_of p)%nat).
Proof.
  intros Hs [r Hr] [f Hf] [fx Hfx] Hb Hd.
  unfold get_transform.
  assert (Hrot : exists t2, rotate_stage (Some p) = Ok t2).
  { unfold rotate_stage, dict_getitem. rewrite Hr.
    destruct (truthy r); eauto. }
  destruct Hrot as [t2 Hrot].
  assert (Hflip : exists t6, flip_stage opt (Some p) = Ok t6).
  { unfold flip_stage, dict_getitem. rewrite Hf, Hfx.
    destruct (no_flip opt), (flip_x opt); eauto. }
  destruct Hflip as [t6 Hflip].
  destruct (blur_stage_returns p s n Hs Hb) as [t7 Hblur].
  pose proof (distort_stage_returns p s
                (n + if flag_set p "blur" then 2 else 0)%nat Hs Hd) as Hdist.
  unfold bind at 1. unfold lift at 1. rewrite Hrot.
  unfold bind at 1. unfold lift at 1. rewrite Hflip.
  unfold bind at 1. rewrite Hblur.
  unfold bind at 1. rewrite Hdist.
  unfold ret, draws_of. rewrite Nat.add_assoc. eauto.
Qed.

(** X6.  For a parameter set that has ['rotate'], ['flip'] and ['flip_x']
    and whose ['blur'] and ['distort'] entries are bools or missing,
    [get_transform] returns, whatever the configuration and the draws; it
    makes two draws when the blur flag is set and five when the distort
    flag is set, and no other. *)
Theorem get_transform_terminates opt p g method convert s n :
  valid_stream s ->
  is_Some (dict_lookup p "rotate") ->
  is_Some (dict_lookup p "flip") ->
  is_Some (dict_lookup p "flip_x") ->
  bool_or_missing p "blur" -> bool_or_missing p "distort" ->
  exists c,
    get_transform opt (Some p) g method convert s n
    = Ok (c, (n + draws_of p)%nat) /\
    (draws_of p <= 7)%nat.
Proof.
  intros Hs Hr Hf Hfx Hb Hd.
  destruct (get_transform_returns opt p g method convert s n Hs Hr Hf Hfx Hb Hd)
    as [c Hc].
  exists c. split; [exact Hc|].
  unfold draws_of. destruct (flag_set p "blur"), (flag_set p "distort"); lia.
Qed.

Lemma get_transform_terminates_witness :
  exists c,
    get_transform (config "scale_width_and_crop" 286 256 10 (1 # 2))
      (Some (params_with 3 4 true false 5 true true true))
      true BICUBIC true (const_stream (1 # 3)) 4%nat
    = Ok (c, (4 + draws_of (params_with 3 4 true false 5 true true true))%nat) /\
    (draws_of (params_with 3 4 true false 5 true true true) <= 7)%nat.
Proof.
  apply (get_transform_terminates
           (config "scale_width_and_crop" 286 256 10 (1 # 2))
           (params_with 3 4 true false 5 true true true)
           true BICUBIC true (const_stream (1 # 3)) 4%nat).
  - apply const_stream_valid; [discriminate | reflexivity].
  - eexists; reflexivity.
  - eexists; reflexivity.
  - eexists; reflexivity.
  - right. eexists; reflexivity.
  - right. eexists; reflexivity.
Defined.

Lemma get_transform_stages opt params g method convert s n c n' :
  get_transform opt params g method convert s n = Ok (c, n') ->
  exists t2 t6 t7 t8 n1,
    rotate_stage params = Ok t2 /\
    flip_stage opt params = Ok t6 /\
    blur_stage params s n = Ok (t7, n1) /\
    distort_stage params s n1 = Ok (t8, n') /\
    transforms_of c
    = ((if g then [Grayscale 1] else []) ++ t2 ++ resize_stage opt method
       ++ crop_stage opt params ++ none_stage opt method ++ t6 ++ t7 ++ t8
       ++ grayscale_stage params g ++ convert_stage g convert)%list.
Proof.
  unfold get_transform. intros H.
  apply bind_ok in H as (t2 & n0 & H2 & H). apply lift_ok in H2 as [H2 ->].
  apply bind_ok in H as (t6 & n0 & H6 & H). apply lift_ok in H6 as [H6 ->].
  apply bind_ok in H as (t7 & n1 & H7 & H).
  apply bind_ok in H as (t8 & n2 & H8 & H).
  injection H as <- <-.
  exists t2, t6, t7, t8, n1. repeat split; assumption.
Qed.

(** The body of the distort loop appends nothing, for any key. *)
Lemma distort_body_nil k l : distort_body k = Ok l -> l = [].
Proof.
  unfold distort_body, fs. cbn [fs_lookup]. intros H.
  repeat match type of H with
         | context [String.eqb ?a k] => destruct (String.eqb a k)
         end;
    try discriminate; cbn in H; injection H as <-; reflexivity.
Qed.

Lemma gated_loop_distort_nil p keys s n l n' :
  gated_loop p distort_body keys s n = Ok (l, n') -> l = [].
Proof.
  revert n l n'. induction keys as [|k keys IH]; intros n l n' H; simpl in H.
  - injection H as <- _. reflexivity.
  - apply bind_ok in H as (u & n1 & _ & H).
    apply bind_ok in H as (go & n2 & _ & H).
    apply bind_ok in H as (here & n3 & Hhere & H).
    apply bind_ok in H as (rest & n4 & Hrest & H).
    injection H as <- _. rewrite (IH _ _ _ Hrest), app_nil_r.
    destruct go.
    + apply lift_ok in Hhere as [Hhere _]. apply (distort_body_nil _ _ Hhere).
    + injection Hhere as <- _. reflexivity.
Qed.

Lemma distort_stage_nil params s n l n' :
  distort_stage params s n = Ok (l, n') -> l = [].
Proof.
  unfold distort_stage. intros H.
  destruct params as [p|]; [|injection H as <- _; reflexivity].
  destruct (truthy _); [|injection H as <- _; reflexivity].
  apply (gated_loop_distort_nil _ _ _ _ _ _ H).
Qed.

(** The blur stage appends nothing or one of the two blurs. *)
Lemma blur_stage_shape params s n l n' :
  blur_stage params s n = Ok (l, n') ->
  l = [] \/ l = [Lambda (L_gaussian_blur 2)] \/ l = [Lambda (L_median_blur 3)].
Proof.
  unfold blur_stage. intros H.
  destruct params as [p|]; [|injection H as <- _; auto].
  destruct (truthy _); [|injection H as <- _; auto].
  apply bind_ok in H as (u & n1 & _ & H).
  apply bind_ok in H as (go & n2 & _ & H).
  destruct go; [|injection H as <- _; auto].
  apply bind_ok in H as (shuffled & n3 & _ & H).
  destruct (shuffled !! 0%nat) as [fn|]; [|discriminate].
  destruct (eq_str fn "gaussian_blur"); injection H as <- _; auto.
Qed.

Ltac stage_cases :=
  repeat case_match; simplify_eq; reflexivity.

Lemma rotate_stage_members params l :
  rotate_stage params = Ok l ->
  List.filter is_photometric l = [] /\ List.filter is_convert l = [].
Proof. unfold rotate_stage. intros H. split; stage_cases. Qed.

Lemma flip_stage_members opt params l :
  flip_stage opt params = Ok l ->
  List.filter is_photometric l = [] /\ List.filter is_convert l = [].
Proof. unfold flip_stage. intros H. split; stage_cases. Qed.

Lemma fixed_stage_members opt params g method :
  List.filter is_photometric (resize_stage opt method) = [] /\
  List.filter is_convert (resize_stage opt method) = [] /\
  List.filter is_photometric (crop_stage opt params) = [] /\
  List.filter is_convert (crop_stage opt params) = [] /\
  List.filter is_photometric (none_stage opt method) = [] /\
  List.filter is_convert (none_stage opt method) = [] /\
  List.filter is_photometric (grayscale_stage params g) = [] /\
  List.filter is_convert (grayscale_stage params g) = [].
Proof.
  unfold resize_stage, crop_stage, none_stage, grayscale_stage.
  repeat split; stage_cases.
Qed.

(** X7.  Whatever the configuration, the parameter set and the draws, a
    composed transform that [get_transform] returns has no brightness,
    contrast, saturation, hue or sharpness member, and at most one blur
    member. *)
Theorem get_transform_never_photometric opt params g method convert s n c n' :
  get_transform opt params g method convert s n = Ok (c, n') ->
  List.filter is_photometric (transforms_of c) = [] /\
  (length (blurs_of c) <= 1)%nat.
Proof.
  intros H. split.
  - destruct (get_transform_stages _ _ _ _ _ _ _ _ _ H)
      as (t2 & t6 & t7 & t8 & n1 & H2 & H6 & H7 & H8 & ->).
    destruct (rotate_stage_members _ _ H2) as [R2 _].
    destruct (flip_stage_members _ _ _ H6) as [R6 _].
    destruct (fixed_stage_members opt params g method)
      as (F1 & _ & F2 & _ & F3 & _ & F4 & _).
    rewrite (distort_stage_nil _ _ _ _ _ H8).
    rewrite !List.filter_app, R2, R6, F1, F2, F3, F4.
    assert (B : List.filter is_photometric t7 = []).
    { destruct (blur_stage_shape _ _ _ _ _ H7) as [-> | [-> | ->]]; reflexivity. }
    rewrite B. unfold convert_stage.
    destruct g, convert; reflexivity.
  - destruct (blurs_of_get_transform _ _ _ _ _ _ _ _ _ H) as (l & n1 & Hl & ->).
    destruct (blur_stage_shape _ _ _ _ _ Hl) as [-> | [-> | ->]]; simpl; lia.
Qed.

Lemma get_transform_never_photometric_witness :
  List.filter is_photometric
    (transforms_of
       (Compose
          [Lambda (L_rotate (PInt 5)); Resize (286, 286) BICUBIC;
           Lambda (L_crop (Some (PTuple [PInt 3; PInt 4])) 256);
           Lambda (L_flip (PBool true)); ToTensor;
           Normalize [1 # 2; 1 # 2; 1 # 2]%Q [1 # 2; 1 # 2; 1 # 2]%Q])) = [] /\
  le (length
        (blurs_of
           (Compose
              [Lambda (L_rotate (PInt 5)); Resize (286, 286) BICUBIC;
               Lambda (L_crop (Some (PTuple [PInt 3; PInt 4])) 256);
               Lambda (L_flip (PBool true)); ToTensor;
               Normalize [1 # 2; 1 # 2; 1 # 2]%Q [1 # 2; 1 # 2; 1 # 2]%Q])))
     1%nat.
Proof.
  apply (get_transform_never_photometric
           (config "resize_and_crop" 286 256 10 (1 # 2))
           (Some (params_with 3 4 true false 5 false false true))
           false BICUBIC true (const_stream (1 # 10)) 0%nat _ 5%nat).
  vm_compute. reflexivity.
Defined.

(** X8.  A composed transform ends with the conversion members and has no
    other: with [convert] it is a body followed by [ToTensor] and one
    [Normalize] with one mean and deviation of 1/2 per channel, one
    channel for native grayscale and three otherwise; without [convert] it
    has neither. *)
Theorem get_transform_normalizes_last opt params g method convert s n c n' :
  get_transform opt params g method convert s n = Ok (c, n') ->
  exists body,
    List.filter is_convert body = [] /\
    transforms_of c
    = (body ++
       if convert then
         [ToTensor;
          Normalize (replicate (if g then 1 else 3)%nat (1 # 2)%Q)
                    (replicate (if g then 1 else 3)%nat (1 # 2)%Q)]
       else [])%list.
Proof.
  intros H.
  destruct (get_transform_stages _ _ _ _ _ _ _ _ _ H)
    as (t2 & t6 & t7 & t8 & n1 & H2 & H6 & H7 & H8 & ->).
  destruct (rotate_stage_members _ _ H2) as [_ R2].
  destruct (flip_stage_members _ _ _ H6) as [_ R6].
  destruct (fixed_stage_members opt params g method)
    as (_ & F1 & _ & F2 & _ & F3 & _ & F4).
  rewrite (distort_stage_nil _ _ _ _ _ H8) in *.
  assert (B : List.filter is_convert t7 = []).
  { destruct (blur_stage_shape _ _ _ _ _ H7) as [-> | [-> | ->]]; reflexivity. }
  exists ((if g then [Grayscale 1] else []) ++ t2 ++ resize_stage opt method
          ++ crop_stage opt params ++ none_stage opt method ++ t6 ++ t7 ++ []
          ++ grayscale_stage params g)%list.
  split.
  - rewrite !List.filter_app, R2, R6, F1, F2, F3, F4, B.
    destruct g; reflexivity.
  - rewrite <- !app_assoc. repeat f_equal.
    unfold convert_stage. destruct convert, g; reflexivity.
Qed.

Lemma get_transform_normalizes_last_witness :
  exists body,
    List.filter is_convert body = [] /\
    transforms_of
      (Compose
         [Grayscale 1; Lambda (L_rotate (PInt 5));
          Lambda (L_scale_width 286 256 BICUBIC);
          Lambda (L_crop (Some (PTuple [PInt 3; PInt 4])) 256);
          Lambda (L_flip (PBool true)); ToTensor;
          Normalize [1 # 2]%Q [1 # 2]%Q])
    = (body ++ [ToTensor; Normalize (replicate 1 (1 # 2)%Q)
                                    (replicate 1 (1 # 2)%Q)])%list.
Proof.
  apply (get_transform_normalizes_last
           (config "scale_width_and_crop" 286 256 10 (1 # 2))
           (Some (params_with 3 4 true false 5 true false false))
           true BICUBIC true (const_stream (1 # 10)) 0%nat _ 0%nat).
  vm_compute. reflexivity.
Defined.

(** ** Lines 64-75: the two branches *)






Lemma shared_geometry_run opt size s st st1 d :
  valid_stream s ->
  with_rng (get_params opt size) s st = Ok (d, st1) ->
  exists a b st2 dB x y f fx r,
    shared_geometry opt size s st = Ok ((a, b), st2) /\
    two_dicts st2 a b d dB /\
    rng_pos st2 = rng_pos st1 /\
    d = [("crop_pos", PTuple [PInt x; PInt y]); ("flip", PBool f);
         ("flip_x", PBool fx); ("rotate", PInt r)] /\
    dB = [("crop_pos", PList [PInt x; PInt y]); ("flip", PBool f);
          ("flip_x", PBool fx); ("rotate", PInt r)].
Proof.
  intros Hs Hget.
  destruct (with_rng_ok _ _ _ _ _ Hget) as (n1 & Hparams & ->).
  destruct (get_params_shape _ _ _ _ _ _ Hs Hparams)
    as (new_w & new_h & x & y & f & fx & r & _ & -> & _).
  destruct (clone_of_params x y f fx r) as (text & Hdump & Hload & _).
  set (d := [("crop_pos", PTuple [PInt x; PInt y]); ("flip", PBool f);
             ("flip_x", PBool fx); ("rotate", PInt r)]) in *.
  set (dB := [("crop_pos", PList [PInt x; PInt y]); ("flip", PBool f);
              ("flip_x", PBool fx); ("rotate", PInt r)]) in *.
  set (h := objects st) in *.
  set (a := fresh (dom h)).
  set (b := fresh (dom (<[a := PDict d]> h))).
  assert (Hab : a <> b).
  { intros Heq. pose proof (is_fresh (dom (<[a := PDict d]> h))) as Hfresh.
    fold b in Hfresh. rewrite <- Heq in Hfresh. apply Hfresh.
    rewrite dom_insert_L. set_solver. }
  exists a, b, {| objects := <[b := PDict dB]> (<[a := PDict d]> h);
                  rng_pos := n1 |}, dB, x, y, f, fx, r.
  split; [|split; [|split; [|split]]]; try reflexivity.
  - unfold shared_geometry.
    rewrite (bind_eq _ _ _ _ _ _ Hget).
    unfold bind at 1. unfold new_object at 1. cbn [objects rng_pos].
    fold h. fold a.
    unfold bind at 1. unfold read_object at 1. cbn [objects].
    rewrite lookup_insert_eq.
    unfold bind at 1. unfold lift at 1. rewrite Hdump.
    unfold bind at 1. unfold new_object at 1. cbn [objects rng_pos].
    rewrite Hload. fold b. reflexivity.
  - unfold two_dicts. cbn [objects].
    rewrite lookup_insert_eq, lookup_insert_ne, lookup_insert_eq by congruence.
    auto.
Qed.

Lemma assign_flag_first_run st a b dA dB k p s :
  two_dicts st a b dA dB ->
  exists st',
    assign_flag a k p s st = Ok (tt, st') /\
    two_dicts st' a b (dict_set dA k (PBool (Qltb (s (rng_pos st)) p))) dB /\
    rng_pos st' = S (rng_pos st).
Proof.
  intros H. unfold assign_flag, bind, with_rng, random_random.
  set (st1 := {| objects := objects st; rng_pos := S (rng_pos st) |}).
  assert (H1 : two_dicts st1 a b dA dB) by exact H.
  destruct (setitem_first st1 a b dA dB k
              (PBool (Qltb (s (rng_pos st)) p)) s H1) as (st' & Hset & Hpos & H').
  exists st'. auto.
Qed.

Lemma assign_flag_second_run st a b dA dB k p s :
  two_dicts st a b dA dB ->
  exists st',
    assign_flag b k p s st = Ok (tt, st') /\
    two_dicts st' a b dA (dict_set dB k (PBool (Qltb (s (rng_pos st)) p))) /\
    rng_pos st' = S (rng_pos st).
Proof.
  intros H. unfold assign_flag, bind, with_rng, random_random.
  set (st1 := {| objects := objects st; rng_pos := S (rng_pos st) |}).
  assert (H1 : two_dicts st1 a b dA dB) by exact H.
  destruct (setitem_second st1 a b dA dB k
              (PBool (Qltb (s (rng_pos st)) p)) s H1) as (st' & Hset & Hpos & H').
  exists st'. auto.
Qed.

(** Lines 66-72, draw by draw. *)
Lemma branch_flags_run opt st a b dA dB s :
  two_dicts st a b dA dB ->
  let n := rng_pos st in
  exists st',
    branch_flags opt (a, b) s st = Ok (tt, st') /\
    rng_pos st' = (n + 7)%nat /\
    two_dicts st' a b
      (dict_set
         (dict_set
            (dict_set dA "grayscale"
               (PBool (Qltb (s n) (agument_grayscale_A opt))))
            "blur" (PBool (Qltb (s (n + 2)%nat) (agument_blur_A opt))))
         "distort" (PBool (Qltb (s (n + 4)%nat) (agument_distort_A opt))))
      (dict_set
         (dict_set
            (dict_set
               (dict_set dB "grayscale"
                  (PBool (Qltb (s (n + 1)%nat) (agument_grayscale_B opt))))
               "blur" (PBool (Qltb (s (n + 3)%nat) (agument_blur_B opt))))
            "distort" (PBool (Qltb (s (n + 5)%nat) (agument_distort_B opt))))
         "whiteBK" (PBool (Qltb (s (n + 6)%nat) (agument_whiteBK_A opt)))).
Proof.
  intros H0 n. unfold branch_flags.
  destruct (assign_flag_first_run st a b dA dB "grayscale"
              (agument_grayscale_A opt) s H0) as (st1 & E1 & H1 & P1).
  rewrite (bind_eq _ _ _ _ _ _ E1).
  destruct (assign_flag_second_run st1 a b _ dB "grayscale"
              (agument_grayscale_B opt) s H1) as (st2 & E2 & H2 & P2).
  rewrite (bind_eq _ _ _ _ _ _ E2).
  destruct (assign_flag_first_run st2 a b _ _ "blur"
              (agument_blur_A opt) s H2) as (st3 & E3 & H3 & P3).
  rewrite (bind_eq _ _ _ _ _ _ E3).
  destruct (assign_flag_second_run st3 a b _ _ "blur"
              (agument_blur_B opt) s H3) as (st4 & E4 & H4 & P4).
  rewrite (bind_eq _ _ _ _ _ _ E4).
  destruct (assign_flag_first_run st4 a b _ _ "distort"
              (agument_distort_A opt) s H4) as (st5 & E5 & H5 & P5).
  rewrite (bind_eq _ _ _ _ _ _ E5).
  destruct (assign_flag_second_run st5 a b _ _ "distort"
              (agument_distort_B opt) s H5) as (st6 & E6 & H6 & P6).
  rewrite (bind_eq _ _ _ _ _ _ E6).
  destruct (assign_flag_second_run st6 a b _ _ "whiteBK"
              (agument_whiteBK_A opt) s H6) as (st7 & E7 & H7 & P7).
  exists st7. split; [exact E7|]. split; [fold n in P1; lia|].
  replace (rng_pos st1) with (n + 1)%nat in * by (fold n in P1; lia).
  replace (rng_pos st2) with (n + 2)%nat in * by lia.
  replace (rng_pos st3) with (n + 3)%nat in * by lia.
  replace (rng_pos st4) with (n + 4)%nat in * by lia.
  replace (rng_pos st5) with (n + 5)%nat in * by lia.
  replace (rng_pos st6) with (n + 6)%nat in * by lia.
  exact H7.
Qed.

Lemma branch_params_run opt size s st st1 d :
  valid_stream s ->
  with_rng (get_params opt size) s st = Ok (d, st1) ->
  exists a b st' dB,
    branch_params opt size s st = Ok ((a, b), st') /\
    a <> b /\
    rng_pos st' = (rng_pos st1 + 7)%nat /\
    json_clone d = Ok (PDict dB) /\
    same_geometry d dB /\
    objects st' !! a = Some (PDict (source_params opt s (rng_pos st1) d)) /\
    objects st' !! b = Some (PDict (target_params opt s (rng_pos st1) dB)).
Proof.
  intros Hs Hget.
  destruct (shared_geometry_run opt size s st st1 d Hs Hget)
    as (a & b & st2 & dB & x & y & f & fx & r & Hrun & Htwo & Hpos & -> & ->).
  destruct (branch_flags_run opt st2 a b _ _ s Htwo) as (st' & Hflags & Hn & H').
  cbv zeta in Hn, H'. rewrite Hpos in Hn, H'.
  exists a, b, st', [("crop_pos", PList [PInt x; PInt y]); ("flip", PBool f);
                     ("flip_x", PBool fx); ("rotate", PInt r)].
  split.
  { unfold branch_params. rewrite (bind_eq _ _ _ _ _ _ Hrun).
    rewrite (bind_eq _ _ _ _ _ _ Hflags). reflexivity. }
  destruct H' as (Hne & Ha & Hb).
  split; [exact Hne|]. split; [exact Hn|]. split; [reflexivity|].
  split; [repeat split|]. split; [exact Ha | exact Hb].
Qed.

(** X9.  After lines 64-72 the source-branch set holds what [get_params]
    returned followed by ['grayscale'], ['blur'] and ['distort'], and the
    target-branch set holds the clone followed by the same three keys and
    ['whiteBK'].  The seven flags are decided by seven consecutive draws,
    in the order grayscale A, grayscale B, blur A, blur B, distort A,
    distort B, whiteBK, each compared with its own configured probability;
    the target's ['whiteBK'] uses the probability [agument_whiteBK_A]. *)
Theorem branch_params_contents opt size s st st1 d :
  valid_stream s ->
  with_rng (get_params opt size) s st = Ok (d, st1) ->
  exists a b st' dB,
    branch_params opt size s st = Ok ((a, b), st') /\
    a <> b /\
    rng_pos st' = (rng_pos st1 + 7)%nat /\
    json_clone d = Ok (PDict dB) /\
    objects st' !! a = Some (PDict (source_params opt s (rng_pos st1) d)) /\
    objects st' !! b = Some (PDict (target_params opt s (rng_pos st1) dB)).
Proof.
  intros Hs Hget.
  destruct (branch_params_run opt size s st st1 d Hs Hget)
    as (a & b & st' & dB & H1 & H2 & H3 & H4 & _ & H5 & H6).
  exists a, b, st', dB. auto 10.
Qed.

Lemma branch_params_contents_witness :
  exists a b st' dB,
    branch_params (config "resize_and_crop" 286 256 10 (1 # 2)) (600, 400)
      blur_flag_stream empty_state = Ok ((a, b), st') /\
    a <> b /\
    rng_pos st' = (5 + 7)%nat /\
    json_clone
      [("crop_pos", PTuple [PInt 27; PInt 27]); ("flip", PBool true);
       ("flip_x", PBool true); ("rotate", PInt 8)] = Ok (PDict dB) /\
    objects st' !! a
    = Some (PDict (source_params (config "resize_and_crop" 286 256 10 (1 # 2))
                     blur_flag_stream 5
                     [("crop_pos", PTuple [PInt 27; PInt 27]);
                      ("flip", PBool true); ("flip_x", PBool true);
                      ("rotate", PInt 8)])) /\
    objects st' !! b
    = Some (PDict (target_params (config "resize_and_crop" 286 256 10 (1 # 2))
                     blur_flag_stream 5 dB)).
Proof.
  apply (branch_params_contents
           (config "resize_and_crop" 286 256 10 (1 # 2)) (600, 400)
           blur_flag_stream empty_state {| objects := ∅; rng_pos := 5 |}
           [("crop_pos", PTuple [PInt 27; PInt 27]); ("flip", PBool true);
            ("flip_x", PBool true); ("rotate", PInt 8)]).
  - intros n. unfold blur_flag_stream, stream_of.
    do 9 (destruct n as [|n]; [split; [discriminate | reflexivity]|]).
    destruct n; split; try discriminate; reflexivity.
  - vm_compute. reflexivity.
Defined.

Lemma read_dict_eq st l d s :
  objects st !! l = Some (PDict d) -> read_dict l s st = Ok (d, st).
Proof.
  intros H. unfold read_dict, bind, read_object. rewrite H. reflexivity.
Qed.

Lemma with_rng_eq {A} (m : Rand A) s st a n :
  m s (rng_pos st) = Ok (a, n) ->
  with_rng m s st = Ok (a, {| objects := objects st; rng_pos := n |}).
Proof. intros H. unfold with_rng. rewrite H. reflexivity. Qed.

(** Lines 64-75 from the point where [get_params] has returned. *)
Lemma getitem_transforms_run opt in_nc out_nc size s st st1 d :
  valid_stream s ->
  with_rng (get_params opt size) s st = Ok (d, st1) ->
  exists dB cA cB stF,
    json_clone d = Ok (PDict dB) /\
    getitem_transforms opt in_nc out_nc size s st = Ok ((cA, cB), stF) /\
    is_ok (geometry_of (source_params opt s (rng_pos st1) d)) = true /\
    geometry_of (source_params opt s (rng_pos st1) d)
    = geometry_of (target_params opt s (rng_pos st1) dB) /\
    get_transform opt (Some (source_params opt s (rng_pos st1) d))
      (in_nc =? 1) BICUBIC true s (rng_pos st1 + 7)%nat
    = Ok (cA, (rng_pos st1 + 7
               + draws_of (source_params opt s (rng_pos st1) d))%nat) /\
    get_transform opt (Some (target_params opt s (rng_pos st1) dB))
      (out_nc =? 1) BICUBIC true s
      (rng_pos st1 + 7 + draws_of (source_params opt s (rng_pos st1) d))%nat
    = Ok (cB, (rng_pos st1 + 7
               + draws_of (source_params opt s (rng_pos st1) d)
               + draws_of (target_params opt s (rng_pos st1) dB))%nat) /\
    rng_pos stF
    = (rng_pos st1 + 7
       + draws_of (source_params opt s (rng_pos st1) d)
       + draws_of (target_params opt s (rng_pos st1) dB))%nat.
Proof.
  intros Hs Hget.
  destruct (with_rng_ok _ _ _ _ _ Hget) as (n1 & Hparams & Hst1).
  destruct (get_params_shape _ _ _ _ _ _ Hs Hparams)
    as (new_w & new_h & x & y & f & fx & r & _ & Hd & _).
  destruct (branch_params_run opt size s st st1 d Hs Hget)
    as (a & b & st' & dB & Hrun & Hne & Hpos & Hclone & _ & Ha & Hb).
  exists dB. subst d. pose proof Hclone as Hclone'. injection Hclone' as <-.
  set (dA := source_params opt s (rng_pos st1) _) in *.
  set (dB := target_params opt s (rng_pos st1) _) in *.
  destruct (get_transform_returns opt dA (in_nc =? 1) BICUBIC true s
              (rng_pos st1 + 7)%nat Hs) as [cA HcA];
    try (eexists; reflexivity); try (right; eexists; reflexivity).
  destruct (get_transform_returns opt dB (out_nc =? 1) BICUBIC true s
              (rng_pos st1 + 7 + draws_of dA)%nat Hs) as [cB HcB];
    try (eexists; reflexivity); try (right; eexists; reflexivity).
  exists cA, cB,
    {| objects := objects st';
       rng_pos := (rng_pos st1 + 7 + draws_of dA + draws_of dB)%nat |}.
  split; [exact Hclone|].
  split; [|repeat split; assumption].
  unfold getitem_transforms. rewrite (bind_eq _ _ _ _ _ _ Hrun).
  unfold branch_transforms. cbn [fst snd].
  rewrite (bind_eq _ _ _ _ _ _ (read_dict_eq st' a dA s Ha)).
  rewrite (bind_eq _ _ _ _ _ _ (read_dict_eq st' b dB s Hb)).
  pose proof HcA as HcA'. rewrite <- Hpos in HcA'.
  rewrite (bind_eq _ _ _ _ _ _ (with_rng_eq _ s st' _ _ HcA')).
  rewrite Hpos.
  rewrite (bind_eq _ _ _ _ _ _
             (with_rng_eq _ s {| objects := objects st';
                                 rng_pos := (rng_pos st1 + 7 + draws_of dA)%nat |}
                _ _ HcB)).
  reflexivity.
Qed.


Lemma draws_of_le (p : dict) : (draws_of p <= 7)%nat.
Proof.
  unfold draws_of. destruct (flag_set p "blur"), (flag_set p "distort"); lia.
Qed.

(** X10.  Lines 64-75 return whenever [get_params] does: the clone, the
    seven flag assignments and both calls of [get_transform] cannot fail.
    After the five draws of [get_params] they make seven draws for the
    flags, then two for each branch whose blur flag is set and five for
    each branch whose distort flag is set, at most 21 in all. *)
Theorem getitem_transforms_terminates opt in_nc out_nc size s st st1 d :
  valid_stream s ->
  with_rng (get_params opt size) s st = Ok (d, st1) ->
  exists dB cA cB stF,
    json_clone d = Ok (PDict dB) /\
    getitem_transforms opt in_nc out_nc size s st = Ok ((cA, cB), stF) /\
    rng_pos stF
    = (rng_pos st1 + 7
       + draws_of (source_params opt s (rng_pos st1) d)
       + draws_of (target_params opt s (rng_pos st1) dB))%nat /\
    (rng_pos st1 + 7 <= rng_pos stF <= rng_pos st1 + 21)%nat.
Proof.
  intros Hs Hget.
  destruct (getitem_transforms_run opt in_nc out_nc size s st st1 d Hs Hget)
    as (dB & cA & cB & stF & Hclone & Hall & _ & _ & _ & _ & HF).
  exists dB, cA, cB, stF. split; [exact Hclone|]. split; [exact Hall|].
  split; [exact HF|]. rewrite HF.
  pose proof (draws_of_le (source_params opt s (rng_pos st1) d)).
  pose proof (draws_of_le (target_params opt s (rng_pos st1) dB)).
  lia.
Qed.

Lemma getitem_transforms_terminates_witness :
  exists dB cA cB stF,
    json_clone
      [("crop_pos", PTuple [PInt 27; PInt 27]); ("flip", PBool true);
       ("flip_x", PBool true); ("rotate", PInt 8)] = Ok (PDict dB) /\
    getitem_transforms (config "resize_and_crop" 286 256 10 (1 # 2)) 3 3
      (600, 400) blur_flag_stream empty_state = Ok ((cA, cB), stF) /\
    rng_pos stF
    = (5 + 7
       + draws_of (source_params (config "resize_and_crop" 286 256 10 (1 # 2))
                     blur_flag_stream 5
                     [("crop_pos", PTuple [PInt 27; PInt 27]);
                      ("flip", PBool true); ("flip_x", PBool true);
                      ("rotate", PInt 8)])
       + draws_of (target_params (config "resize_and_crop" 286 256 10 (1 # 2))
                     blur_flag_stream 5 dB))%nat /\
    (5 + 7 <= rng_pos stF <= 5 + 21)%nat.
Proof.
  apply (getitem_transforms_terminates
           (config "resize_and_crop" 286 256 10 (1 # 2)) 3 3 (600, 400)
           blur_flag_stream empty_state {| objects := ∅; rng_pos := 5 |}
           [("crop_pos", PTuple [PInt 27; PInt 27]); ("flip", PBool true);
            ("flip_x", PBool true); ("rotate", PInt 8)]).
  - intros n. unfold blur_flag_stream, stream_of.
    do 9 (destruct n as [|n]; [split; [discriminate | reflexivity]|]).
    destruct n; split; try discriminate; reflexivity.
  - vm_compute. reflexivity.
Defined.



(** ** The path list: order, repetition, indexing *)

Lemma ascii_compare_refl (c : ascii) : Ascii.compare c c = Eq.
Proof. unfold Ascii.compare. apply N.compare_refl. Qed.

Lemma ascii_compare_lt_trans (a b c : ascii) :
  Ascii.compare a b = Lt -> Ascii.compare b c = Lt -> Ascii.compare a c = Lt.
Proof.
  unfold Ascii.compare. rewrite !N.compare_lt_iff. apply N.lt_trans.
Qed.

Lemma string_compare_trans (a b c : string) :
  String.compare a b <> Gt -> String.compare b c <> Gt ->
  String.compare a c <> Gt.
Proof.
  revert b c. induction a as [|c1 a IH]; intros [|c2 b] [|c3 c];
    simpl; try congruence.
  destruct (Ascii.compare c1 c2) eqn:E12; try congruence;
    destruct (Ascii.compare c2 c3) eqn:E23; try congruence; intros H1 H2.
  - apply Ascii.compare_eq_iff in E12, E23. subst.
    rewrite ascii_compare_refl. apply (IH b c); assumption.
  - apply Ascii.compare_eq_iff in E12. subst. rewrite E23. discriminate.
  - apply Ascii.compare_eq_iff in E23. subst. rewrite E12. discriminate.
  - rewrite (ascii_compare_lt_trans _ _ _ E12 E23). discriminate.
Qed.

Lemma leb_compare (a b : string) :
  String.leb a b = true <-> String.compare a b <> Gt.
Proof.
  unfold String.leb. destruct (String.compare a b); split; congruence.
Qed.

Lemma leb_trans (a b c : string) :
  String.leb a b = true -> String.leb b c = true -> String.leb a c = true.
Proof. rewrite !leb_compare. apply string_compare_trans. Qed.

Lemma leb_false_flip (a b : string) :
  String.leb a b = false -> String.leb b a = true.
Proof.
  intros H. destruct (String.leb_total a b) as [H'|H']; congruence.
Qed.

(** Inserting two strings gives the same list in either order. *)
Lemma insert_sorted_comm (x y : string) (l : list string) :
  insert_sorted x (insert_sorted y l) = insert_sorted y (insert_sorted x l).
Proof.
  induction l as [|z l IH]; simpl.
  - destruct (String.leb x y) eqn:Exy, (String.leb y x) eqn:Eyx;
      try reflexivity.
    + rewrite (String.leb_antisym _ _ Exy Eyx). reflexivity.
    + apply leb_false_flip in Exy. congruence.
  - destruct (String.leb y z) eqn:Eyz, (String.leb x z) eqn:Exz; simpl.
    + destruct (String.leb x y) eqn:Exy, (String.leb y x) eqn:Eyx;
        rewrite ?Exz, ?Eyz; try reflexivity.
      * rewrite (String.leb_antisym _ _ Exy Eyx). reflexivity.
      * apply leb_false_flip in Exy. congruence.
    + destruct (String.leb x y) eqn:Exy.
      * rewrite (leb_trans _ _ _ Exy Eyz) in Exz. discriminate.
      * rewrite Exz, Eyz. reflexivity.
    + destruct (String.leb y x) eqn:Eyx.
      * rewrite (leb_trans _ _ _ Eyx Exz) in Eyz. discriminate.
      * rewrite Exz, Eyz. reflexivity.
    + rewrite Exz, Eyz, IH. reflexivity.
Qed.

Lemma sorted_permutation_eq (l1 l2 : list string) :
  Permutation l1 l2 -> sorted l1 = sorted l2.
Proof.
  induction 1 as [|x l1 l2 _ IH|x y l|l1 l2 l3 _ IH1 _ IH2]; simpl.
  - reflexivity.
  - rewrite IH. reflexivity.
  - apply insert_sorted_comm.
  - congruence.
Qed.

Lemma insert_sorted_permutation (x : string) (l : list string) :
  Permutation (insert_sorted x l) (x :: l).
Proof.
  induction l as [|y l IH]; simpl; [reflexivity|].
  destruct (String.leb x y); [reflexivity|].
  rewrite IH. apply perm_swap.
Qed.

Lemma sorted_is_permutation (l : list string) : Permutation (sorted l) l.
Proof.
  induction l as [|x l IH]; simpl; [reflexivity|].
  rewrite insert_sorted_permutation, IH. reflexivity.
Qed.

Lemma insert_sorted_ascending (x : string) (l : list string) :
  StronglySorted (fun a b => String.leb a b = true) l ->
  StronglySorted (fun a b => String.leb a b = true) (insert_sorted x l).
Proof.
  induction 1 as [|y l Hs IH Hy]; simpl.
  - repeat constructor.
  - destruct (String.leb x y) eqn:E.
    + constructor; [constructor; assumption|].
      constructor; [exact E|].
      rewrite Forall_forall in *. intros z Hz.
      apply (leb_trans _ _ _ E). apply Hy. exact Hz.
    + constructor; [exact IH|].
      rewrite Forall_forall in *. intros z Hz.
      rewrite (insert_sorted_permutation x l) in Hz.
      apply elem_of_cons in Hz as [-> | Hz];
        [apply leb_false_flip; exact E | apply Hy; exact Hz].
Qed.

Lemma sorted_ascending (l : list string) :
  StronglySorted (fun a b => String.leb a b = true) (sorted l).
Proof.
  induction l as [|x l IH]; simpl; [constructor|].
  apply insert_sorted_ascending. exact IH.
Qed.

(** X12.  The dataset does not depend on the order in which the directory
    is listed: two listings of the same files, in any order, give the same
    dataset, or the same failure. *)
Theorem init_ignores_listing_order
    (listing1 listing2 : string -> Z -> list string) (opt : Options) :
  Permutation
    (listing1 (os_path_join (dataroot opt) (phase opt)) (max_dataset_size opt))
    (listing2 (os_path_join (dataroot opt) (phase opt)) (max_dataset_size opt)) ->
  AlignedDataset_init listing1 opt = AlignedDataset_init listing2 opt.
Proof.
  intros H. unfold AlignedDataset_init.
  rewrite (sorted_permutation_eq _ _ H). reflexivity.
Qed.

Lemma init_ignores_listing_order_witness :
  AlignedDataset_init five_files (config "resize_and_crop" 286 256 0 0)
  = AlignedDataset_init five_files_reversed
      (config "resize_and_crop" 286 256 0 0).
Proof.
  apply (init_ignores_listing_order five_files five_files_reversed
           (config "resize_and_crop" 286 256 0 0)).
  unfold five_files_reversed. apply Permutation_rev.
Defined.

(** X13.  With a repeat count of 1 or less, zero and negative counts
    included, the dataset's path list is the listing in ascending order:
    every listed file once, none added, and [__len__] is the number of
    listed files. *)
Theorem init_without_repeat (make_dataset : string -> Z -> list string)
    (opt : Options) (ds : AlignedDataset) :
  repeat_dataset_count opt <= 1 ->
  AlignedDataset_init make_dataset opt = Ok ds ->
  let files := make_dataset (os_path_join (dataroot opt) (phase opt))
                            (max_dataset_size opt) in
  ds_AB_paths ds = sorted files /\
  ascending (ds_AB_paths ds) /\
  Permutation (ds_AB_paths ds) files /\
  AlignedDataset_len ds = Z.of_nat (length files).
Proof.
  intros Hk Hinit files. unfold AlignedDataset_init in Hinit.
  destruct (load_size opt >=? crop_size opt); [|discriminate].
  injection Hinit as <-. unfold AlignedDataset_len. cbn [ds_AB_paths].
  fold files. unfold repeat_paths.
  replace (1 <? repeat_dataset_count opt) with false
    by (symmetry; apply Z.ltb_ge; exact Hk).
  split; [reflexivity|]. split; [apply sorted_ascending|].
  split; [apply sorted_is_permutation|].
  rewrite (Permutation_length (sorted_is_permutation files)). reflexivity.
Qed.

Lemma init_without_repeat_witness :
  exists ds,
    AlignedDataset_init five_files
      (set_repeat 0 (config "resize_and_crop" 286 256 0 0)) = Ok ds /\
    ds_AB_paths ds
    = sorted (five_files "datasets/facades/train" 1000) /\
    ascending (ds_AB_paths ds) /\
    Permutation (ds_AB_paths ds) (five_files "datasets/facades/train" 1000) /\
    AlignedDataset_len ds
    = Z.of_nat (length (five_files "datasets/facades/train" 1000)).
Proof.
  eexists. split; [reflexivity|].
  apply (init_without_repeat five_files
           (set_repeat 0 (config "resize_and_crop" 286 256 0 0))).
  - simpl. lia.
  - reflexivity.
Defined.

Lemma lookup_concat_replicate {A} (k : nat) (l : list A) (i : nat) :
  (i < k * length l)%nat ->
  concat (replicate k l) !! i = l !! (i mod length l)%nat.
Proof.
  revert i. induction k as [|k IH]; intros i Hi; simpl in *; [lia|].
  destruct (Nat.lt_ge_cases i (length l)) as [Hlt | Hge].
  - rewrite lookup_app_l by exact Hlt. rewrite Nat.mod_small by exact Hlt.
    reflexivity.
  - rewrite lookup_app_r by exact Hge. rewrite IH by lia. f_equal.
    replace i with ((i - length l) + 1 * length l)%nat at 2 by lia.
    rewrite Nat.Div0.mod_add. reflexivity.
Qed.

(** X14.  With a repeat count [k >= 1] over [n] listed files, index [i]
    of the dataset, for [i < n * k], names the file at position [i mod n]
    of the sorted listing: the indices [i] and [i + n] name the same
    file. *)
Theorem repeated_paths_are_periodic (make_dataset : string -> Z -> list string)
    (opt : Options) (ds : AlignedDataset) (i : nat) :
  1 <= repeat_dataset_count opt ->
  AlignedDataset_init make_dataset opt = Ok ds ->
  let files :=
    sorted (make_dataset (os_path_join (dataroot opt) (phase opt))
                         (max_dataset_size opt)) in
  Z.of_nat i < Z.of_nat (length files) * repeat_dataset_count opt ->
  ds_AB_paths ds !! i = files !! (i mod length files)%nat /\
  is_Some (ds_AB_paths ds !! i).
Proof.
  intros Hk Hinit files Hi. unfold AlignedDataset_init in Hinit.
  destruct (load_size opt >=? crop_size opt); [|discriminate].
  injection Hinit as <-. cbn [ds_AB_paths]. fold files.
  rewrite repeat_paths_spec by exact Hk.
  assert (Hlen : (0 < length files)%nat) by nia.
  split.
  - apply lookup_concat_replicate. nia.
  - rewrite lookup_concat_replicate by nia.
    apply lookup_lt_is_Some. apply Nat.mod_upper_bound. lia.
Qed.

Lemma repeated_paths_are_periodic_witness :
  exists ds,
    AlignedDataset_init five_files
      (set_repeat 3 (config "resize_and_crop" 286 256 0 0)) = Ok ds /\
    ds_AB_paths ds !! 12%nat
    = sorted (five_files "datasets/facades/train" 1000)
        !! (12 mod length (sorted (five_files "datasets/facades/train" 1000)))%nat /\
    is_Some (ds_AB_paths ds !! 12%nat).
Proof.
  eexists. split; [reflexivity|].
  apply (repeated_paths_are_periodic five_files
           (set_repeat 3 (config "resize_and_crop" 286 256 0 0)) _ 12%nat).
  - simpl. lia.
  - reflexivity.
  - vm_compute. reflexivity.
Defined.

(** ** The byte cache: what stays, what is read *)

Lemma cache_run_grows self calls :
  ds_cache self ⊆ ds_cache (cache_run self calls).
Proof.
  revert self. induction calls as [|[disk path] calls IH]; intros self;
    simpl; [reflexivity|].
  destruct (get_cache_path disk self path) as [[b self']|e] eqn:E.
  - etrans; [|apply IH]. apply (get_cache_path_step _ _ _ _ _ E).
  - apply IH.
Qed.

(** X15.  Once a path is cached, every later call for it returns the
    cached bytes and changes nothing, after any run of other calls and
    whatever the disk then holds for the path: the file is not read
    again. *)
Theorem cached_bytes_are_kept (self : AlignedDataset)
    (calls : list (gmap string bytes * string))
    (disk : gmap string bytes) (path : string) (bts : bytes) :
  ds_cache self !! path = Some bts ->
  get_cache_path disk (cache_run self calls) path
  = Ok (bts, cache_run self calls).
Proof.
  intros H. apply get_cache_path_hit.
  apply (lookup_weaken _ _ _ _ H). apply cache_run_grows.
Qed.

Lemma cached_bytes_are_kept_witness :
  get_cache_path changed_files
    (cache_run warm_dataset [(three_files, "b.jpg"); (three_files, "c.jpg")])
    "a.jpg"
  = Ok ([x61],
        cache_run warm_dataset [(three_files, "b.jpg"); (three_files, "c.jpg")]).
Proof.
  apply (cached_bytes_are_kept warm_dataset
           [(three_files, "b.jpg"); (three_files, "c.jpg")]
           changed_files "a.jpg" [x61]).
  reflexivity.
Defined.

(** X16.  [get_cache_path] raises only when the path is neither cached nor
    on the disk, and then it raises [FileNotFoundError] for that path. *)
Theorem get_cache_path_raises_iff (disk : gmap string bytes)
    (self : AlignedDataset) (path : string) (e : exn) :
  get_cache_path disk self path = Raise e
  <-> ds_cache self !! path = None /\ disk !! path = None /\
      e = FileNotFoundError path.
Proof.
  unfold get_cache_path. split.
  - destruct (ds_cache self !! path); [discriminate|].
    destruct (disk !! path); [destruct (_ <? _); discriminate|].
    intros H. injection H as <-. auto.
  - intros (Hc & Hd & ->). rewrite Hc, Hd. reflexivity.
Qed.

Lemma cache_run_disabled self calls :
  cache_num (ds_opt self) <= 0 -> ds_cache self = ∅ ->
  ds_cache (cache_run self calls) = ∅ /\
  ds_opt (cache_run self calls) = ds_opt self.
Proof.
  intros Hnum. revert self Hnum.
  induction calls as [|[disk path] calls IH]; intros self Hnum Hempty;
    simpl; [auto|].
  unfold get_cache_path. rewrite Hempty, lookup_empty.
  destruct (disk !! path) as [b|]; [|apply IH; assumption].
  rewrite map_size_empty.
  replace (Z.of_nat 0 <? cache_num (ds_opt self)) with false
    by (symmetry; apply Z.ltb_ge; simpl; lia).
  apply IH; assumption.
Qed.

(** X17.  With [cache_num <= 0] the cache stays empty: after any run of
    calls from an empty cache nothing is stored, and a call returns the
    bytes the disk holds at that moment. *)
Theorem cache_disabled_reads_disk (self : AlignedDataset)
    (calls : list (gmap string bytes * string))
    (disk : gmap string bytes) (path : string) (bts : bytes) :
  cache_num (ds_opt self) <= 0 ->
  ds_cache self = ∅ ->
  disk !! path = Some bts ->
  ds_cache (cache_run self calls) = ∅ /\
  get_cache_path disk (cache_run self calls) path
  = Ok (bts, cache_run self calls).
Proof.
  intros Hnum Hempty Hdisk.
  destruct (cache_run_disabled self calls Hnum Hempty) as [He Ho].
  split; [exact He|].
  unfold get_cache_path. rewrite He, lookup_empty, Hdisk, map_size_empty, Ho.
  replace (Z.of_nat 0 <? cache_num (ds_opt self)) with false
    by (symmetry; apply Z.ltb_ge; simpl; lia).
  reflexivity.
Qed.

Lemma cache_disabled_reads_disk_witness :
  ds_cache (cache_run uncached_dataset
              [(three_files, "a.jpg"); (three_files, "b.jpg")]) = ∅ /\
  get_cache_path changed_files
    (cache_run uncached_dataset [(three_files, "a.jpg"); (three_files, "b.jpg")])
    "a.jpg"
  = Ok ([x7a; x7a],
        cache_run uncached_dataset
          [(three_files, "a.jpg"); (three_files, "b.jpg")]).
Proof.
  apply (cache_disabled_reads_disk uncached_dataset
           [(three_files, "a.jpg"); (three_files, "b.jpg")]
           changed_files "a.jpg" [x7a; x7a]).
  - simpl. lia.
  - reflexivity.
  - reflexivity.
Defined.

(** ** The resizing helpers *)

Lemma round_to_multiple_divides o base h :
  round_to_multiple o base = Ok h -> (base | h).
Proof.
  unfold round_to_multiple.
  destruct (int_truediv o base) as [q|]; [|discriminate].
  destruct (py_round q) as [r|]; [|discriminate].
  intros H. injection H as <-. exists r. reflexivity.
Qed.

(** X18.  Whenever [__make_power_2] returns an image, its width and height
    are multiples of the base.  Either the image already had the rounded
    size, and then it is returned as it is and nothing is printed, or it
    is resized to the rounded size and the size warning is requested. *)
Theorem make_power_2_gives_multiples
    (resample : pil_filter -> image -> Z * Z -> Z -> Z -> Z)
    (img out : image) (base : Z) (method : InterpolationMode)
    (c c' : console) :
  __make_power_2 resample img base method c = (Ok out, c') ->
  (base | width out) /\ (base | height out) /\
  (out = img /\ c' = c
   \/ (width out <> width img \/ height out <> height img) /\
      c' = __print_size_warning (width img) (height img)
             (width out) (height out) c).
Proof.
  unfold __make_power_2.
  destruct (round_to_multiple (height img) base) as [h|] eqn:Eh;
    [|intros H; discriminate].
  destruct (round_to_multiple (width img) base) as [w|] eqn:Ew;
    [|intros H; discriminate].
  apply round_to_multiple_divides in Eh, Ew.
  destruct ((h =? height img) && (w =? width img)) eqn:E.
  - intros H. injection H as <- <-.
    apply andb_true_iff in E as [E1 E2]. apply Z.eqb_eq in E1, E2.
    rewrite <- E1, <- E2. auto.
  - unfold Image_resize. rewrite (andb_comm (w =? width img)), E.
    destruct ((w <? 1) || (h <? 1)); intros H; [discriminate|].
    injection H as <- <-. cbn [width height].
    split; [exact Ew|]. split; [exact Eh|]. right. split; [|reflexivity].
    apply andb_false_iff in E as [E | E]; apply Z.eqb_neq in E; auto.
Qed.

Lemma make_power_2_gives_multiples_witness :
  (4 | width {| width := 8; height := 4;
                pixel := nearest_pixel Image_BICUBIC (ramp 6 5) (8, 4) |}) /\
  (4 | height {| width := 8; height := 4;
                 pixel := nearest_pixel Image_BICUBIC (ramp 6 5) (8, 4) |}) /\
  ({| width := 8; height := 4;
      pixel := nearest_pixel Image_BICUBIC (ramp 6 5) (8, 4) |} = ramp 6 5 /\
   {| has_printed := true; printed := [(6, 5, 8, 4)] |} = fresh_console
   \/ (width {| width := 8; height := 4;
                pixel := nearest_pixel Image_BICUBIC (ramp 6 5) (8, 4) |}
       <> width (ramp 6 5)
       \/ height {| width := 8; height := 4;
                    pixel := nearest_pixel Image_BICUBIC (ramp 6 5) (8, 4) |}
          <> height (ramp 6 5)) /\
      {| has_printed := true; printed := [(6, 5, 8, 4)] |}
      = __print_size_warning (width (ramp 6 5)) (height (ramp 6 5))
          (width {| width := 8; height := 4;
                    pixel := nearest_pixel Image_BICUBIC (ramp 6 5) (8, 4) |})
          (height {| width := 8; height := 4;
                     pixel := nearest_pixel Image_BICUBIC (ramp 6 5) (8, 4) |})
          fresh_console).
Proof.
  apply (make_power_2_gives_multiples nearest_pixel (ramp 6 5) _ 4 BICUBIC
           fresh_console _).
  vm_compute. reflexivity.
Defined.

Lemma power_2_run_printed resample imgs c :
  has_printed c = true -> power_2_run resample imgs c = c.
Proof.
  intros Hc. induction imgs as [|img imgs IH]; simpl; [reflexivity|].
  replace (snd (__make_power_2 resample img 4 BICUBIC c)) with c;
    [exact IH|].
  unfold __make_power_2.
  destruct (round_to_multiple (height img) 4); [|reflexivity].
  destruct (round_to_multiple (width img) 4); [|reflexivity].
  destruct (_ && _); [reflexivity|]. cbn [snd].
  unfold __print_size_warning. rewrite Hc. reflexivity.
Qed.

Lemma make_power_2_console resample img c :
  has_printed c = false ->
  snd (__make_power_2 resample img 4 BICUBIC c)
  = match adjusted_size img with
    | Some a => {| has_printed := true; printed := (printed c ++ [a])%list |}
    | None => c
    end.
Proof.
  intros Hc. unfold __make_power_2, adjusted_size.
  destruct (round_to_multiple (height img) 4) as [h|]; [|reflexivity].
  destruct (round_to_multiple (width img) 4) as [w|]; [|reflexivity].
  destruct (_ && _); [reflexivity|]. cbn [snd].
  unfold __print_size_warning. rewrite Hc. reflexivity.
Qed.

(** X19.  The size warning is printed at most once: after any run of
    calls of [__make_power_2] from a fresh console, the console holds no
    warning when no image needed adjusting, and otherwise exactly one, for
    the first image that did. *)
Theorem size_warning_printed_once
    (resample : pil_filter -> image -> Z * Z -> Z -> Z -> Z)
    (imgs : list image) :
  printed (power_2_run resample imgs fresh_console)
  = match first_adjusted imgs with
    | Some a => [a]
    | None => []
    end /\
  (length (printed (power_2_run resample imgs fresh_console)) <= 1)%nat.
Proof.
  assert (H : printed (power_2_run resample imgs fresh_console)
              = match first_adjusted imgs with
                | Some a => [a]
                | None => []
                end).
  { induction imgs as [|img imgs IH]; simpl; [reflexivity|].
    rewrite (make_power_2_console resample) by reflexivity.
    destruct (adjusted_size img) as [a|]; [|exact IH].
    rewrite (power_2_run_printed resample) by reflexivity. reflexivity. }
  split; [exact H|]. rewrite H.
  destruct (first_adjusted imgs); simpl; lia.
Qed.

(** Three images of which the second and the third need adjusting: one
    warning, for the second. *)
Example size_warning_for_second :
  power_2_run nearest_pixel [ramp 8 4; ramp 6 5; ramp 7 7] fresh_console
  = {| has_printed := true; printed := [(6, 5, 8, 4)] |}.
Proof. vm_compute. reflexivity. Qed.

Lemma py_int_max_ge (q : spec_float) (c h : Z) :
  py_int (max_float_int q c) = Ok h -> c <= h.
Proof.
  unfold max_float_int.
  destruct (int_gt_float c q) eqn:E; cbn [py_int].
  - intros H. injection H as <-. lia.
  - destruct q as [sg|sg| |sg m e]; cbn [int_gt_float] in E; try discriminate.
    + intros H. injection H as <-. apply Z.ltb_ge in E. exact E.
    + destruct (0 <=? e) eqn:Ee; intros H; injection H as <-.
      * apply Z.ltb_ge in E. destruct sg; lia.
      * apply Z.ltb_ge in E. apply Z.leb_gt in Ee.
        assert (Hd : 0 < 2 ^ (- e)) by (apply Z.pow_pos_nonneg; lia).
        destruct sg.
        -- assert (Zpos m / 2 ^ (- e) <= - c); [|lia].
           apply Z.div_le_upper_bound; [exact Hd|]. lia.
        -- apply Z.div_le_lower_bound; [exact Hd|]. lia.
Qed.

(** X20.  Whenever [__scale_width] returns an image, its width is the
    target size and its height is at least the crop size.  On an image of
    width 0 that is not returned as it is, it raises
    [ZeroDivisionError]. *)
Theorem scale_width_keeps_crop_height
    (resample : pil_filter -> image -> Z * Z -> Z -> Z -> Z)
    (img : image) (target_size crop : Z) (method : InterpolationMode) :
  (forall out,
      __scale_width resample img target_size crop method = Ok out ->
      width out = target_size /\ crop <= height out) /\
  (width img = 0 -> target_size <> 0 \/ height img < crop ->
   __scale_width resample img target_size crop method
   = Raise ZeroDivisionError).
Proof.
  unfold __scale_width. split.
  - intros out.
    destruct ((width img =? target_size) && (crop <=? height img)) eqn:E.
    + intros H. injection H as <-.
      apply andb_true_iff in E as [E1 E2].
      apply Z.eqb_eq in E1. apply Z.leb_le in E2. auto.
    + destruct (int_truediv (target_size * height img) (width img)) as [q|];
        [|discriminate].
      destruct (py_int (max_float_int q crop)) as [h|] eqn:Eh; [|discriminate].
      apply py_int_max_ge in Eh. unfold Image_resize.
      destruct ((target_size =? width img) && (h =? height img)) eqn:Es.
      * intros H. injection H as <-.
        apply andb_true_iff in Es as [E1 E2]. apply Z.eqb_eq in E1, E2.
        split; [congruence | lia].
      * destruct ((target_size <? 1) || (h <? 1)); [discriminate|].
        intros H. injection H as <-. cbn [width height]. auto.
  - intros Hw Hcase.
    replace ((width img =? target_size) && (crop <=? height img)) with false.
    + unfold int_truediv. rewrite Hw. reflexivity.
    + symmetry. apply andb_false_iff. destruct Hcase as [Ht | Hh].
      * left. apply Z.eqb_neq. congruence.
      * right. apply Z.leb_gt. exact Hh.
Qed.

Lemma scale_width_keeps_crop_height_witness :
  (forall out,
      __scale_width nearest_pixel (ramp 600 100) 286 256 BICUBIC = Ok out ->
      width out = 286 /\ 256 <= height out) /\
  __scale_width nearest_pixel (ramp 0 100) 286 256 BICUBIC
  = Raise ZeroDivisionError.
Proof.
  split.
  - apply (scale_width_keeps_crop_height nearest_pixel (ramp 600 100)
             286 256 BICUBIC).
  - apply (scale_width_keeps_crop_height nearest_pixel (ramp 0 100)
             286 256 BICUBIC); [reflexivity | left; lia].
Defined.

(** A 600 by 100 image scaled to width 286: the proportional height 47
    is raised to the crop size. *)
Example scale_width_floor_at_crop_size :
  exists out,
    __scale_width nearest_pixel (ramp 600 100) 286 256 BICUBIC = Ok out /\
    width out = 286 /\ height out = 256.
Proof. eexists. split; [vm_compute; reflexivity|]. split; reflexivity. Qed.

(** X21.  [__scale_short] and [get_params] compute the same size: in mode
    [scale_short_and_crop], when the shorter side is not already the load
    size, the image [__scale_short] returns has the size of the resize
    target, so the crop offset [get_params] samples for the image lies
    within [0, max(0, side - crop_size)] of the scaled image on both
    axes. *)
Theorem scale_short_matches_get_params
    (resample : pil_filter -> image -> Z * Z -> Z -> Z -> Z)
    (opt : Options) (img out : image) (method : InterpolationMode)
    (s : stream) (n n' : nat) (d : dict) :
  valid_stream s ->
  preprocess opt = "scale_short_and_crop" ->
  Z.min (width img) (height img) <> load_size opt ->
  __scale_short resample img (load_size opt) method = Ok out ->
  get_params opt (width img, height img) s n = Ok (d, n') ->
  resize_target opt (width img, height img) = Ok (width out, height out) /\
  exists x y,
    dict_getitem d "crop_pos" = Ok (PTuple [PInt x; PInt y]) /\
    0 <= x <= Z.max 0 (width out - crop_size opt) /\
    0 <= y <= Z.max 0 (height out - crop_size opt).
Proof.
  intros Hs Hmode Hmin Hscale Hparams.
  assert (Ht : resize_target opt (width img, height img)
               = Ok (width out, height out)).
  { unfold __scale_short in Hscale. unfold resize_target.
    rewrite Hmode. cbn [String.eqb Ascii.eqb Bool.eqb].
    rewrite (Z.min_comm (height img)).
    replace (Z.min (width img) (height img) =? load_size opt) with false
      in Hscale by (symmetry; apply Z.eqb_neq; exact Hmin).
    destruct (int_truediv (load_size opt) (Z.min (width img) (height img)))
      as [ratio|]; [|discriminate].
    destruct (py_round (int_mul_float (width img) ratio)) as [new_w|];
      [|discriminate].
    destruct (py_round (int_mul_float (height img) ratio)) as [new_h|];
      [|discriminate].
    unfold Image_resize in Hscale.
    destruct ((new_w =? width img) && (new_h =? height img)) eqn:E.
    - injection Hscale as <-.
      apply andb_true_iff in E as [E1 E2]. apply Z.eqb_eq in E1, E2.
      congruence.
    - destruct ((new_w <? 1) || (new_h <? 1)); [discriminate|].
      injection Hscale as <-. reflexivity. }
  split; [exact Ht|].
  destruct (get_params_shape _ _ _ _ _ _ Hs Hparams)
    as (new_w & new_h & x & y & f & fx & r & Ht' & -> & Hx & Hy & _).
  rewrite Ht in Ht'. injection Ht' as <- <-.
  exists x, y. repeat split; try lia.
Qed.

Lemma scale_short_matches_get_params_witness :
  exists out,
    __scale_short nearest_pixel (ramp 125 100) 286 BICUBIC = Ok out /\
    resize_target (config "scale_short_and_crop" 286 256 10 (1 # 2))
      (width (ramp 125 100), height (ramp 125 100))
    = Ok (width out, height out) /\
    exists x y,
      dict_getitem
        [("crop_pos", PTuple [PInt 51; PInt 15]); ("flip", PBool false);
         ("flip_x", PBool false); ("rotate", PInt 0)] "crop_pos"
      = Ok (PTuple [PInt x; PInt y]) /\
      0 <= x <= Z.max 0 (width out - 256) /\
      0 <= y <= Z.max 0 (height out - 256).
Proof.
  eexists. split; [vm_compute; reflexivity|].
  apply (scale_short_matches_get_params nearest_pixel
           (config "scale_short_and_crop" 286 256 10 (1 # 2))
           (ramp 125 100) _ BICUBIC (const_stream (1 # 2)) 0%nat 5%nat).
  - apply const_stream_valid; [discriminate | reflexivity].
  - reflexivity.
  - simpl. lia.
  - vm_compute. reflexivity.
  - vm_compute. reflexivity.
Defined.

(** ** Rotation and flips *)

Lemma guard_stage_members opt params (g : bool) method convert :
  forallb guard_holds (if g then [Grayscale 1] else []) = true /\
  forallb guard_holds (resize_stage opt method) = true /\
  forallb guard_holds (crop_stage opt params) = true /\
  forallb guard_holds (none_stage opt method) = true /\
  forallb guard_holds (grayscale_stage params g) = true /\
  forallb guard_holds (convert_stage g convert) = true.
Proof.
  unfold resize_stage, crop_stage, none_stage, grayscale_stage, convert_stage.
  repeat split; stage_cases.
Qed.

Lemma guard_rotate_stage params l :
  rotate_stage params = Ok l -> forallb guard_holds l = true.
Proof.
  unfold rotate_stage. intros H.
  destruct params as [p|]; [|injection H as <-; reflexivity].
  destruct (dict_getitem p "rotate") as [r|]; [|discriminate].
  destruct (truthy r) eqn:E; injection H as <-; simpl; rewrite ?E; reflexivity.
Qed.

Lemma guard_flip_stage opt params l :
  flip_stage opt params = Ok l -> forallb guard_holds l = true.
Proof.
  unfold flip_stage. intros H.
  destruct (no_flip opt); [injection H as <-; reflexivity|].
  destruct params as [p|]; [|injection H as <-; reflexivity].
  destruct (dict_getitem p "flip") as [f|]; [|discriminate].
  destruct (flip_x opt).
  - destruct (dict_getitem p "flip_x") as [fx|]; [|discriminate].
    destruct (truthy f) eqn:Ef, (truthy fx) eqn:Efx; injection H as <-;
      simpl; rewrite ?Ef, ?Efx; reflexivity.
  - destruct (truthy f) eqn:Ef; injection H as <-; simpl; rewrite ?Ef;
      reflexivity.
Qed.

(** X22.  Every rotate or flip member of a composed transform was added
    under the test it repeats when it runs, so the branch of [__rotate],
    [__flip] and [__flip_x] that returns the image unchanged is never
    taken from a composed transform: a rotate member rotates with white
    fill and a flip member transposes. *)
Theorem composed_members_always_act
    (Image_rotate : image -> pyval -> string -> image)
    opt params g method convert s n c n' (t : transform) (img : image) :
  get_transform opt params g method convert s n = Ok (c, n') ->
  In t (transforms_of c) ->
  match t with
  | Lambda (L_rotate a) =>
      __rotate Image_rotate img a = Image_rotate img a "white"
  | Lambda (L_flip f) => __flip img f = Image_transpose img FLIP_LEFT_RIGHT
  | Lambda (L_flip_x f) => __flip_x img f = Image_transpose img FLIP_TOP_BOTTOM
  | _ => True
  end.
Proof.
  intros H Hin.
  destruct (get_transform_stages _ _ _ _ _ _ _ _ _ H)
    as (t2 & t6 & t7 & t8 & n1 & H2 & H6 & H7 & H8 & Hc).
  assert (Hall : forallb guard_holds (transforms_of c) = true).
  { rewrite Hc.
    destruct (guard_stage_members opt params g method convert)
      as (G1 & G3 & G4 & G5 & G9 & G10).
    rewrite !forallb_app, G1, G3, G4, G5, G9, G10,
      (guard_rotate_stage _ _ H2), (guard_flip_stage _ _ _ H6),
      (distort_stage_nil _ _ _ _ _ H8).
    destruct (blur_stage_shape _ _ _ _ _ H7) as [-> | [-> | ->]]; reflexivity. }
  rewrite forallb_forall in Hall. specialize (Hall t Hin).
  destruct t as [| | | | | |[]]; try exact I;
    unfold __rotate, __flip, __flip_x; cbn [guard_holds] in Hall;
    rewrite Hall; reflexivity.
Qed.

Lemma composed_members_always_act_witness :
  __flip (ramp 4 3) (PBool true) = Image_transpose (ramp 4 3) FLIP_LEFT_RIGHT.
Proof.
  apply (composed_members_always_act mark_rotation
           (config "resize_and_crop" 286 256 10 (1 # 2))
           (Some (params_with 3 4 true false 5 false false false))
           false BICUBIC true (const_stream (1 # 10)) 0%nat
           (Compose
              [Lambda (L_rotate (PInt 5)); Resize (286, 286) BICUBIC;
               Lambda (L_crop (Some (PTuple [PInt 3; PInt 4])) 256);
               Lambda (L_flip (PBool true)); ToTensor;
               Normalize [1 # 2; 1 # 2; 1 # 2]%Q [1 # 2; 1 # 2; 1 # 2]%Q])
           0%nat (Lambda (L_flip (PBool true))) (ramp 4 3)).
  - vm_compute. reflexivity.
  - simpl. auto.
Defined.

(** X23.  A flip keeps the size of the image and mirrors it: the pixel at
    column [x] comes from column [width - 1 - x] for [__flip], the pixel
    at row [y] from row [height - 1 - y] for [__flip_x]; flipping twice
    gives every pixel back, and the two flips give the same pixels in
    either order. *)
Theorem flips_mirror_pixels (img : image) (f : pyval) (x y : Z) :
  truthy f = true ->
  width (__flip img f) = width img /\ height (__flip img f) = height img /\
  width (__flip_x img f) = width img /\ height (__flip_x img f) = height img /\
  pixel (__flip img f) x y = pixel img (width img - 1 - x) y /\
  pixel (__flip_x img f) x y = pixel img x (height img - 1 - y) /\
  pixel (__flip (__flip img f) f) x y = pixel img x y /\
  pixel (__flip_x (__flip_x img f) f) x y = pixel img x y /\
  pixel (__flip_x (__flip img f) f) x y = pixel (__flip (__flip_x img f) f) x y.
Proof.
  intros Hf. unfold __flip, __flip_x. rewrite Hf. cbn.
  repeat split; f_equal; lia.
Qed.

Lemma flips_mirror_pixels_witness :
  width (__flip (ramp 4 3) (PBool true)) = width (ramp 4 3) /\
  height (__flip (ramp 4 3) (PBool true)) = height (ramp 4 3) /\
  width (__flip_x (ramp 4 3) (PBool true)) = width (ramp 4 3) /\
  height (__flip_x (ramp 4 3) (PBool true)) = height (ramp 4 3) /\
  pixel (__flip (ramp 4 3) (PBool true)) 1 2
  = pixel (ramp 4 3) (width (ramp 4 3) - 1 - 1) 2 /\
  pixel (__flip_x (ramp 4 3) (PBool true)) 1 2
  = pixel (ramp 4 3) 1 (height (ramp 4 3) - 1 - 2) /\
  pixel (__flip (__flip (ramp 4 3) (PBool true)) (PBool true)) 1 2
  = pixel (ramp 4 3) 1 2 /\
  pixel (__flip_x (__flip_x (ramp 4 3) (PBool true)) (PBool true)) 1 2
  = pixel (ramp 4 3) 1 2 /\
  pixel (__flip_x (__flip (ramp 4 3) (PBool true)) (PBool true)) 1 2
  = pixel (__flip (__flip_x (ramp 4 3) (PBool true)) (PBool true)) 1 2.
Proof.
  apply (flips_mirror_pixels (ramp 4 3) (PBool true) 1 2). reflexivity.
Defined.

(** ** [transparent_to_whiteBK] *)

Lemma string_get_some (s : string) (n : nat) :
  (n < String.length s)%nat -> exists c, String.get n s = Some c.
Proof.
  revert n. induction s as [|c s IH]; intros n Hn; simpl in *; [lia|].
  destruct n as [|n]; [eauto|]. apply IH. lia.
Qed.

Lemma last_char_nonempty (s : string) :
  s <> "" -> exists c, last_char s = Ok c.
Proof.
  intros Hs. unfold last_char.
  destruct (string_get_some s (String.length s - 1)) as [c Hc].
  - destruct s; [congruence|]. simpl. lia.
  - rewrite Hc. eauto.
Qed.

(** X24.  For an image whose mode is not empty (and whose palette mode is
    not empty when the mode is ['P']), [transparent_to_whiteBK] returns an
    image of the same size.  When the effective mode ends in ['A'] the
    result has that mode without its last letter; otherwise the image is
    returned as it is. *)
Theorem whiteBK_drops_alpha
    (convert_pixels : string -> string -> string -> image -> Z -> Z -> Z)
    (solid : string -> list Z -> Z)
    (paste_masked : string -> image -> image -> Z -> Z -> Z)
    (image : pimage) :
  pil_mode image <> "" ->
  (pil_mode image = "P" -> pil_palette_mode image <> "") ->
  exists out,
    transparent_to_whiteBK convert_pixels solid paste_masked image = Ok out /\
    width (pil_im out) = width (pil_im image) /\
    height (pil_im out) = height (pil_im image) /\
    (if ends_with_A (effective_mode image)
     then pil_mode out = drop_last (effective_mode image)
     else out = image).
Proof.
  intros Hmode Hpal. unfold transparent_to_whiteBK, effective_mode.
  destruct (String.eqb (pil_mode image) "P") eqn:EP.
  - apply String.eqb_eq in EP.
    destruct (last_char_nonempty _ (Hpal EP)) as [c Hc].
    assert (Hpa : ends_with_A (pil_palette_mode image) = Ascii.eqb c "A").
    { unfold ends_with_A. rewrite Hc. reflexivity. }
    rewrite Hc. cbn [andb].
    destruct (Ascii.eqb c "A") eqn:EA.
    + cbn [pil_convert pil_mode]. rewrite Hc, EA.
      eexists. split; [reflexivity|]. repeat (rewrite Hpa; cbv beta iota).
      repeat split; reflexivity.
    + rewrite EP. cbn.
      eexists. split; [reflexivity|]. repeat (rewrite Hpa; cbv beta iota).
      repeat split; reflexivity.
  - cbn [andb]. destruct (last_char_nonempty _ Hmode) as [c Hc].
    assert (Hma : ends_with_A (pil_mode image) = Ascii.eqb c "A").
    { unfold ends_with_A. rewrite Hc. reflexivity. }
    rewrite Hc.
    destruct (Ascii.eqb c "A") eqn:EA; eexists;
      (split; [reflexivity|]); repeat (rewrite Hma; cbv beta iota); repeat split; reflexivity.
Qed.

Lemma whiteBK_drops_alpha_witness :
  exists out,
    transparent_to_whiteBK keep_pixels solid_first paste_source
      {| pil_mode := "P"; pil_palette_mode := "RGBA"; pil_im := ramp 4 3 |}
    = Ok out /\
    width (pil_im out) = width (ramp 4 3) /\
    height (pil_im out) = height (ramp 4 3) /\
    pil_mode out = "RGB".
Proof.
  apply (whiteBK_drops_alpha keep_pixels solid_first paste_source
           {| pil_mode := "P"; pil_palette_mode := "RGBA"; pil_im := ramp 4 3 |}).
  - discriminate.
  - discriminate.
Defined.

(** ** [AlignedDataset.__getitem__] *)

Section GetItemProperties.
Variable convert_pixels : string -> string -> string -> image -> Z -> Z -> Z.
Variable solid : string -> list Z -> Z.
Variable paste_masked : string -> image -> image -> Z -> Z -> Z.
Variable X : Type.
Variable Image_open : bytes -> result pimage.
Variable of_image : pimage -> X.
Variable apply1 : transform -> X -> Rand X.

Local Abbreviation getitem :=
  (__getitem__ convert_pixels solid paste_masked X Image_open of_image apply1).

Lemma list_getitem_range {A} (l : list A) (index : Z) :
  - Z.of_nat (length l) <= index < Z.of_nat (length l) ->
  exists a, list_getitem l index = Ok a /\
            l !! Z.to_nat (index mod Z.of_nat (length l)) = Some a.
Proof.
  intros Hi. unfold list_getitem.
  set (n := Z.of_nat (length l)) in *.
  assert (Hmod : index mod n = if index <? 0 then index + n else index).
  { destruct (index <? 0) eqn:E.
    - apply Z.ltb_lt in E.
      rewrite <- (Z_mod_plus_full index 1 n). rewrite Z.mul_1_l.
      apply Z.mod_small. lia.
    - apply Z.ltb_ge in E. apply Z.mod_small. lia. }
  rewrite Hmod.
  set (i := if index <? 0 then index + n else index) in *.
  assert (Hr : 0 <= i < n) by (subst i; destruct (index <? 0) eqn:E;
    [apply Z.ltb_lt in E | apply Z.ltb_ge in E]; lia).
  replace ((i <? 0) || (n <=? i)) with false.
  2:{ symmetry. apply orb_false_iff. rewrite Z.ltb_ge, Z.leb_gt. lia. }
  destruct (lookup_lt_is_Some_2 l (Z.to_nat i)) as [a Ha]; [subst n; lia|].
  rewrite Ha. eauto.
Qed.

Lemma list_getitem_outside {A} (l : list A) (index : Z) :
  index < - Z.of_nat (length l) \/ Z.of_nat (length l) <= index ->
  list_getitem l index = Raise IndexError.
Proof.
  intros Hi. unfold list_getitem.
  set (n := Z.of_nat (length l)) in *.
  replace (((if index <? 0 then index + n else index) <? 0)
           || (n <=? (if index <? 0 then index + n else index))) with true;
    [reflexivity|].
  symmetry. apply orb_true_iff. rewrite Z.ltb_lt, Z.leb_le.
  destruct (index <? 0) eqn:E;
    [apply Z.ltb_lt in E | apply Z.ltb_ge in E]; lia.
Qed.

(** X25.  An index from [-len] to [len - 1] names a path, a negative one
    counting from the end: the path at position [index mod len].  Any
    other index raises [IndexError] before anything is read or drawn, and
    leaves the dataset as it was. *)
Theorem getitem_index (disk : gmap string bytes) (self : AlignedDataset)
    (index : Z) (s : stream) (st : pystate) :
  (index < - AlignedDataset_len self \/ AlignedDataset_len self <= index ->
   getitem disk self index s st = (Raise IndexError, self)) /\
  (- AlignedDataset_len self <= index < AlignedDataset_len self ->
   exists path,
     list_getitem (ds_AB_paths self) index = Ok path /\
     ds_AB_paths self !! Z.to_nat (index mod AlignedDataset_len self)
     = Some path).
Proof.
  unfold AlignedDataset_len. split.
  - intros Hi. unfold __getitem__.
    rewrite (list_getitem_outside _ _ Hi). reflexivity.
  - apply list_getitem_range.
Qed.

(** X26.  The bytes are cached before they are decoded.  A path that is
    neither cached nor on the disk raises and changes nothing; a file that
    is read into a cache with room and then fails to decode is cached all
    the same, and from then on every request for it fails in the same way
    without reading the disk, whatever the disk holds by then. *)
Theorem getitem_caches_before_decoding (disk : gmap string bytes)
    (self : AlignedDataset) (index : Z) (s : stream) (st : pystate)
    (path : string) :
  list_getitem (ds_AB_paths self) index = Ok path ->
  ds_cache self !! path = None ->
  (disk !! path = None ->
   getitem disk self index s st = (Raise (FileNotFoundError path), self)) /\
  (forall bts e,
      disk !! path = Some bts ->
      Z.of_nat (size (ds_cache self)) < cache_num (ds_opt self) ->
      Image_open bts = Raise e ->
      let self' := set_cache self (<[path := bts]> (ds_cache self)) in
      getitem disk self index s st = (Raise e, self') /\
      forall disk' s' st',
        getitem disk' self' index s' st' = (Raise e, self')).
Proof.
  intros Hpath Hcache. split.
  - intros Hdisk. unfold __getitem__. rewrite Hpath.
    rewrite (get_cache_path_absent _ _ _ Hcache Hdisk). reflexivity.
  - intros bts e Hdisk Hroom Hopen self'. split.
    + unfold __getitem__. rewrite Hpath.
      rewrite (get_cache_path_miss _ _ _ _ Hcache Hdisk).
      replace (Z.of_nat (size (ds_cache self)) <? cache_num (ds_opt self))
        with true by (symmetry; apply Z.ltb_lt; exact Hroom).
      rewrite Hopen. reflexivity.
    + intros disk' s' st'. unfold __getitem__.
      change (ds_AB_paths self') with (ds_AB_paths self). rewrite Hpath.
      rewrite (get_cache_path_hit disk' self' path bts).
      * rewrite Hopen. reflexivity.
      * unfold self'. cbn [set_cache ds_cache]. apply lookup_insert_eq.
Qed.

(** X27.  A sample that [__getitem__] returns carries the indexed path
    under both ['A_paths'] and ['B_paths'], and the dataset afterwards is
    the one [get_cache_path] left for that path: its path list is
    unchanged and its cache holds what it held before, and the bytes
    decoded if there was room. *)
Theorem getitem_sample_paths (disk : gmap string bytes)
    (self self' : AlignedDataset) (index : Z) (s : stream)
    (st st' : pystate) (smp : sample X) :
  getitem disk self index s st = (Ok (smp, st'), self') ->
  A_paths X smp = B_paths X smp /\
  list_getitem (ds_AB_paths self) index = Ok (A_paths X smp) /\
  ds_AB_paths self' = ds_AB_paths self /\
  ds_cache self ⊆ ds_cache self' /\
  exists bts AB,
    get_cache_path disk self (A_paths X smp) = Ok (bts, self') /\
    Image_open bts = Ok AB.
Proof.
  unfold __getitem__.
  destruct (list_getitem (ds_AB_paths self) index) as [path|] eqn:Hpath;
    [|discriminate].
  destruct (get_cache_path disk self path) as [[bts self1]|] eqn:Hcache;
    [|discriminate].
  destruct (Image_open bts) as [AB|] eqn:Hopen; [|discriminate].
  intros H. injection H as Hbody <-.
  assert (Hp : A_paths X smp = path /\ B_paths X smp = path).
  { unfold getitem_body in Hbody.
    apply bind_ok in Hbody as (A & st1 & _ & Hbody).
    apply bind_ok in Hbody as (B & st2 & _ & Hbody).
    apply bind_ok in Hbody as (u & st3 & _ & Hbody).
    apply bind_ok in Hbody as (A' & st4 & _ & Hbody).
    apply bind_ok in Hbody as (T & st5 & _ & Hbody).
    apply bind_ok in Hbody as (tA & st6 & _ & Hbody).
    apply bind_ok in Hbody as (tB & st7 & _ & Hbody).
    injection Hbody as <- _. auto. }
  destruct Hp as [-> HB]. rewrite HB.
  split; [reflexivity|]. split; [reflexivity|].
  destruct (get_cache_path_step _ _ _ _ _ Hcache) as (_ & Hsub & _ & Hcases).
  split.
  - unfold get_cache_path in Hcache.
    destruct (ds_cache self !! path); [injection Hcache as _ <-; reflexivity|].
    destruct (disk !! path); [|discriminate].
    destruct (_ <? _); injection Hcache as _ <-; reflexivity.
  - split; [exact Hsub|]. eauto.
Qed.
End GetItemProperties.

Lemma getitem_index_witness :
  toy_getitem three_files new_dataset 5 (const_stream (1 # 2)) empty_state
  = (Raise IndexError, new_dataset) /\
  exists path,
    list_getitem (ds_AB_paths new_dataset) (-1) = Ok path /\
    ds_AB_paths new_dataset
      !! Z.to_nat ((-1) mod AlignedDataset_len new_dataset) = Some path.
Proof.
  split.
  - apply (getitem_index keep_pixels solid_first paste_source (list transform)
             toy_open no_data record_call three_files new_dataset 5
             (const_stream (1 # 2)) empty_state).
    right. unfold AlignedDataset_len. simpl. lia.
  - apply (getitem_index keep_pixels solid_first paste_source (list transform)
             toy_open no_data record_call three_files new_dataset (-1)
             (const_stream (1 # 2)) empty_state).
    unfold AlignedDataset_len. simpl. lia.
Defined.

Lemma getitem_caches_before_decoding_witness :
  toy_getitem broken_files new_dataset 0 (const_stream (1 # 2)) empty_state
  = (Raise ValueError,
     set_cache new_dataset (<["a.jpg" := []]> (ds_cache new_dataset))) /\
  forall disk' s' st',
    toy_getitem disk'
      (set_cache new_dataset (<["a.jpg" := []]> (ds_cache new_dataset)))
      0 s' st'
    = (Raise ValueError,
       set_cache new_dataset (<["a.jpg" := []]> (ds_cache new_dataset))).
Proof.
  apply (getitem_caches_before_decoding keep_pixels solid_first paste_source
           (list transform) toy_open no_data record_call broken_files
           new_dataset 0 (const_stream (1 # 2)) empty_state "a.jpg").
  - reflexivity.
  - reflexivity.
  - reflexivity.
  - vm_compute. reflexivity.
  - reflexivity.
Defined.

Lemma getitem_sample_paths_witness :
  exists smp st' self',
    toy_getitem three_files new_dataset 1 (const_stream (1 # 2)) empty_state
    = (Ok (smp, st'), self') /\
    A_paths (list transform) smp = B_paths (list transform) smp /\
    list_getitem (ds_AB_paths new_dataset) 1
    = Ok (A_paths (list transform) smp) /\
    ds_AB_paths self' = ds_AB_paths new_dataset /\
    ds_cache new_dataset ⊆ ds_cache self' /\
    exists bts AB,
      get_cache_path three_files new_dataset (A_paths (list transform) smp)
      = Ok (bts, self') /\
      toy_open bts = Ok AB.
Proof.
  eexists _, _, _. split; [vm_compute; reflexivity|].
  eapply (getitem_sample_paths keep_pixels solid_first paste_source
            (list transform) toy_open no_data record_call three_files
            new_dataset _ 1 (const_stream (1 # 2)) empty_state).
  vm_compute. reflexivity.
Defined.

(** The sample at index 1 of the new dataset: the file ["b.jpg"], both
    transforms run to the end, and the bytes cached. *)
Example getitem_second_file :
  exists smp st' self',
    toy_getitem three_files new_dataset 1 (const_stream (1 # 2)) empty_state
    = (Ok (smp, st'), self') /\
    A_paths (list transform) smp = "b.jpg" /\
    sample_A (list transform) smp
    = [Resize (286, 286) BICUBIC;
       Lambda (L_crop (Some (PTuple [PInt 15; PInt 15])) 256);
       ToTensor; Normalize [1 # 2; 1 # 2; 1 # 2]%Q [1 # 2; 1 # 2; 1 # 2]%Q] /\
    ds_cache self' !! "b.jpg" = Some [x62] /\
    rng_pos st' = 13%nat.
Proof.
  eexists _, _, _. split; [vm_compute; reflexivity|].
  repeat split; vm_compute; reflexivity.
Qed.

(** ** One resizing member at most *)

Lemma resizing_other_stages opt params (g : bool) method convert :
  List.filter is_resizing (if g then [Grayscale 1] else []) = [] /\
  List.filter is_resizing (crop_stage opt params) = [] /\
  List.filter is_resizing (grayscale_stage params g) = [] /\
  List.filter is_resizing (convert_stage g convert) = [] /\
  List.filter is_crop (if g then [Grayscale 1] else []) = [] /\
  List.filter is_crop (resize_stage opt method) = [] /\
  List.filter is_crop (none_stage opt method) = [] /\
  List.filter is_crop (grayscale_stage params g) = [] /\
  List.filter is_crop (convert_stage g convert) = [].
Proof.
  unfold resize_stage, crop_stage, none_stage, grayscale_stage, convert_stage.
  repeat split; stage_cases.
Qed.

Lemma resizing_rotate_flip opt params l2 l6 :
  rotate_stage params = Ok l2 -> flip_stage opt params = Ok l6 ->
  List.filter is_resizing l2 = [] /\ List.filter is_crop l2 = [] /\
  List.filter is_resizing l6 = [] /\ List.filter is_crop l6 = [].
Proof.
  unfold rotate_stage, flip_stage. intros H2 H6.
  repeat split; stage_cases.
Qed.

Lemma resizing_resize_none opt method :
  List.filter is_resizing (resize_stage opt method ++ none_stage opt method)
  = (resize_stage opt method ++ none_stage opt method)%list /\
  (length (resize_stage opt method ++ none_stage opt method) <= 1)%nat.
Proof.
  unfold resize_stage, none_stage.
  destruct (String.eqb (preprocess opt) "none") eqn:E.
  - apply String.eqb_eq in E. rewrite E. cbn. split; [reflexivity | lia].
  - repeat case_match; cbn; split; try reflexivity; lia.
Qed.

(** X28.  A composed transform resizes the image at most once: it has at
    most one member among [Resize], scale-width, scale-short and
    make-power-2.  With [preprocess = 'none'] that member is
    [__make_power_2] with base 4 and there is no crop member. *)
Theorem get_transform_resizes_once opt params g method convert s n c n' :
  get_transform opt params g method convert s n = Ok (c, n') ->
  (length (List.filter is_resizing (transforms_of c)) <= 1)%nat /\
  (preprocess opt = "none" ->
   List.filter is_resizing (transforms_of c)
   = [Lambda (L_make_power_2 4 method)] /\
   List.filter is_crop (transforms_of c) = []).
Proof.
  intros H.
  destruct (get_transform_stages _ _ _ _ _ _ _ _ _ H)
    as (t2 & t6 & t7 & t8 & n1 & H2 & H6 & H7 & H8 & ->).
  destruct (resizing_other_stages opt params g method convert)
    as (R1 & R4 & R9 & R10 & C1 & C3 & C5 & C9 & C10).
  destruct (resizing_rotate_flip _ _ _ _ H2 H6) as (R2 & C2 & R6 & C6).
  rewrite (distort_stage_nil _ _ _ _ _ H8).
  assert (R7 : List.filter is_resizing t7 = [] /\ List.filter is_crop t7 = []).
  { destruct (blur_stage_shape _ _ _ _ _ H7) as [-> | [-> | ->]];
      split; reflexivity. }
  destruct R7 as [R7 C7].
  assert (Hres : List.filter is_resizing
                   ((if g then [Grayscale 1] else []) ++ t2
                    ++ resize_stage opt method ++ crop_stage opt params
                    ++ none_stage opt method ++ t6 ++ t7 ++ []
                    ++ grayscale_stage params g ++ convert_stage g convert)
                 = List.filter is_resizing
                     (resize_stage opt method ++ none_stage opt method)).
  { rewrite !List.filter_app, R1, R2, R4, R6, R7, R9, R10.
    cbn [app List.filter]. rewrite !app_nil_r. reflexivity. }
  rewrite Hres.
  destruct (resizing_resize_none opt method) as [Hall Hlen].
  rewrite Hall. split; [exact Hlen|].
  intros Hnone. split.
  - unfold resize_stage, none_stage. rewrite Hnone. reflexivity.
  - rewrite !List.filter_app, C1, C2, C3, C5, C6, C7, C9, C10.
    unfold crop_stage. rewrite Hnone. reflexivity.
Qed.

Lemma get_transform_resizes_once_witness :
  le (length
        (List.filter is_resizing
           (transforms_of
              (Compose
                 [Lambda (L_make_power_2 4 BICUBIC);
                  Lambda (L_flip (PBool true)); ToTensor;
                  Normalize [1 # 2; 1 # 2; 1 # 2]%Q [1 # 2; 1 # 2; 1 # 2]%Q]))))
     1%nat /\
  List.filter is_resizing
    (transforms_of
       (Compose
          [Lambda (L_make_power_2 4 BICUBIC);
           Lambda (L_flip (PBool true)); ToTensor;
           Normalize [1 # 2; 1 # 2; 1 # 2]%Q [1 # 2; 1 # 2; 1 # 2]%Q]))
  = [Lambda (L_make_power_2 4 BICUBIC)] /\
  List.filter is_crop
    (transforms_of
       (Compose
          [Lambda (L_make_power_2 4 BICUBIC);
           Lambda (L_flip (PBool true)); ToTensor;
           Normalize [1 # 2; 1 # 2; 1 # 2]%Q [1 # 2; 1 # 2; 1 # 2]%Q])) = [].
Proof.
  assert (H : get_transform (config "none" 286 256 0 0)
                (Some (params_with 3 4 true false 0 false false false))
                false BICUBIC true (const_stream 0) 0%nat
              = Ok (Compose
                      [Lambda (L_make_power_2 4 BICUBIC);
                       Lambda (L_flip (PBool true)); ToTensor;
                       Normalize [1 # 2; 1 # 2; 1 # 2]%Q
                                 [1 # 2; 1 # 2; 1 # 2]%Q], 0%nat)).
  { vm_compute. reflexivity. }
  split.
  - apply (get_transform_resizes_once _ _ _ _ _ _ _ _ _ H).
  - apply (get_transform_resizes_once _ _ _ _ _ _ _ _ _ H). reflexivity.
Defined.

(** ** The clone through JSON *)

Lemma json_dumps_tuple l :
  json_dumps (PTuple l)
  = match dumps_items l with Ok js => Ok (JArr js) | Raise e => Raise e end.
Proof.
  induction l as [|x l IH]; [reflexivity|].
  cbn [json_dumps dumps_items] in *.
  destruct (json_dumps x) as [j|e]; [|reflexivity].
  match type of IH with
  | match ?F with _ => _ end = _ => destruct F as [js|e]
  end; destruct (dumps_items l) as [js'|e']; try discriminate;
    injection IH as ->; reflexivity.
Qed.

Lemma json_dumps_list l :
  json_dumps (PList l)
  = match dumps_items l with Ok js => Ok (JArr js) | Raise e => Raise e end.
Proof.
  induction l as [|x l IH]; [reflexivity|].
  cbn [json_dumps dumps_items] in *.
  destruct (json_dumps x) as [j|e]; [|reflexivity].
  match type of IH with
  | match ?F with _ => _ end = _ => destruct F as [js|e]
  end; destruct (dumps_items l) as [js'|e']; try discriminate;
    injection IH as ->; reflexivity.
Qed.

Lemma json_dumps_dict d :
  json_dumps (PDict d)
  = match dumps_members d with Ok js => Ok (JObj js) | Raise e => Raise e end.
Proof.
  induction d as [|[k x] d IH]; [reflexivity|].
  cbn [json_dumps dumps_members] in *.
  destruct (json_dumps x) as [j|e]; [|reflexivity].
  match type of IH with
  | match ?F with _ => _ end = _ => destruct F as [js|e]
  end; destruct (dumps_members d) as [js'|e']; try discriminate;
    injection IH as ->; reflexivity.
Qed.

Lemma distinct_NoDup (l : list string) : distinct l = true <-> NoDup l.
Proof.
  induction l as [|k l IH]; simpl.
  - split; [constructor | reflexivity].
  - rewrite andb_true_iff, negb_true_iff, IH, NoDup_cons.
    assert (Hin : existsb (String.eqb k) l = false <-> k ∉ l).
    { rewrite <- not_true_iff_false, existsb_exists. split.
      - intros H Hk. apply H. exists k. split.
        + apply list_elem_of_In. exact Hk.
        + apply String.eqb_refl.
      - intros H (x & Hx & E). apply String.eqb_eq in E. subst x.
        apply H. apply list_elem_of_In. exact Hx. }
    rewrite Hin. reflexivity.
Qed.

Lemma dict_set_fresh (d : dict) k v :
  k ∉ map fst d -> dict_set d k v = (d ++ [(k, v)])%list.
Proof.
  induction d as [|[k0 v0] d IH]; simpl; intros H; [reflexivity|].
  apply not_elem_of_cons in H as [Hne H].
  destruct (String.eqb k0 k) eqn:E.
  - apply String.eqb_eq in E. congruence.
  - rewrite IH by exact H. reflexivity.
Qed.

Lemma loads_members (m : list (string * json)) (acc : dict) :
  NoDup (map fst acc ++ map fst m) ->
  fold_left (fun d kx => dict_set d (fst kx) (json_loads (snd kx))) m acc
  = (acc ++ map (fun kx => (fst kx, json_loads (snd kx))) m)%list.
Proof.
  revert acc. induction m as [|[k x] m IH]; intros acc H; simpl.
  - symmetry. apply app_nil_r.
  - rewrite dict_set_fresh.
    + rewrite IH.
      * rewrite <- app_assoc. reflexivity.
      * rewrite map_app. simpl. rewrite <- app_assoc. exact H.
    + apply NoDup_app in H as (_ & H & _). intros Hk.
      apply (H k Hk). simpl. left.
Qed.

Lemma pyval_size_elem (x : pyval) (l : list pyval) :
  x ∈ l -> (pyval_size x <= list_sum (map pyval_size l))%nat.
Proof.
  induction 1; simpl; lia.
Qed.

Lemma pyval_size_member (kv : string * pyval) (d : dict) :
  kv ∈ d ->
  (pyval_size (snd kv) <= list_sum (map (fun kv => pyval_size (snd kv)) d))%nat.
Proof.
  induction 1; simpl; lia.
Qed.

Lemma clone_items (l : list pyval) (js : list json) :
  (forall x j, x ∈ l -> keys_unique x = true -> json_dumps x = Ok j ->
               json_loads j = listify x) ->
  forallb keys_unique l = true ->
  dumps_items l = Ok js ->
  map json_loads js = map listify l.
Proof.
  revert js. induction l as [|x l IH]; intros js Hall Hk Hd; simpl in *.
  - injection Hd as <-. reflexivity.
  - apply andb_true_iff in Hk as [Hx Hk].
    destruct (json_dumps x) as [j|] eqn:Ej; [|discriminate].
    destruct (dumps_items l) as [js'|] eqn:Ejs; [|discriminate].
    injection Hd as <-. simpl.
    rewrite (Hall x j) by (try left; auto).
    rewrite (IH js') by (auto; intros; apply Hall; try right; auto).
    reflexivity.
Qed.

Lemma clone_members (d : dict) (js : list (string * json)) :
  (forall kv j, kv ∈ d -> keys_unique (snd kv) = true ->
                json_dumps (snd kv) = Ok j -> json_loads j = listify (snd kv)) ->
  forallb (fun kv => keys_unique (snd kv)) d = true ->
  dumps_members d = Ok js ->
  map fst js = map fst d /\
  map (fun kx => (fst kx, json_loads (snd kx))) js
  = map (fun kv => (fst kv, listify (snd kv))) d.
Proof.
  revert js. induction d as [|[k x] d IH]; intros js Hall Hk Hd; simpl in *.
  - injection Hd as <-. auto.
  - apply andb_true_iff in Hk as [Hx Hk].
    destruct (json_dumps x) as [j|] eqn:Ej; [|discriminate].
    destruct (dumps_members d) as [js'|] eqn:Ejs; [|discriminate].
    injection Hd as <-. simpl.
    rewrite (Hall (k, x) j) by (try left; auto).
    destruct (IH js') as [H1 H2]; auto.
    { intros; apply Hall; try right; auto. }
    rewrite H1, H2. auto.
Qed.

Lemma json_clone_bounded (n : nat) :
  forall v j, (pyval_size v < n)%nat -> keys_unique v = true ->
              json_dumps v = Ok j -> json_loads j = listify v.
Proof.
  induction n as [|n IH]; intros v j Hsize Hk Hd; [lia|].
  destruct v as [| | | | | |l|l|d]; try (injection Hd as <-; reflexivity);
    try discriminate.
  - rewrite json_dumps_tuple in Hd.
    destruct (dumps_items l) as [js|] eqn:E; [|discriminate].
    injection Hd as <-. cbn [json_loads listify]. f_equal.
    apply (clone_items l js); [|exact Hk|exact E].
    intros x j Hx. apply IH.
    pose proof (pyval_size_elem x l Hx). simpl in Hsize. lia.
  - rewrite json_dumps_list in Hd.
    destruct (dumps_items l) as [js|] eqn:E; [|discriminate].
    injection Hd as <-. cbn [json_loads listify]. f_equal.
    apply (clone_items l js); [|exact Hk|exact E].
    intros x j Hx. apply IH.
    pose proof (pyval_size_elem x l Hx). simpl in Hsize. lia.
  - rewrite json_dumps_dict in Hd.
    destruct (dumps_members d) as [js|] eqn:E; [|discriminate].
    injection Hd as <-. cbn [keys_unique] in Hk.
    apply andb_true_iff in Hk as [Hdist Hk].
    destruct (clone_members d js) as [H1 H2]; [|exact Hk|exact E|].
    { intros kv j Hkv. apply IH.
      pose proof (pyval_size_member kv d Hkv). simpl in Hsize. lia. }
    cbn [json_loads listify]. f_equal.
    rewrite loads_members.
    + exact H2.
    + simpl. rewrite H1. apply distinct_NoDup. exact Hdist.
Qed.

Lemma dumps_items_ext (l : list pyval) :
  (forall x, x ∈ l -> json_dumps (listify x) = json_dumps x) ->
  dumps_items (map listify l) = dumps_items l.
Proof.
  induction l as [|x l IH]; intros H; simpl; [reflexivity|].
  rewrite (H x) by left. rewrite IH by (intros; apply H; right; auto).
  reflexivity.
Qed.

Lemma dumps_members_ext (d : dict) :
  (forall kv, kv ∈ d -> json_dumps (listify (snd kv)) = json_dumps (snd kv)) ->
  dumps_members (map (fun kv => (fst kv, listify (snd kv))) d)
  = dumps_members d.
Proof.
  induction d as [|[k x] d IH]; intros H; simpl; [reflexivity|].
  assert (Hx : json_dumps (listify x) = json_dumps x)
    by (apply (H (k, x)); left).
  rewrite Hx. rewrite IH by (intros; apply H; right; auto).
  reflexivity.
Qed.

Lemma dumps_listify_bounded (n : nat) :
  forall v, (pyval_size v < n)%nat -> json_dumps (listify v) = json_dumps v.
Proof.
  induction n as [|n IH]; intros v Hsize; [lia|].
  destruct v as [| | | | | |l|l|d]; try reflexivity.
  - cbn [listify]. rewrite json_dumps_list, json_dumps_tuple.
    rewrite dumps_items_ext; [reflexivity|].
    intros x Hx. apply IH.
    pose proof (pyval_size_elem x l Hx). simpl in Hsize. lia.
  - cbn [listify]. rewrite !json_dumps_list.
    rewrite dumps_items_ext; [reflexivity|].
    intros x Hx. apply IH.
    pose proof (pyval_size_elem x l Hx). simpl in Hsize. lia.
  - cbn [listify]. rewrite !json_dumps_dict.
    rewrite dumps_members_ext; [reflexivity|].
    intros kv Hkv. apply IH.
    pose proof (pyval_size_member kv d Hkv). simpl in Hsize. lia.
Qed.

(** X29.  The clone [json.loads(json.dumps(v))] of a value that
    serializes is the value with every tuple turned into a list and
    nothing else changed: the same keys in the same order, the same
    numbers, strings and bools.  The clone serializes to the same
    document, so cloning it again gives the same value. *)
Theorem json_clone_listifies (v : pyval) (j : json) :
  keys_unique v = true ->
  json_dumps v = Ok j ->
  json_loads j = listify v /\
  json_dumps (json_loads j) = Ok j.
Proof.
  intros Hk Hd.
  assert (H : json_loads j = listify v).
  { apply (json_clone_bounded (S (pyval_size v))); auto. }
  split; [exact H|].
  rewrite H, (dumps_listify_bounded (S (pyval_size v))) by lia. exact Hd.
Qed.

Lemma json_clone_listifies_witness :
  json_loads
    (JObj [("crop_pos", JArr [JInt 15; JInt 15]); ("flip", JBool false);
           ("flip_x", JBool false); ("rotate", JInt 0)])
  = listify (PDict params_at_half) /\
  json_dumps
    (json_loads
       (JObj [("crop_pos", JArr [JInt 15; JInt 15]); ("flip", JBool false);
              ("flip_x", JBool false); ("rotate", JInt 0)]))
  = Ok (JObj [("crop_pos", JArr [JInt 15; JInt 15]); ("flip", JBool false);
              ("flip_x", JBool false); ("rotate", JInt 0)]).
Proof.
  apply (json_clone_listifies (PDict params_at_half)).
  - reflexivity.
  - reflexivity.
Defined.
